(** * The chatbot conversation service

    A shallow embedding of [apps/chatbot/services/chat_service.py]
    (class [ChatService]) and the properties of its orchestrator operations
    [start_conversation], [process_user_message] and [end_conversation], of
    the intent classifier, of the context maintenance and of the fallback
    responder.

    Conventions.
    - A Python [str] is a [string] of UTF-8 bytes; substring search on
      well-formed UTF-8 bytes agrees with substring search on code points.
    - A Python [float] is a rational [Q].  The only floats compared by the
      code are quotients [k / n] with [n] in {5, 6} and the literal [0.2];
      those are equal as floats exactly when they are equal as rationals.
    - A [datetime] is a number of seconds, in [Z].
    - A [dict] whose keys vary from one return statement to the next is an
      association list [dict]; a dict with a fixed schema is a record.
    - A value parsed by [json.loads] is a [json]; such a value may be
      anything JSON can hold, so reading it as a dict may raise.
    - Code that may raise runs in the monad [M]: a state transformer over the
      world of collaborators that yields an exception or a value. *)

From Stdlib Require Import String Ascii List ZArith QArith Qround Lia Bool.
From Stdlib Require Import DecimalString.
Import ListNotations.

Open Scope string_scope.
Open Scope list_scope.

(* ================================================================== *)
(** * Python values and builtins *)

Module Py.

(** Truth value of a [str]: the empty string is falsy. *)
Definition truthy (s : string) : bool := negb (String.eqb s "").

(** Truth value of an [Optional[str]]: [None] and [''] are falsy. *)
Definition truthy_opt (o : option string) : bool :=
  match o with
  | Some s => truthy s
  | None => false
  end.

(** [needle in hay] on strings. *)
Fixpoint contains (hay needle : string) : bool :=
  String.prefix needle hay
  || match hay with
     | EmptyString => false
     | String _ rest => contains rest needle
     end.

(** [x in l] on a list of strings. *)
Definition mem (x : string) (l : list string) : bool :=
  existsb (String.eqb x) l.

(** [l[-n:]] *)
Definition last_n {A : Type} (n : nat) (l : list A) : list A :=
  skipn (length l - n) l.

(** [a < b] on floats. *)
Definition Qlt_bool (a b : Q) : bool := negb (Qle_bool b a).

(** The values [json.loads] returns: [None], a [bool], an [int], a
    [float], a [str], a [list], or a [dict] given by its items, of
    distinct keys. *)
#[local] Unset Elimination Schemes.
Inductive json : Type :=
| JNull
| JBool (b : bool)
| JInt (z : Z)
| JFloat (q : Q)
| JStr (s : string)
| JList (l : list json)
| JObj (items : list (string * json)).
#[local] Set Elimination Schemes.

(** [bool(v)]: [None], [False], zero and the empty string, list and dict
    are falsy. *)
Definition truthy_json (v : json) : bool :=
  match v with
  | JNull => false
  | JBool b => b
  | JInt z => negb (z =? 0)%Z
  | JFloat q => negb (Qeq_bool q 0)
  | JStr s => truthy s
  | JList [] => false
  | JList (_ :: _) => true
  | JObj [] => false
  | JObj (_ :: _) => true
  end.

(** Whether [hash(v)] is defined: a list and a dict are unhashable. *)
Definition hashable (v : json) : bool :=
  match v with
  | JList _ | JObj _ => false
  | _ => true
  end.

(** [d.get(k)] on the items of a dict. *)
Fixpoint assoc (k : string) (items : list (string * json)) : option json :=
  match items with
  | [] => None
  | (k', v) :: rest => if String.eqb k k' then Some v else assoc k rest
  end.

(** The number a value compares as: [bool] is a subclass of [int]. *)
Definition number_of (v : json) : option Q :=
  match v with
  | JBool b => Some (if b then 1 else 0)
  | JInt z => Some (inject_Z z)
  | JFloat q => Some q
  | _ => None
  end.

(** [a == b]: numbers by value, strings and lists as sequences, dicts as
    maps, whatever the order of their items. *)
Fixpoint eqb (a b : json) {struct a} : bool :=
  match a, b with
  | JNull, JNull => true
  | JStr s, JStr t => String.eqb s t
  | JList l, JList m =>
      (fix all2 (l m : list json) : bool :=
         match l, m with
         | [], [] => true
         | x :: l', y :: m' => eqb x y && all2 l' m'
         | _, _ => false
         end) l m
  | JObj l, JObj m =>
      Nat.eqb (length l) (length m)
      && (fix all (l : list (string * json)) : bool :=
            match l with
            | [] => true
            | (k, v) :: l' =>
                match assoc k m with
                | Some v' => eqb v v'
                | None => false
                end && all l'
            end) l
  | _, _ =>
      match number_of a, number_of b with
      | Some x, Some y => Qeq_bool x y
      | _, _ => false
      end
  end.

(** [x in l] on a list of parsed values. *)
Definition mem_json (x : json) (l : list json) : bool :=
  existsb (fun y => eqb y x) l.

(** The values found in the result dicts. *)
Inductive value : Type :=
| VNone
| VBool (b : bool)
| VInt (z : Z)
| VNum (q : Q)
| VStr (s : string)
| VList (l : list string)
| VJson (j : json).

Definition dict : Type := list (string * value).

(** [d.get(k)]; [None] here also stands for a missing key. *)
Fixpoint get (k : string) (d : dict) : option value :=
  match d with
  | [] => None
  | (k', v) :: rest => if String.eqb k k' then Some v else get k rest
  end.

(** [k in d] *)
Definition has_key (k : string) (d : dict) : bool :=
  match get k d with
  | Some _ => true
  | None => false
  end.

Definition of_opt_str (o : option string) : value :=
  match o with
  | Some s => VStr s
  | None => VNone
  end.

Definition of_opt_num (o : option Q) : value :=
  match o with
  | Some q => VNum q
  | None => VNone
  end.

(** A parsed value as a result value. *)
Definition of_json (v : json) : value :=
  match v with
  | JNull => VNone
  | JBool b => VBool b
  | JInt z => VInt z
  | JFloat q => VNum q
  | JStr s => VStr s
  | _ => VJson v
  end.

(** [max(d, key=d.get)] on a dict given as an association list in
    insertion order: the first key whose value is maximal, since a later
    item replaces the current best only when it is strictly greater. *)
Fixpoint max_from (best : string * Q) (rest : list (string * Q))
  : string * Q :=
  match rest with
  | [] => best
  | x :: rest' =>
      if Qlt_bool (snd best) (snd x) then max_from x rest'
      else max_from best rest'
  end.

Definition max_by_value (d : list (string * Q)) : option (string * Q) :=
  match d with
  | [] => None
  | x :: rest => Some (max_from x rest)
  end.

End Py.

(* ================================================================== *)
(** * Data model *)

(** The dict [_rule_based_intent_analysis] builds; a field is [Some] of
    the value under the key. *)
Record intent_analysis : Type := {
  intent : option string;
  confidence : option Q;
  secondary_intents : option (list string);
  keywords : option (list string);
  urgency_level : option string;
  requires_personalization : option bool
}.

(** The items a field gives: none for a key the dict lacks. *)
Definition field {A : Type} (k : string) (inj : A -> Py.json)
  (o : option A) : list (string * Py.json) :=
  match o with
  | Some v => [(k, inj v)]
  | None => []
  end.

(** The dict of an intent analysis as a value: what is cached, and what
    flows where a parsed backend reply may flow as well. *)
Definition dict_of (r : intent_analysis) : Py.json :=
  Py.JObj
    (field "intent" Py.JStr (intent r)
       ++ field "confidence" Py.JFloat (confidence r)
       ++ field "secondary_intents"
            (fun l => Py.JList (map Py.JStr l)) (secondary_intents r)
       ++ field "keywords" (fun l => Py.JList (map Py.JStr l)) (keywords r)
       ++ field "urgency_level" Py.JStr (urgency_level r)
       ++ field "requires_personalization" Py.JBool
            (requires_personalization r)).

(** A dict that holds an intent and nothing else. *)
Definition payload_of (i : Py.json) : Py.json := Py.JObj [("intent", i)].

Record User : Type := {
  user_id : Z;
  first_name : string
}.

Module Conversation.
Record t : Type := {
  id : Z;
  user : User;
  conversation_type : string;
  status : string;
  created_at : Z;
  ai_model_used : string;
  user_satisfaction_rating : option Q;
  message_count : Z
}.

Definition with_status (s : string) (c : t) : t :=
  {| id := id c; user := user c;
     conversation_type := conversation_type c;
     status := s; created_at := created_at c;
     ai_model_used := ai_model_used c;
     user_satisfaction_rating := user_satisfaction_rating c;
     message_count := message_count c |}.

Definition with_rating (r : Q) (c : t) : t :=
  {| id := id c; user := user c;
     conversation_type := conversation_type c;
     status := status c; created_at := created_at c;
     ai_model_used := ai_model_used c;
     user_satisfaction_rating := Some r;
     message_count := message_count c |}.
End Conversation.

Module Message.
Record t : Type := {
  id : Z;
  conversation : Z;
  message_type : string;
  content : string;
  status : string;
  confidence_score : option Q;
  ai_model_version : option string;
  response_time_ms : option Q;
  tokens_used : option Q;
  intent_detected : option string
}.

Definition with_id (i : Z) (m : t) : t :=
  {| id := i; conversation := conversation m;
     message_type := message_type m; content := content m;
     status := status m; confidence_score := confidence_score m;
     ai_model_version := ai_model_version m;
     response_time_ms := response_time_ms m;
     tokens_used := tokens_used m;
     intent_detected := intent_detected m |}.

Definition with_intent_detected (i : option string) (m : t) : t :=
  {| id := id m; conversation := conversation m;
     message_type := message_type m; content := content m;
     status := status m; confidence_score := confidence_score m;
     ai_model_version := ai_model_version m;
     response_time_ms := response_time_ms m;
     tokens_used := tokens_used m;
     intent_detected := i |}.
End Message.

Module UserProfile.
Record t : Type := {
  user : Z;
  goal : option string;
  activity_level : option string;
  focus_areas : option string;
  age : option Z;
  current_weight : option Q;
  target_weight : option Q
}.
End UserProfile.

Module WorkoutSession.
Record t : Type := {
  user : Z;
  workout_name : option string;   (* [None]: the session has no workout *)
  completed : bool;
  completed_at : Z;
  user_rating : option Q;
  actual_duration : option Z
}.
End WorkoutSession.

(** One entry of the ['recent_sessions'] list. *)
Record workout_entry : Type := {
  entry_workout_name : string;
  entry_completed_at : string;
  entry_rating : option Q;
  entry_duration : option Z
}.

(** The values written under a context key: one constructor per dict
    literal passed to [ChatContext.set_context], with the values of its
    keys. *)
Inductive context_value : Type :=
| CV_basic_info (p : UserProfile.t)
| CV_profile_complete (profile_complete : bool)
| CV_recent_sessions (l : list workout_entry)
| CV_conversation_style (preferred_response_length technical_level : string)
| CV_message_style (prefers_detailed : bool) (last_message_length : nat)
| CV_topics (topics : list Py.json).

(** [context_value.get('topics', [])] *)
Definition get_topics (v : context_value) : list Py.json :=
  match v with
  | CV_topics l => l
  | _ => []
  end.

Module ChatContext.
Record t : Type := {
  conversation : Z;
  context_type : string;
  context_key : string;
  context_value_ : context_value;
  relevance : Q
}.
End ChatContext.

(** A chat-style message sent to the completion backend. *)
Record chat_message : Type := {
  role : string;
  chat_content : string
}.

(** The dict built by [_build_conversation_context]:
    context type -> context key -> value. *)
Definition context_data : Type :=
  list (string * list (string * context_value)).

(** The dict built by [_process_ai_response]. *)
Record ai_response : Type := {
  success : bool;
  ai_content : string;
  ai_confidence_score : Q;
  suggested_actions : list string;
  workout_references : list string
}.

(** The dict built by [_generate_welcome_message]. *)
Record welcome : Type := {
  welcome_content : string;
  welcome_confidence : Q;
  welcome_response_time : Q
}.

(* ================================================================== *)
(** * The Python runtime and the text templates

    The builtins the service calls, and the prompt templates it sends to the
    completion backend, are parameters of the development: every theorem
    below holds for each implementation of them. *)

Class Runtime : Type := {
  (** [str.lower()] *)
  str_lower : string -> string;
  (** [str.split()] *)
  str_split : string -> list string;
  (** [str.strip()] *)
  str_strip : string -> string;
  (** [hash(str)] *)
  str_hash : string -> Z;
  (** the decimal text of an [int] inside an f-string *)
  str_of_int : Z -> string;
  (** [round(x, 2)] *)
  round2 : Q -> Q;
  (** [round(x)] *)
  round0 : Q -> Q;
  (** [json.loads]: [None] when it raises *)
  json_loads : string -> option Py.json;
  (** [str(v)] for a parsed value that is not a [str] *)
  str_of_json : Py.json -> string;
  (** the text of a context value inside an f-string *)
  str_of_context_value : context_value -> string;
  (** [datetime.strftime('%d/%m/%Y')] *)
  strftime_dmy : Z -> string;
  (** [getattr(settings, 'OPENAI_MODEL', ...)]: [None] when unset *)
  settings_OPENAI_MODEL : option string;
  (** the two chat messages built by [_ai_intent_analysis] *)
  intent_prompt : string -> list chat_message;
  (** the two chat messages built by [_ai_welcome_message] *)
  welcome_prompt : string -> string -> context_data -> list chat_message
}.

(** [getattr(settings, 'OPENAI_MODEL', 'gpt-3.5-turbo')] *)
Definition OPENAI_MODEL {R : Runtime} : string :=
  match settings_OPENAI_MODEL with
  | Some m => m
  | None => "gpt-3.5-turbo"
  end.

(* ================================================================== *)
(** * Exceptions and the monad of the service *)

(** The subclasses of [Exception] the service tells apart. *)
Inductive exn : Type :=
| Conversation_DoesNotExist
| UserProfile_DoesNotExist
| Exception (what : string).

Definition M (W A : Type) : Type := W -> (exn + A) * W.

Definition ret {W A : Type} (a : A) : M W A := fun w => (inr a, w).

Definition raise {W A : Type} (e : exn) : M W A := fun w => (inl e, w).

Definition bind {W A B : Type} (m : M W A) (k : A -> M W B) : M W B :=
  fun w =>
    match m w with
    | (inl e, w') => (inl e, w')
    | (inr a, w') => k a w'
    end.

(** [try: m  except <class> as e: h e].  What [m] did to the world before it
    raised stays done. *)
Definition try_except {W A : Type} (m : M W A) (h : exn -> M W A) : M W A :=
  fun w =>
    match m w with
    | (inl e, w') => h e w'
    | (inr a, w') => (inr a, w')
    end.

(** Reading the world without changing it. *)
Definition gets {W A : Type} (f : W -> A) : M W A := fun w => (inr (f w), w).

(** A step that does not touch the world and may raise. *)
Definition lift {W A : Type} (r : exn + A) : M W A := fun w => (r, w).

(** [a.get(k, default)]: a value that is not a dict has no [get]. *)
Definition dict_get (k : string) (default : Py.json) (a : Py.json)
  : exn + Py.json :=
  match a with
  | Py.JObj items =>
      inr match Py.assoc k items with
          | Some v => v
          | None => default
          end
  | _ => inl (Exception "AttributeError: no attribute 'get'")
  end.

(** [d.get(k)] on a dict literal with string keys. *)
Fixpoint lookup {A : Type} (k : string) (d : list (string * A))
  : option A :=
  match d with
  | [] => None
  | (k', v) :: rest => if String.eqb k k' then Some v else lookup k rest
  end.

(** [d.get(key)] and [key in d] on a dict literal with string keys, for a
    key that is a parsed value: hashing a list or a dict raises, and only
    a string is equal to a string. *)
Definition literal_get {A : Type} (key : Py.json) (d : list (string * A))
  : exn + option A :=
  if Py.hashable key
  then inr match key with
           | Py.JStr s => lookup s d
           | _ => None
           end
  else inl (Exception "TypeError: unhashable type").

Declare Scope monad_scope.
Delimit Scope monad_scope with monad.
Notation "x <- m ;; k" := (bind m (fun x => k))
  (at level 61, m at next level, right associativity) : monad_scope.
Notation "m ;; k" := (bind m (fun _ => k))
  (at level 61, right associativity) : monad_scope.
Open Scope monad_scope.

(* ================================================================== *)
(** * The collaborators

    The persistence layer, the cache, the completion backend and the clocks,
    as the service calls them.  Every call but a clock reading may raise. *)

Class Collaborators (W : Type) : Type := {
  (** [time.time()], in seconds *)
  time_time : W -> Q;
  (** [timezone.now()] *)
  timezone_now : W -> Z;
  (** [Conversation.objects.filter(user=, status=, created_at__gte=).first()] *)
  Conversation_filter_first : User -> string -> Z -> M W (option Conversation.t);
  (** [Conversation.objects.create(user=, conversation_type=, ai_model_used=)] *)
  Conversation_create : User -> string -> string -> M W Conversation.t;
  (** [Conversation.objects.get(id=)]; raises [Conversation_DoesNotExist] *)
  Conversation_get : Z -> M W Conversation.t;
  (** [conversation.save()] *)
  Conversation_save : Conversation.t -> M W unit;
  (** [conversation.is_expired()] *)
  Conversation_is_expired : Conversation.t -> M W bool;
  (** [conversation.get_last_messages(n)] *)
  Conversation_get_last_messages : Conversation.t -> nat -> M W (list Message.t);
  (** [Message.objects.create(...)]: the argument's [id] is ignored *)
  Message_create : Message.t -> M W Message.t;
  (** [message.save()] *)
  Message_save : Message.t -> M W unit;
  (** [ChatContext.set_context(conversation, type, key, value, relevance=)] *)
  ChatContext_set_context :
    Conversation.t -> string -> string -> context_value -> Q -> M W unit;
  (** [ChatContext.get_context(conversation)] *)
  ChatContext_get_all : Conversation.t -> M W (list ChatContext.t);
  (** [ChatContext.get_context(conversation, type, key)] *)
  ChatContext_get_context :
    Conversation.t -> string -> string -> M W (list ChatContext.t);
  (** [UserProfile.objects.get(user=)]; raises [UserProfile_DoesNotExist] *)
  UserProfile_get : User -> M W UserProfile.t;
  (** [WorkoutSession.objects.filter(user=, completed=True,
      completed_at__gte=).order_by('-completed_at')[:n]] *)
  WorkoutSession_recent : User -> Z -> nat -> M W (list WorkoutSession.t);
  (** [cache.get(key)]: [None] when there is no live entry *)
  cache_get : string -> M W (option Py.json);
  (** [cache.set(key, value, timeout)] *)
  cache_set : string -> Py.json -> Z -> M W unit;
  (** [ai_service.is_available] *)
  ai_is_available : M W bool;
  (** [ai_service._make_openai_request(messages, max_tokens=, temperature=)] *)
  _make_openai_request : list chat_message -> nat -> Q -> M W (option string)
}.

(* ================================================================== *)
(** * The service: class [ChatService] *)

Definition max_context_messages : nat := 10.
Definition conversation_timeout_hours : Z := 24.

(** ** Intent classification by rules *)

(** The keyword table of [_rule_based_intent_analysis], in the order of the
    dict literal. *)
Definition intent_keywords : list (string * list string) :=
  [ ("workout_request",
      ["treino"; "exercício"; "workout"; "série"; "repetição"; "treinar"]);
    ("technique_question",
      ["como"; "técnica"; "forma"; "postura"; "execução"; "executar"]);
    ("nutrition_advice",
      ["alimentação"; "dieta"; "nutrição"; "proteína"; "comer"; "comida"]);
    ("progress_inquiry",
      ["progresso"; "resultado"; "evolução"; "melhora"; "crescimento"]);
    ("motivation_need",
      ["motivação"; "desânimo"; "preguiça"; "força"; "conseguir"]);
    ("equipment_question",
      ["equipamento"; "aparelho"; "peso"; "halteres"; "academia"]);
    ("injury_concern",
      ["dor"; "lesão"; "machuca"; "problema"; "desconforto"]);
    ("schedule_planning",
      ["rotina"; "horário"; "frequência"; "quando"; "quantas vezes"]) ].

(** [sum([1 for keyword in keywords if keyword in message_lower])] *)
Definition keyword_hits (message_lower : string) (keywords : list string)
  : nat :=
  length (filter (Py.contains message_lower) keywords).

(** [score / len(keywords)] *)
Definition ratio (score len : nat) : Q :=
  inject_Z (Z.of_nat score) / inject_Z (Z.of_nat len).

(** The loop that fills [intent_scores]: an intent gets an entry only when
    at least one of its keywords occurs. *)
Fixpoint intent_scores_of (message_lower : string)
  (table : list (string * list string)) : list (string * Q) :=
  match table with
  | [] => []
  | (intent, keywords) :: table' =>
      let score := keyword_hits message_lower keywords in
      if (0 <? score)%nat
      then (intent, ratio score (length keywords))
             :: intent_scores_of message_lower table'
      else intent_scores_of message_lower table'
  end.

(** ** The texts of the prompt builder *)

(** [context_data.get(ty, {})] *)
Fixpoint get_section (ty : string) (data : context_data)
  : list (string * context_value) :=
  match data with
  | [] => []
  | (ty', inner) :: rest =>
      if String.eqb ty ty' then inner else get_section ty rest
  end.

(** [inner.get(k)] *)
Fixpoint get_key (k : string) (inner : list (string * context_value))
  : option context_value :=
  match inner with
  | [] => None
  | (k', v) :: rest => if String.eqb k k' then Some v else get_key k rest
  end.

(** [len(v)] for a context value: the number of keys of the dict literal
    it stands for. *)
Definition value_len (v : context_value) : nat :=
  match v with
  | CV_basic_info _ => 6
  | CV_profile_complete _ => 1
  | CV_recent_sessions _ => 1
  | CV_conversation_style _ _ => 2
  | CV_message_style _ _ => 2
  | CV_topics _ => 1
  end.

Module Prompt.

Definition nl : string := String (ascii_of_nat 10) "".

(** The persona block, the initial value of [base_prompt]. *)
Definition persona : string :=
  String.concat nl
    [ "Você é Alex, um personal trainer virtual especialista em fitness com 10 anos de experiência.";
      "";
      "PERSONALIDADE:";
      "- Amigável, motivador e profissional";
      "- Usa linguagem clara e acessível";
      "- Encoraja sem ser excessivo";
      "- Foca na segurança e na progressão gradual";
      "- Baseado em evidência científica";
      "";
      "DIRETRIZES DE RESPOSTA:";
      "- Máximo 200 palavras por resposta";
      "- Use emojis ocasionalmente para engajamento";
      "- Seja específico e prático";
      "- Sempre priorize a segurança";
      "- Adapte ao nível do usuário" ].

(** The dict literal [intent_contexts]. *)
Definition intent_contexts : list (string * string) :=
  [
    ("workout_request",
      (nl ++ "FOCO: Recomende exercícios seguros e progressivos. Sempre inclua aquecimento e alongamento.")%string);
    ("technique_question",
      (nl ++ "FOCO: Explique técnica com clareza, enfatize segurança e sugira progressões.")%string);
    ("nutrition_advice",
      (nl ++ "FOCO: Dê orientações gerais, sempre recomende consulta com nutricionista para planos específicos.")%string);
    ("progress_inquiry",
      (nl ++ "FOCO: Analise dados disponíveis, celebre conquistas e sugira próximos passos.")%string);
    ("motivation_need",
      (nl ++ "FOCO: Seja encorajador, lembre dos benefícios e sugira estratégias práticas.")%string);
    ("injury_concern",
      (nl ++ "FOCO: Priorize segurança, recomende descanso se necessário e consulta profissional.")%string) ].

Definition closing : string :=
  (nl ++ nl ++ "Sempre termine perguntando se precisa de mais alguma coisa ou esclarecimento adicional.")%string.

(** The focus line of an intent: that of the table, none for an intent
    the table does not hold. *)
Definition focus_line (i : option string) : string :=
  match lookup match i with
               | Some i => i
               | None => "general_question"
               end intent_contexts with
  | Some focus => focus
  | None => ""
  end.

End Prompt.

Section Service.

Context {R : Runtime}.

Definition _rule_based_intent_analysis (message : string)
  : intent_analysis :=
  let message_lower := str_lower message in
  let intent_scores := intent_scores_of message_lower intent_keywords in
  let '(main_intent, confidence) :=
    match Py.max_by_value intent_scores with
    | Some (main_intent, score) => (main_intent, score)
    | None => ("general_question", 0.5%Q)
    end in
  {| intent := Some main_intent;
     confidence := Some confidence;
     secondary_intents :=
       Some (map fst
               (filter (fun '(intent, score) =>
                          negb (String.eqb intent main_intent)
                          && Py.Qlt_bool 0.2 score)
                       intent_scores));
     keywords :=
       Some (filter (fun word =>
                       existsb (fun '(_, keywords) => Py.mem word keywords)
                               intent_keywords)
                    (str_split message_lower));
     urgency_level :=
       Some (if existsb (Py.contains message_lower)
                        ["dor"; "lesão"; "urgente"]
             then "high" else "medium");
     requires_personalization := Some true |}.

(** ** Post-processing of a generated reply *)

Definition action_patterns : list (string * list string) :=
  [ ("try_exercise", ["experimente"; "tente fazer"; "faça"]);
    ("rest_recovery", ["descanse"; "pause"; "recuperação"]);
    ("seek_professional",
      ["consulte"; "procure um"; "médico"; "fisioterapeuta"]);
    ("schedule_workout", ["agende"; "planeje"; "organize"]);
    ("track_progress", ["anote"; "registre"; "acompanhe"]) ].

Definition common_exercises : list string :=
  ["agachamento"; "flexão"; "corrida"; "caminhada"; "prancha";
   "abdominais"].

Definition _process_ai_response (response : string)
  (intent_analysis : Py.json) : ai_response :=
  let response_lower := str_lower response in
  {| success := true;
     ai_content := response;
     ai_confidence_score := 0.8%Q;
     suggested_actions :=
       map fst
         (filter (fun '(_, patterns) =>
                    existsb (Py.contains response_lower) patterns)
                 action_patterns);
     workout_references :=
       filter (Py.contains response_lower) common_exercises |}.

(** ** The fallback responder *)

(** The dict literal [fallback_responses], for a given user name. *)
Definition fallback_responses (user_name : string)
  : list (string * string) :=
  [ ("workout_request",
      ("Olá, " ++ user_name ++ "! Para recomendações de treino personalizadas, que tal começarmos com alguns exercícios básicos? Posso sugerir um treino de corpo inteiro com agachamentos, flexões e prancha. Você tem alguma preferência específica ou restrição?")%string);
    ("technique_question",
      ("Ótima pergunta sobre técnica, " ++ user_name ++ "! A execução correta é fundamental para evitar lesões e maximizar resultados. Para exercícios específicos, sempre foque em: postura correta, movimento controlado, respiração adequada e progressão gradual. Sobre qual exercício você gostaria de saber mais?")%string);
    ("nutrition_advice",
      ("Nutrição é super importante, " ++ user_name ++ "! Algumas dicas básicas: mantenha-se hidratado, inclua proteínas em cada refeição, e consuma vegetais variados. Para um plano nutricional específico, recomendo consultar um nutricionista qualificado. Posso ajudar com mais alguma coisa sobre fitness?")%string);
    ("progress_inquiry",
      ("Que bom que você está acompanhando seu progresso, " ++ user_name ++ "! O importante é a consistência. Celebre cada pequena vitória e lembre-se que resultados levam tempo. Continue firme na sua rotina! Como você tem se sentido nos treinos recentes?")%string);
    ("motivation_need",
      ("Entendo, " ++ user_name ++ ". Todos passamos por momentos assim! Lembre-se: cada treino é um investimento na sua saúde e bem-estar. Comece pequeno se necessário - até 10 minutos já fazem diferença. Você é mais forte do que imagina! O que te motivou a começar essa jornada?")%string);
    ("injury_concern",
      ("Sua segurança é prioridade, " ++ user_name ++ ". Se você está sentindo dor, é importante parar e avaliar. Para dores persistentes, sempre consulte um profissional de saúde. No treino, escute sempre seu corpo. Posso ajudar com exercícios de baixo impacto enquanto se recupera?")%string);
    ("general_question",
      ("Oi, " ++ user_name ++ "! Estou aqui para ajudar com suas dúvidas sobre fitness. Posso orientar sobre exercícios, técnicas, motivação e planejamento de treinos. No que posso te auxiliar hoje?")%string) ].

(** [d[k]] for a key the literal is known to hold. *)
Definition lookup_or_empty (k : string) (d : list (string * string))
  : string :=
  match lookup k d with
  | Some v => v
  | None => ""
  end.

(** Raises when the analysis is not a dict, and when its intent is
    unhashable. *)
Definition _generate_fallback_response (conversation : Conversation.t)
  (message : string) (intent_analysis : Py.json) : exn + string :=
  match dict_get "intent" (Py.JStr "general_question") intent_analysis with
  | inl e => inl e
  | inr intent =>
      let user_name :=
        if Py.truthy (first_name (Conversation.user conversation))
        then first_name (Conversation.user conversation)
        else "amigo(a)" in
      let fallback_responses := fallback_responses user_name in
      match literal_get intent fallback_responses with
      | inl e => inl e
      | inr (Some text) => inr text
      | inr None =>
          inr (lookup_or_empty "general_question" fallback_responses)
      end
  end.

(** ** The prompt builder *)

(** A context value is a non-empty dict, hence truthy, so
    [if user_profile.get('goal')] tests the presence of the key.  Raises
    when the analysis is not a dict, and when its intent is unhashable. *)
Definition _build_fitness_chat_system_prompt (intent_analysis : Py.json)
  (context_data : context_data) : exn + string :=
  let user_profile := get_section "user_profile" context_data in
  let workout_history := get_section "workout_history" context_data in
  let base_prompt := Prompt.persona in
  let base_prompt :=
    match get_key "goal" user_profile with
    | Some goal =>
        (base_prompt ++ Prompt.nl ++ Prompt.nl ++ "OBJETIVO DO USUÁRIO: "
           ++ str_of_context_value goal)%string
    | None => base_prompt
    end in
  let base_prompt :=
    match get_key "activity_level" user_profile with
    | Some level =>
        (base_prompt ++ Prompt.nl ++ "NÍVEL ATUAL: "
           ++ str_of_context_value level)%string
    | None => base_prompt
    end in
  match dict_get "intent" (Py.JStr "general_question") intent_analysis with
  | inl e => inl e
  | inr intent =>
      match literal_get intent Prompt.intent_contexts with
      | inl e => inl e
      | inr focus =>
          let base_prompt :=
            match focus with
            | Some focus => (base_prompt ++ focus)%string
            | None => base_prompt
            end in
          let base_prompt :=
            match get_key "recent_sessions" workout_history with
            | Some sessions =>
                (base_prompt ++ Prompt.nl ++ Prompt.nl
                   ++ "HISTÓRICO RECENTE: "
                   ++ str_of_int (Z.of_nat (value_len sessions))
                   ++ " treinos realizados recentemente.")%string
            | None => base_prompt
            end in
          inr (base_prompt ++ Prompt.closing)%string
      end
  end.

(** ** The stateful part *)

Context {W : Type} {C : Collaborators W}.

(** [time.time()] and [timezone.now()] read the clock and cannot raise. *)
Definition now_time : M W Q := gets time_time.
Definition now_datetime : M W Z := gets timezone_now.

Definition _save_user_message (conversation : Conversation.t)
  (content : string) : M W Message.t :=
  Message_create
    {| Message.id := 0;
       Message.conversation := Conversation.id conversation;
       Message.message_type := "user";
       Message.content := content;
       Message.status := "delivered";
       Message.confidence_score := None;
       Message.ai_model_version := None;
       Message.response_time_ms := None;
       Message.tokens_used := None;
       Message.intent_detected := None |}.

(** What a nullable text column holds for a value assigned to it: [None],
    the string, or the [str()] of a value that is not a string. *)
Definition char_column (v : Py.json) : option string :=
  match v with
  | Py.JNull => None
  | Py.JStr s => Some s
  | _ => Some (str_of_json v)
  end.

Definition _save_ai_message (conversation : Conversation.t)
  (content : string) (response_time_ms confidence_score : Q)
  (intent : Py.json) : M W Message.t :=
  Message_create
    {| Message.id := 0;
       Message.conversation := Conversation.id conversation;
       Message.message_type := "ai";
       Message.content := content;
       Message.status := "delivered";
       Message.confidence_score := Some confidence_score;
       Message.ai_model_version := Some OPENAI_MODEL;
       Message.response_time_ms := Some response_time_ms;
       Message.tokens_used :=
         Some (inject_Z (Z.of_nat (length (str_split content))) * 1.3)%Q;
       Message.intent_detected := char_column intent |}.

(** [context_data[context_type][context_key] = context_value] *)
Fixpoint set_key (k : string) (v : context_value)
  (d : list (string * context_value)) : list (string * context_value) :=
  match d with
  | [] => [(k, v)]
  | (k', v') :: rest =>
      if String.eqb k k' then (k, v) :: rest
      else (k', v') :: set_key k v rest
  end.

Fixpoint set_nested (ty k : string) (v : context_value)
  (d : context_data) : context_data :=
  match d with
  | [] => [(ty, [(k, v)])]
  | (ty', inner) :: rest =>
      if String.eqb ty ty' then (ty', set_key k v inner) :: rest
      else (ty', inner) :: set_nested ty k v rest
  end.

Definition _build_conversation_context (conversation : Conversation.t)
  : M W context_data :=
  contexts <- ChatContext_get_all conversation ;;
  ret (fold_left
         (fun context_data context =>
            set_nested (ChatContext.context_type context)
                       (ChatContext.context_key context)
                       (ChatContext.context_value_ context)
                       context_data)
         contexts []).

Definition _initialize_conversation_context
  (conversation : Conversation.t) : M W unit :=
  try_except
    (let user := Conversation.user conversation in
     try_except
       (profile <- UserProfile_get user ;;
        ChatContext_set_context conversation "user_profile" "basic_info"
          (CV_basic_info profile) 1.0%Q)
       (fun e =>
          match e with
          | UserProfile_DoesNotExist =>
              ChatContext_set_context conversation
                "user_profile" "basic_info" (CV_profile_complete false)
                0.5%Q
          | _ => raise e
          end) ;;
     now <- now_datetime ;;
     recent_sessions <-
       WorkoutSession_recent user (now - 7 * 86400)%Z 5 ;;
     let workout_history :=
       map (fun session =>
              {| entry_workout_name :=
                   match WorkoutSession.workout_name session with
                   | Some name => name
                   | None => "Treino Personalizado"
                   end;
                 entry_completed_at :=
                   strftime_dmy (WorkoutSession.completed_at session);
                 entry_rating := WorkoutSession.user_rating session;
                 entry_duration :=
                   WorkoutSession.actual_duration session |})
           recent_sessions in
     ChatContext_set_context conversation
       "workout_history" "recent_workouts"
       (CV_recent_sessions workout_history) 0.8%Q ;;
     ChatContext_set_context conversation
       "preferences" "conversation_style"
       (CV_conversation_style "medium" "intermediate") 0.6%Q)
    (fun _ => ret tt).

(** Returns what [json.loads] makes of the reply, whatever it is;
    [JNull] stands for the [None] of the other paths as well. *)
Definition _ai_intent_analysis (message : string)
  (conversation : Conversation.t) : M W Py.json :=
  try_except
    (response <- _make_openai_request (intent_prompt message) 200 0.3%Q ;;
     match response with
     | Some text =>
         if Py.truthy text
         then match json_loads text with
              | Some parsed => ret parsed
              | None => raise (Exception "JSONDecodeError")
              end
         else ret Py.JNull
     | None => ret Py.JNull
     end)
    (fun _ => ret Py.JNull).

Definition cache_key (message : string) : string :=
  ("intent_analysis_" ++ str_of_int (str_hash (str_lower message)))%string.

(** [cached_intent] is [JNull] when the cache has no live entry. *)
Definition _analyze_message_intent (message : string)
  (conversation : Conversation.t) : M W Py.json :=
  try_except
    (let cache_key := cache_key message in
     cached_intent <- cache_get cache_key ;;
     let cached_intent :=
       match cached_intent with
       | Some cached => cached
       | None => Py.JNull
       end in
     if Py.truthy_json cached_intent then ret cached_intent
     else
       available <- ai_is_available ;;
       ai_intent <-
         (if available then _ai_intent_analysis message conversation
          else ret Py.JNull) ;;
       if Py.truthy_json ai_intent
       then
         cache_set cache_key ai_intent 3600 ;;
         ret ai_intent
       else
         let rule_intent := dict_of (_rule_based_intent_analysis message) in
         cache_set cache_key rule_intent 1800 ;;
         ret rule_intent)
    (fun _ =>
       ret (Py.JObj [ ("intent", Py.JStr "general_question");
                      ("confidence", Py.JFloat 0.5%Q) ])).

Definition _update_conversation_context (conversation : Conversation.t)
  (message : string) (intent_analysis : Py.json) : M W unit :=
  try_except
    (let message_length := length (str_split message) in
     (if (20 <? message_length)%nat
      then ChatContext_set_context conversation
             "preferences" "message_style"
             (CV_message_style true message_length) 0.7%Q
      else ret tt) ;;
     intent <- lift (dict_get "intent" Py.JNull intent_analysis) ;;
     if Py.truthy_json intent
     then
       found <- ChatContext_get_context conversation
                  "preferences" "topics_of_interest" ;;
       match found with
       | current_topics :: _ =>
           let topics :=
             get_topics (ChatContext.context_value_ current_topics) in
           let topics :=
             if negb (Py.mem_json intent topics)
             then Py.last_n 5 (topics ++ [intent])
             else topics in
           ChatContext_set_context conversation
             "preferences" "topics_of_interest" (CV_topics topics) 0.6%Q
       | [] =>
           ChatContext_set_context conversation
             "preferences" "topics_of_interest" (CV_topics [intent]) 0.6%Q
       end
     else ret tt)
    (fun _ => ret tt).

Definition _generate_ai_response (conversation : Conversation.t)
  (message : string) (intent_analysis : Py.json)
  : M W (option ai_response) :=
  available <- ai_is_available ;;
  if negb available then ret None
  else
    try_except
      (context_data <- _build_conversation_context conversation ;;
       recent_messages <- Conversation_get_last_messages conversation 8 ;;
       let conversation_history :=
         map (fun msg =>
                {| role := if String.eqb (Message.message_type msg) "user"
                           then "user" else "assistant";
                   chat_content := Message.content msg |})
             (rev recent_messages) in
       system_prompt <-
         lift (_build_fitness_chat_system_prompt
                 intent_analysis context_data) ;;
       let messages :=
         [{| role := "system"; chat_content := system_prompt |}]
           ++ Py.last_n 6 conversation_history
           ++ [{| role := "user"; chat_content := message |}] in
       response <- _make_openai_request messages 500 0.7%Q ;;
       match response with
       | Some text =>
           if Py.truthy text
           then ret (Some (_process_ai_response text intent_analysis))
           else ret None
       | None => ret None
       end)
      (fun _ => ret None).

Definition _ai_welcome_message (user_name conversation_type : string)
  (context_data : context_data) : M W (option welcome) :=
  try_except
    (let messages :=
       welcome_prompt user_name conversation_type context_data in
     start_time <- now_time ;;
     response <- _make_openai_request messages 150 0.8%Q ;;
     match response with
     | Some text =>
         if Py.truthy text
         then
           end_time <- now_time ;;
           ret (Some {| welcome_content := str_strip text;
                        welcome_confidence := 0.9%Q;
                        welcome_response_time :=
                          round0 ((end_time - start_time) * 1000)%Q |})
         else ret None
     | None => ret None
     end)
    (fun _ => ret None).

(** The dict literal [type_messages], for a given user name. *)
Definition type_messages (user_name : string) : list (string * string) :=
  [ ("workout_consultation",
      ("Olá, " ++ user_name ++ "! 💪 Sou Alex, seu personal trainer virtual. Estou aqui para ajudar você a criar treinos personalizados e alcançar seus objetivos. Como posso te ajudar hoje?")%string);
    ("progress_analysis",
      ("Oi, " ++ user_name ++ "! 📈 Que bom te ver aqui! Vamos analisar seu progresso e ver como você está evoluindo. Tenho algumas perguntas para entender melhor sua jornada. Pronto para começar?")%string);
    ("motivation_chat",
      ("Hey, " ++ user_name ++ "! 🌟 Às vezes todos precisamos de um empurrãozinho, né? Estou aqui para te motivar e lembrar do incrível que você é. Vamos conversar sobre o que está te preocupando?")%string);
    ("technique_guidance",
      ("Salve, " ++ user_name ++ "! 🎯 Técnica correta é tudo no fitness! Estou aqui para te ajudar com dúvidas sobre execução de exercícios e boa forma. Qual movimento você gostaria de aperfeiçoar?")%string);
    ("general_fitness",
      ("Olá, " ++ user_name ++ "! 🏃‍♂️ Bem-vindo(a) ao seu chat fitness personalizado! Sou Alex e estou aqui para tirar dúvidas, sugerir treinos e te apoiar nessa jornada. O que você gostaria de saber?")%string) ].

Definition _generate_welcome_message (conversation : Conversation.t)
  : M W (option welcome) :=
  try_except
    (let user_name :=
       if Py.truthy (first_name (Conversation.user conversation))
       then first_name (Conversation.user conversation)
       else "atleta" in
     let conversation_type := Conversation.conversation_type conversation in
     available <- ai_is_available ;;
     ai_welcome <-
       (if available
        then
          context_data <- _build_conversation_context conversation ;;
          _ai_welcome_message user_name conversation_type context_data
        else ret None) ;;
     match ai_welcome with
     | Some ai_welcome => ret (Some ai_welcome)
     | None =>
         let type_messages := type_messages user_name in
         let welcome_content :=
           match lookup conversation_type type_messages with
           | Some text => text
           | None => lookup_or_empty "general_fitness" type_messages
           end in
         ret (Some {| welcome_content := welcome_content;
                      welcome_confidence := 0.8%Q;
                      welcome_response_time := 100%Q |})
     end)
    (fun _ =>
       ret (Some {| welcome_content :=
                      "Olá! Sou Alex, seu assistente de fitness. Como posso ajudar você hoje?";
                    welcome_confidence := 0.6%Q;
                    welcome_response_time := 50%Q |})).

(** ** The orchestrator *)

(** [ai_response and ai_response.get('success')]: the reply the AI branch
    of [process_user_message] goes on with, if any. *)
Definition usable (r : option ai_response) : option ai_response :=
  match r with
  | Some r => if success r then Some r else None
  | None => None
  end.

(** The [try] block of [process_user_message]. *)
Definition process_user_message_try (start_time : Q) (conversation_id : Z)
  (message : string) : M W Py.dict :=
    (conversation <- Conversation_get conversation_id ;;
     expired <- Conversation_is_expired conversation ;;
     if expired
     then ret [ ("error", Py.VStr "Conversa expirada");
                ("suggestion",
                  Py.VStr "Inicie uma nova conversa para continuar") ]
     else
       user_message <- _save_user_message conversation message ;;
       intent_analysis <- _analyze_message_intent message conversation ;;
       intent <-
         lift (dict_get "intent" (Py.JStr "general_question")
                 intent_analysis) ;;
       let user_message :=
         Message.with_intent_detected (char_column intent) user_message in
       Message_save user_message ;;
       _update_conversation_context conversation message intent_analysis ;;
       ai_response <-
         _generate_ai_response conversation message intent_analysis ;;
       match usable ai_response with
       | Some ai_response =>
           t1 <- now_time ;;
           intent <- lift (dict_get "intent" Py.JNull intent_analysis) ;;
           ai_message <-
             _save_ai_message conversation (ai_content ai_response)
               (round2 ((t1 - start_time) * 1000)%Q)
               (ai_confidence_score ai_response)
               intent ;;
           intent <- lift (dict_get "intent" Py.JNull intent_analysis) ;;
           t2 <- now_time ;;
           ret [ ("message_id", Py.VInt (Message.id ai_message));
                 ("response", Py.VStr (ai_content ai_response));
                 ("conversation_updated", Py.VBool true);
                 ("intent_detected", Py.of_json intent);
                 ("confidence_score",
                   Py.VNum (ai_confidence_score ai_response));
                 ("response_time_ms",
                   Py.VNum (round2 ((t2 - start_time) * 1000)%Q));
                 ("suggested_actions",
                   Py.VList (suggested_actions ai_response));
                 ("workout_references",
                   Py.VList (workout_references ai_response));
                 ("method", Py.VStr "ai_powered") ]
       | None =>
           fallback_response <-
             lift (_generate_fallback_response
                     conversation message intent_analysis) ;;
           t1 <- now_time ;;
           intent <- lift (dict_get "intent" Py.JNull intent_analysis) ;;
           ai_message <-
             _save_ai_message conversation fallback_response
               (round2 ((t1 - start_time) * 1000)%Q)
               0.6%Q
               intent ;;
           intent <- lift (dict_get "intent" Py.JNull intent_analysis) ;;
           ret [ ("message_id", Py.VInt (Message.id ai_message));
                 ("response", Py.VStr fallback_response);
                 ("conversation_updated", Py.VBool true);
                 ("intent_detected", Py.of_json intent);
                 ("method", Py.VStr "rule_based_fallback");
                 ("note", Py.VStr "IA temporariamente indisponível") ]
       end).

(** The [except] clauses of [process_user_message]: what is returned for
    the exception [e]. *)
Definition process_user_message_except (e : exn) : Py.dict :=
  match e with
  | Conversation_DoesNotExist =>
      [ ("error", Py.VStr "Conversa não encontrada");
        ("suggestion",
          Py.VStr "Verifique o ID da conversa ou inicie uma nova") ]
  | _ =>
      [ ("error", Py.VStr "Erro ao processar mensagem");
        ("suggestion",
          Py.VStr "Tente novamente ou reformule sua pergunta") ]
  end.

Definition process_user_message (conversation_id : Z) (message : string)
  : M W Py.dict :=
  start_time <- now_time ;;
  try_except
    (process_user_message_try start_time conversation_id message)
    (fun e => ret (process_user_message_except e)).

(** The [try] block of [start_conversation]. *)
Definition start_conversation_try (user : User) (conversation_type : string)
  (initial_message : option string) : M W Py.dict :=
    (now <- now_datetime ;;
     recent_conversation <-
       Conversation_filter_first user "active" (now - 2 * 3600)%Z ;;
     match recent_conversation, Py.truthy_opt initial_message with
     | Some recent_conversation, false =>
         ret [ ("conversation_id",
                 Py.VInt (Conversation.id recent_conversation));
               ("status", Py.VStr "resumed");
               ("message", Py.VStr "Continuando conversa anterior...");
               ("conversation_type",
                 Py.VStr (Conversation.conversation_type
                            recent_conversation));
               ("context_loaded", Py.VBool true) ]
     | _, _ =>
         conversation <-
           Conversation_create user conversation_type OPENAI_MODEL ;;
         _initialize_conversation_context conversation ;;
         (if negb (Py.truthy_opt initial_message)
          then
            welcome_response <- _generate_welcome_message conversation ;;
            match welcome_response with
            | Some welcome_response =>
                _save_ai_message conversation
                  (welcome_content welcome_response)
                  (welcome_response_time welcome_response)
                  (welcome_confidence welcome_response)
                  Py.JNull ;;
                ret tt
            | None => ret tt
            end
          else
            let initial_message :=
              match initial_message with Some m => m | None => "" end in
            _save_user_message conversation initial_message ;;
            process_user_message
              (Conversation.id conversation) initial_message ;;
            ret tt) ;;
         available <- ai_is_available ;;
         ret [ ("conversation_id", Py.VInt (Conversation.id conversation));
               ("status", Py.VStr "created");
               ("conversation_type", Py.VStr conversation_type);
               ("context_loaded", Py.VBool true);
               ("welcome_message", Py.VBool true);
               ("ai_available", Py.VBool available) ]
     end).

(** The [except] clause of [start_conversation]. *)
Definition start_conversation_except (e : exn) : Py.dict :=
  [ ("error", Py.VStr "Não foi possível iniciar conversa");
    ("fallback", Py.VStr "Tente novamente em alguns instantes") ].

Definition start_conversation (user : User) (conversation_type : string)
  (initial_message : option string) : M W Py.dict :=
  try_except
    (start_conversation_try user conversation_type initial_message)
    (fun e => ret (start_conversation_except e)).

(** The [try] block of [end_conversation]. *)
Definition end_conversation_try (conversation_id : Z)
  (user_rating : option Q) : M W Py.dict :=
    (conversation <- Conversation_get conversation_id ;;
     let conversation := Conversation.with_status "completed" conversation in
     let conversation :=
       match user_rating with
       | Some rating =>
           if negb (Qeq_bool rating 0)
           then Conversation.with_rating rating conversation
           else conversation
       | None => conversation
       end in
     Conversation_save conversation ;;
     now <- now_datetime ;;
     ret [ ("conversation_ended", Py.VBool true);
           ("total_messages",
             Py.VInt (Conversation.message_count conversation));
           ("duration_minutes",
             Py.VNum (inject_Z (now - Conversation.created_at conversation)
                      / 60)%Q);
           ("rating_saved",
             Py.VBool match user_rating with
                      | Some _ => true
                      | None => false
                      end) ]).

(** The [except] clauses of [end_conversation]. *)
Definition end_conversation_except (e : exn) : Py.dict :=
  match e with
  | Conversation_DoesNotExist =>
      [ ("error", Py.VStr "Conversa não encontrada") ]
  | _ => [ ("error", Py.VStr "Erro ao finalizar conversa") ]
  end.

Definition end_conversation (conversation_id : Z) (user_rating : option Q)
  : M W Py.dict :=
  try_except
    (end_conversation_try conversation_id user_rating)
    (fun e => ret (end_conversation_except e)).

End Service.

(* ================================================================== *)
(** * The reference collaborators

    A world in which the collaborators work: a relational store held in
    lists, a cache with expiry, a completion backend given by its answers,
    and a clock.  The model classes ([Conversation], [Message],
    [ChatContext]: [apps/chatbot/models.py]) and the AI client
    ([apps/recommendations/services/ai_service.py]) are not part of the
    service file; what the service needs of them is taken from the
    specification and from the calls the service makes.  The clocks stand
    still while an operation runs: every reading of an operation gives the
    same time. *)

Module Ref.

Record Backend : Type := {
  is_available : bool;
  (** the text the backend answers to a request, if any *)
  reply : list chat_message -> nat -> Q -> option string
}.

Record World : Type := {
  conversations : list Conversation.t;
  messages : list Message.t;
  contexts : list ChatContext.t;
  profiles : list UserProfile.t;
  workout_sessions : list WorkoutSession.t;
  (** key, payload, and the time at which the entry expires *)
  cache : list (string * (Py.json * Z));
  backend : Backend;
  (** [timezone.now()], in seconds *)
  clock : Z;
  (** [time.time()], in seconds *)
  timer : Q
}.

Definition set_conversations (l : list Conversation.t) (w : World) : World :=
  {| conversations := l; messages := messages w; contexts := contexts w;
     profiles := profiles w; workout_sessions := workout_sessions w;
     cache := cache w; backend := backend w; clock := clock w;
     timer := timer w |}.

Definition set_messages (l : list Message.t) (w : World) : World :=
  {| conversations := conversations w; messages := l;
     contexts := contexts w;
     profiles := profiles w; workout_sessions := workout_sessions w;
     cache := cache w; backend := backend w; clock := clock w;
     timer := timer w |}.

Definition set_contexts (l : list ChatContext.t) (w : World) : World :=
  {| conversations := conversations w; messages := messages w;
     contexts := l;
     profiles := profiles w; workout_sessions := workout_sessions w;
     cache := cache w; backend := backend w; clock := clock w;
     timer := timer w |}.

Definition set_cache (l : list (string * (Py.json * Z)))
  (w : World) : World :=
  {| conversations := conversations w; messages := messages w;
     contexts := contexts w;
     profiles := profiles w; workout_sessions := workout_sessions w;
     cache := l; backend := backend w; clock := clock w;
     timer := timer w |}.

(** A primary key not yet in use: one more than the largest. *)
Definition fresh_id (ids : list Z) : Z := fold_right Z.max 0%Z ids + 1.

(** [instance.save()]: update the row with the instance's primary key,
    insert it when there is none. *)
Fixpoint save_row {A : Type} (key : A -> Z) (x : A) (rows : list A)
  : list A :=
  match rows with
  | [] => [x]
  | y :: rows' =>
      if (key y =? key x)%Z then x :: rows'
      else y :: save_row key x rows'
  end.

(** ** Conversations *)

(** The query of [start_conversation], on rows held in the order of the
    model's default ordering. *)
Definition conversation_filter_first (user : User) (status : string)
  (created_at__gte : Z) (w : World) : option Conversation.t :=
  find (fun c =>
          (user_id (Conversation.user c) =? user_id user)%Z
          && String.eqb (Conversation.status c) status
          && (created_at__gte <=? Conversation.created_at c)%Z)
       (conversations w).

(** Modelled from the spec: the defaults of a new [Conversation] row are
    declared in the model class, which is missing; a conversation is
    created active, at the current time, without rating or messages. *)
Definition conversation_create (user : User)
  (conversation_type ai_model_used : string) (w : World)
  : Conversation.t * World :=
  let c :=
    {| Conversation.id :=
         fresh_id (map Conversation.id (conversations w));
       Conversation.user := user;
       Conversation.conversation_type := conversation_type;
       Conversation.status := "active";
       Conversation.created_at := clock w;
       Conversation.ai_model_used := ai_model_used;
       Conversation.user_satisfaction_rating := None;
       Conversation.message_count := 0 |} in
  (c, set_conversations (conversations w ++ [c]) w).

Definition conversation_get (id : Z) (w : World) : option Conversation.t :=
  find (fun c => (Conversation.id c =? id)%Z) (conversations w).

(** Modelled from the spec: [Conversation.is_expired] is a method of the
    model class, which is missing; a conversation is expired when its age
    exceeds the fixed timeout of 24 hours, whatever its status. *)
Definition is_expired (c : Conversation.t) (now : Z) : bool :=
  (conversation_timeout_hours * 3600 <? now - Conversation.created_at c)%Z.

(** Modelled from the spec: [Conversation.get_last_messages] is a method of
    the model class, which is missing; the last [n] turns of the
    conversation, latest first. *)
Definition get_last_messages (c : Conversation.t) (n : nat) (w : World)
  : list Message.t :=
  firstn n
    (rev (filter (fun m => (Message.conversation m =? Conversation.id c)%Z)
                 (messages w))).

(** ** Messages *)

Definition message_create (m : Message.t) (w : World)
  : Message.t * World :=
  let m' := Message.with_id (fresh_id (map Message.id (messages w))) m in
  (m', set_messages (messages w ++ [m']) w).

(** ** Context records *)

Definition same_key (conversation : Z) (ty key : string)
  (x : ChatContext.t) : bool :=
  (ChatContext.conversation x =? conversation)%Z
  && String.eqb (ChatContext.context_type x) ty
  && String.eqb (ChatContext.context_key x) key.

(** Modelled from the spec: [ChatContext.set_context] is a class method of
    the model, which is missing; the latest write for a given
    (conversation, type, key) wins and no history is retained. *)
Fixpoint upsert (x : ChatContext.t) (rows : list ChatContext.t)
  : list ChatContext.t :=
  match rows with
  | [] => [x]
  | y :: rows' =>
      if same_key (ChatContext.conversation x) (ChatContext.context_type x)
                  (ChatContext.context_key x) y
      then x :: rows'
      else y :: upsert x rows'
  end.

Definition set_context (c : Conversation.t) (ty key : string)
  (v : context_value) (relevance : Q) (w : World) : World :=
  set_contexts
    (upsert {| ChatContext.conversation := Conversation.id c;
               ChatContext.context_type := ty;
               ChatContext.context_key := key;
               ChatContext.context_value_ := v;
               ChatContext.relevance := relevance |}
            (contexts w))
    w.

(** Modelled from the spec: [ChatContext.get_context] is a class method of
    the model, which is missing; the records of a conversation, or those
    under one (type, key). *)
Definition get_all (c : Conversation.t) (w : World) : list ChatContext.t :=
  filter (fun x => (ChatContext.conversation x =? Conversation.id c)%Z)
         (contexts w).

Definition get_context (c : Conversation.t) (ty key : string) (w : World)
  : list ChatContext.t :=
  filter (same_key (Conversation.id c) ty key) (contexts w).

(** ** Profiles and workout sessions *)

Definition profile_get (user : User) (w : World) : option UserProfile.t :=
  find (fun p => (UserProfile.user p =? user_id user)%Z) (profiles w).

Fixpoint insert_latest_first (s : WorkoutSession.t)
  (l : list WorkoutSession.t) : list WorkoutSession.t :=
  match l with
  | [] => [s]
  | s' :: l' =>
      if (WorkoutSession.completed_at s' <? WorkoutSession.completed_at s)%Z
      then s :: l
      else s' :: insert_latest_first s l'
  end.

Definition workout_sessions_recent (user : User) (completed_at__gte : Z)
  (n : nat) (w : World) : list WorkoutSession.t :=
  firstn n
    (fold_right insert_latest_first []
       (filter (fun s =>
                  (WorkoutSession.user s =? user_id user)%Z
                  && WorkoutSession.completed s
                  && (completed_at__gte <=? WorkoutSession.completed_at s)%Z)
               (workout_sessions w))).

(** ** The cache *)

(** [cache.get]: the entry under the key, unless it has expired. *)
Fixpoint cache_lookup (key : string) (now : Z)
  (entries : list (string * (Py.json * Z)))
  : option Py.json :=
  match entries with
  | [] => None
  | (k, (v, expires)) :: rest =>
      if String.eqb key k
      then if (now <? expires)%Z then Some v else None
      else cache_lookup key now rest
  end.

(** [cache.set]: the new entry replaces the one under the key and lives
    for [timeout] seconds. *)
Definition cache_store (key : string) (v : Py.json) (timeout : Z)
  (w : World) : World :=
  set_cache
    ((key, (v, clock w + timeout)%Z)
       :: filter (fun e => negb (String.eqb key (fst e))) (cache w))
    w.

(** ** The instance *)

#[global] Instance collaborators : Collaborators World := {|
  time_time := timer;
  timezone_now := clock;
  Conversation_filter_first := fun user status since w =>
    (inr (conversation_filter_first user status since w), w);
  Conversation_create := fun user ty model w =>
    let '(c, w') := conversation_create user ty model w in (inr c, w');
  Conversation_get := fun id w =>
    match conversation_get id w with
    | Some c => (inr c, w)
    | None => (inl Conversation_DoesNotExist, w)
    end;
  Conversation_save := fun c w =>
    (inr tt,
     set_conversations (save_row Conversation.id c (conversations w)) w);
  Conversation_is_expired := fun c w => (inr (is_expired c (clock w)), w);
  Conversation_get_last_messages := fun c n w =>
    (inr (get_last_messages c n w), w);
  Message_create := fun m w =>
    let '(m', w') := message_create m w in (inr m', w');
  Message_save := fun m w =>
    (inr tt, set_messages (save_row Message.id m (messages w)) w);
  ChatContext_set_context := fun c ty key v relevance w =>
    (inr tt, set_context c ty key v relevance w);
  ChatContext_get_all := fun c w => (inr (get_all c w), w);
  ChatContext_get_context := fun c ty key w =>
    (inr (get_context c ty key w), w);
  UserProfile_get := fun user w =>
    match profile_get user w with
    | Some p => (inr p, w)
    | None => (inl UserProfile_DoesNotExist, w)
    end;
  WorkoutSession_recent := fun user since n w =>
    (inr (workout_sessions_recent user since n w), w);
  cache_get := fun key w => (inr (cache_lookup key (clock w) (cache w)), w);
  cache_set := fun key v timeout w => (inr tt, cache_store key v timeout w);
  ai_is_available := fun w => (inr (is_available (backend w)), w);
  _make_openai_request := fun messages max_tokens temperature w =>
    (inr (reply (backend w) messages max_tokens temperature), w)
|}.

End Ref.

(* ================================================================== *)
(** * A runtime and worlds for the worked examples

    An ASCII runtime: enough of the builtins to run the service on the
    concrete inputs of the examples below. *)

Module Demo.

Definition lower_char (c : ascii) : ascii :=
  let n := nat_of_ascii c in
  if (65 <=? n)%nat && (n <=? 90)%nat then ascii_of_nat (n + 32) else c.

Fixpoint lower (s : string) : string :=
  match s with
  | EmptyString => EmptyString
  | String c rest => String (lower_char c) (lower rest)
  end.

Definition is_space (c : ascii) : bool :=
  let n := nat_of_ascii c in
  (n =? 32)%nat || ((9 <=? n)%nat && (n <=? 13)%nat).

Fixpoint split_from (s word : string) : list string :=
  match s with
  | EmptyString => if Py.truthy word then [word] else []
  | String c rest =>
      if is_space c
      then if Py.truthy word then word :: split_from rest ""
           else split_from rest ""
      else split_from rest (word ++ String c "")%string
  end.

Fixpoint strip_left (s : string) : string :=
  match s with
  | String c rest => if is_space c then strip_left rest else s
  | EmptyString => EmptyString
  end.

Fixpoint hash (s : string) : Z :=
  match s with
  | EmptyString => 0
  | String c rest => Z.of_nat (nat_of_ascii c) + 31 * hash rest
  end.

Definition quote : string := String (ascii_of_nat 34) "".

(** Drops [prefix] from the front of [s], when it is there. *)
Fixpoint drop_prefix (prefix s : string) : option string :=
  match prefix, s with
  | EmptyString, _ => Some s
  | String a prefix', String b s' =>
      if Ascii.eqb a b then drop_prefix prefix' s' else None
  | String _ _, EmptyString => None
  end.

(** Reads up to the first double quote. *)
Fixpoint until_quote (s : string) : option (string * string) :=
  match s with
  | EmptyString => None
  | String c rest =>
      if Ascii.eqb c (ascii_of_nat 34) then Some ("", rest)
      else match until_quote rest with
           | Some (word, rest') => Some (String c word, rest')
           | None => None
           end
  end.

(** The value of a decimal digit. *)
Definition digit_of (c : ascii) : option Z :=
  let n := nat_of_ascii c in
  if (48 <=? n)%nat && (n <=? 57)%nat then Some (Z.of_nat (n - 48))
  else None.

(** Reads a string of decimal digits after the digits read so far. *)
Fixpoint digits_from (s : string) (acc : Z) : option Z :=
  match s with
  | EmptyString => Some acc
  | String c rest =>
      match digit_of c with
      | Some d => digits_from rest (10 * acc + d)
      | None => None
      end
  end.

(** Parses three kinds of text: a natural number, the one-field object
    whose only key is [intent] with a string or [null] under it, and
    nothing else. *)
Definition parse_json (text : string) : option Py.json :=
  match text with
  | EmptyString => None
  | String c _ =>
      match digit_of c with
      | Some _ => option_map Py.JInt (digits_from text 0)
      | None =>
          match drop_prefix ("{" ++ quote ++ "intent" ++ quote ++ ": ")
                            text with
          | Some "null}" => Some (Py.JObj [("intent", Py.JNull)])
          | Some rest =>
              match drop_prefix quote rest with
              | Some rest' =>
                  match until_quote rest' with
                  | Some (word, "}") =>
                      Some (Py.JObj [("intent", Py.JStr word)])
                  | _ => None
                  end
              | None => None
              end
          | None => None
          end
      end
  end.

#[export] Instance runtime : Runtime := {|
  str_lower := lower;
  str_split := fun s => split_from s "";
  str_strip := strip_left;
  str_hash := hash;
  str_of_int := fun z => NilEmpty.string_of_int (Z.to_int z);
  round2 := fun q => (inject_Z (Qfloor (q * 100 + 0.5)) / 100)%Q;
  round0 := fun q => inject_Z (Qfloor (q + 0.5));
  json_loads := parse_json;
  str_of_json := fun v =>
    match v with
    | Py.JInt z => NilEmpty.string_of_int (Z.to_int z)
    | Py.JBool true => "True"
    | Py.JBool false => "False"
    | _ => "?"
    end;
  str_of_context_value := fun _ => "?";
  strftime_dmy := fun z => NilEmpty.string_of_int (Z.to_int z);
  settings_OPENAI_MODEL := None;
  intent_prompt := fun message =>
    [ {| role := "system"; chat_content := "intent" |};
      {| role := "user"; chat_content := message |} ];
  welcome_prompt := fun user_name conversation_type _ =>
    [ {| role := "system"; chat_content := "welcome" |};
      {| role := "user";
         chat_content := (user_name ++ " " ++ conversation_type)%string |} ]
|}.

Definition ana : User := {| user_id := 7; first_name := "Ana" |}.

Definition nameless : User := {| user_id := 8; first_name := "" |}.

(** A backend that is down. *)
Definition backend_down : Ref.Backend :=
  {| Ref.is_available := false; Ref.reply := fun _ _ _ => None |}.

(** A backend that classifies everything as nutrition advice and answers
    every other request with the same sentence. *)
Definition backend_up : Ref.Backend :=
  {| Ref.is_available := true;
     Ref.reply := fun messages max_tokens _ =>
       if (max_tokens =? 200)%nat
       then Some ("{" ++ quote ++ "intent" ++ quote ++ ": " ++ quote
                    ++ "nutrition_advice" ++ quote ++ "}")%string
       else Some "Experimente uma caminhada leve e consulte um nutricionista." |}.

(** Ana's conversation, created at time 1000. *)
Definition conversation_1 : Conversation.t :=
  {| Conversation.id := 1;
     Conversation.user := ana;
     Conversation.conversation_type := "general_fitness";
     Conversation.status := "active";
     Conversation.created_at := 1000;
     Conversation.ai_model_used := "gpt-3.5-turbo";
     Conversation.user_satisfaction_rating := None;
     Conversation.message_count := 0 |}.

(** A world holding Ana's conversation, observed at time [now]. *)
Definition world_at (now : Z) (b : Ref.Backend) : Ref.World :=
  {| Ref.conversations := [conversation_1];
     Ref.messages := [];
     Ref.contexts := [];
     Ref.profiles := [];
     Ref.workout_sessions := [];
     Ref.cache := [];
     Ref.backend := b;
     Ref.clock := now;
     Ref.timer := inject_Z now |}.

(** A backend that answers every request with the text [5]. *)
Definition backend_five : Ref.Backend :=
  {| Ref.is_available := true; Ref.reply := fun _ _ _ => Some "5" |}.

(** A backend that classifies without an intent, and answers every other
    request with the same sentence. *)
Definition backend_null : Ref.Backend :=
  {| Ref.is_available := true;
     Ref.reply := fun messages max_tokens _ =>
       if (max_tokens =? 200)%nat
       then Some ("{" ++ quote ++ "intent" ++ quote ++ ": null}")%string
       else Some "Experimente uma caminhada leve e consulte um nutricionista." |}.

(** Turns, each with an intent of its own. *)
Definition turns_of (intents : list string)
  : list (string * Py.json) :=
  map (fun i => ("mensagem", payload_of (Py.JStr i))) intents.

Definition six_turns : list (string * Py.json) :=
  turns_of
    [ "workout_request"; "technique_question"; "nutrition_advice";
      "progress_inquiry"; "motivation_need"; "injury_concern" ].

(** The reference collaborators with a store that refuses every write to
    a conversation row. *)
Definition read_only_conversations : Collaborators Ref.World :=
  let ref := Ref.collaborators in
  {| time_time := @time_time _ ref;
     timezone_now := @timezone_now _ ref;
     Conversation_filter_first := @Conversation_filter_first _ ref;
     Conversation_create := fun _ _ _ =>
       raise (Exception "database is locked");
     Conversation_get := @Conversation_get _ ref;
     Conversation_save := fun _ => raise (Exception "database is locked");
     Conversation_is_expired := @Conversation_is_expired _ ref;
     Conversation_get_last_messages :=
       @Conversation_get_last_messages _ ref;
     Message_create := @Message_create _ ref;
     Message_save := @Message_save _ ref;
     ChatContext_set_context := @ChatContext_set_context _ ref;
     ChatContext_get_all := @ChatContext_get_all _ ref;
     ChatContext_get_context := @ChatContext_get_context _ ref;
     UserProfile_get := @UserProfile_get _ ref;
     WorkoutSession_recent := @WorkoutSession_recent _ ref;
     cache_get := @cache_get _ ref;
     cache_set := @cache_set _ ref;
     ai_is_available := @ai_is_available _ ref;
     _make_openai_request := @_make_openai_request _ ref |}.

End Demo.

(* ================================================================== *)
(** * Definitions in the words of the specification *)

(** [needle] is in [text] at position [i]. *)
Definition occurs_at (needle text : string) (i : nat) : bool :=
  String.eqb (String.substring i (String.length needle) text) needle.

(** [needle] occurs as a substring of [text]. *)
Definition occurs_in (needle text : string) : bool :=
  existsb (occurs_at needle text) (seq 0 (S (String.length text))).

(** The number of the keywords that occur as substrings of the text. *)
Definition spec_hits (text_lower : string) (keywords : list string) : nat :=
  length (filter (fun keyword => occurs_in keyword text_lower) keywords).

(** The score of an intent: the number of its keywords present in the text
    over its total keyword count. *)
Definition spec_score (text_lower : string) (keywords : list string) : Q :=
  inject_Z (Z.of_nat (spec_hits text_lower keywords))
  / inject_Z (Z.of_nat (length keywords)).

(** The nine intents of the classification. *)
Definition nine_intents : list string :=
  [ "workout_request"; "technique_question"; "nutrition_advice";
    "progress_inquiry"; "motivation_need"; "equipment_question";
    "injury_concern"; "schedule_planning"; "general_question" ].

(** The name interpolated in the canned texts: the first name, or the
    generic placeholder when it is empty. *)
Definition display_name (u : User) : string :=
  if String.eqb (first_name u) "" then "amigo(a)" else first_name u.

(** The canned text for an intent: six intents have a text of their own,
    every other intent (and a missing one) gets the general text. *)
Definition canned_template (name : string) (i : option string) : string :=
  let text_of k := lookup_or_empty k (fallback_responses name) in
  match i with
  | Some i =>
      if String.eqb i "workout_request" then text_of "workout_request"
      else if String.eqb i "technique_question"
      then text_of "technique_question"
      else if String.eqb i "nutrition_advice" then text_of "nutrition_advice"
      else if String.eqb i "progress_inquiry" then text_of "progress_inquiry"
      else if String.eqb i "motivation_need" then text_of "motivation_need"
      else if String.eqb i "injury_concern" then text_of "injury_concern"
      else text_of "general_question"
  | None => text_of "general_question"
  end.

(** The seven canned texts. *)
Definition seven_texts (name : string) : list string :=
  map snd (fallback_responses name).

(** ** What an analysis holds *)

(** The value under the key [intent] of an analysis that is a dict. *)
Definition intent_entry (a : Py.json) : option Py.json :=
  match a with
  | Py.JObj items => Py.assoc "intent" items
  | _ => None
  end.

(** The intent of an analysis, when it is a string. *)
Definition intent_string (a : Py.json) : option string :=
  match intent_entry a with
  | Some (Py.JStr i) => Some i
  | _ => None
  end.

(** The detected intent the results report: the value under [intent],
    [None] when there is none. *)
Definition reported_intent (a : Py.json) : Py.json :=
  match intent_entry a with
  | Some v => v
  | None => Py.JNull
  end.

(** The intent stored with the user message: the value under [intent],
    and [general_question] when the analysis has no such key. *)
Definition stored_intent {R : Runtime} (a : Py.json) : option string :=
  match intent_entry a with
  | Some v => char_column v
  | None => Some "general_question"
  end.

(** An analysis [process_user_message] can answer: a dict whose intent,
    if it has one, is hashable. *)
Definition answerable (a : Py.json) : bool :=
  match a with
  | Py.JObj items =>
      match Py.assoc "intent" items with
      | Some v => Py.hashable v
      | None => true
      end
  | _ => false
  end.

(** ** What the reference collaborators answer *)

(** The payload of the live cache entry for a message, when it is
    truthy. *)
Definition cached_payload {R : Runtime} (message : string) (w : Ref.World)
  : option Py.json :=
  match Ref.cache_lookup (cache_key message) (Ref.clock w) (Ref.cache w) with
  | Some cached => if Py.truthy_json cached then Some cached else None
  | None => None
  end.

(** The classification obtained from the backend: the parsed reply, if
    the backend answers with a text that parses to a truthy value. *)
Definition ai_intent_of {R : Runtime} (message : string) (w : Ref.World)
  : option Py.json :=
  match Ref.reply (Ref.backend w) (intent_prompt message) 200 0.3%Q with
  | Some text =>
      if Py.truthy text
      then match json_loads text with
           | Some parsed =>
               if Py.truthy_json parsed then Some parsed else None
           | None => None
           end
      else None
  | None => None
  end.

(** The payload [_analyze_message_intent] returns in the world [w]. *)
Definition detected {R : Runtime} (message : string) (w : Ref.World)
  : Py.json :=
  match cached_payload message w with
  | Some cached => cached
  | None =>
      match (if Ref.is_available (Ref.backend w)
             then ai_intent_of message w else None) with
      | Some ai_intent => ai_intent
      | None => dict_of (_rule_based_intent_analysis message)
      end
  end.

(** The payloads of the world can be answered: every truthy payload in
    the cache, and every truthy value a classification reply of the
    backend parses to. *)
Definition well_formed_payloads {R : Runtime} (w : Ref.World) : Prop :=
  (forall key a expires,
      In (key, (a, expires)) (Ref.cache w) ->
      Py.truthy_json a = true -> answerable a = true)
  /\ (forall messages text a,
         Ref.reply (Ref.backend w) messages 200 0.3%Q = Some text ->
         json_loads text = Some a ->
         Py.truthy_json a = true -> answerable a = true).

(** The conversations [start_conversation] may resume for a user: the
    active ones created within the last 2 hours. *)
Definition resumable (user : User) (now : Z) (c : Conversation.t) : bool :=
  (user_id (Conversation.user c) =? user_id user)%Z
  && String.eqb (Conversation.status c) "active"
  && (now - 2 * 3600 <=? Conversation.created_at c)%Z.

(** The cache entry under a key, live or not: its payload and the time at
    which it expires. *)
Fixpoint cache_entry (key : string)
  (entries : list (string * (Py.json * Z)))
  : option (Py.json * Z) :=
  match entries with
  | [] => None
  | (k, e) :: rest => if String.eqb key k then Some e else cache_entry key rest
  end.

(** An intent is listed among the topics. *)
Definition listed (i : string) (topics : list Py.json) : bool :=
  existsb (fun topic =>
             match topic with
             | Py.JStr t => String.eqb t i
             | _ => false
             end)
          topics.

(** The rolling list of topics: append the new intent if it is not already
    present, keep the last 5. *)
Definition record_topic (i : string) (topics : list Py.json)
  : list Py.json :=
  if listed i topics then topics else Py.last_n 5 (topics ++ [Py.JStr i]).

(** The records stored for a conversation under
    (preferences, topics_of_interest). *)
Definition topics_records (c : Conversation.t) (w : Ref.World)
  : list ChatContext.t :=
  Ref.get_context c "preferences" "topics_of_interest" w.

(** The stored list of topics of a conversation; empty when there is no
    record. *)
Definition stored_topics (c : Conversation.t) (w : Ref.World)
  : list Py.json :=
  match topics_records c w with
  | r :: _ => get_topics (ChatContext.context_value_ r)
  | [] => []
  end.

(** The intent of a payload, as a string. *)
Definition intent_of (a : Py.json) : string :=
  match intent_string a with
  | Some i => i
  | None => ""
  end.

(** The world after the context updates of a sequence of turns, each a
    message with its intent analysis. *)
Definition record_turns {R : Runtime} (c : Conversation.t)
  (turns : list (string * Py.json)) (w : Ref.World) : Ref.World :=
  fold_left
    (fun w t => snd (_update_conversation_context c (fst t) (snd t) w))
    turns w.

(** The world after the write of the message-style preference, made for
    messages of more than 20 words. *)
Definition styled {R : Runtime} (c : Conversation.t) (message : string)
  (w : Ref.World) : Ref.World :=
  if (20 <? length (str_split message))%nat
  then Ref.set_context c "preferences" "message_style"
         (CV_message_style true (length (str_split message))) 0.7%Q w
  else w.

(** The messages of a given type in the store. *)
Definition messages_of_type (ty : string) (w : Ref.World) : list Message.t :=
  filter (fun m => String.eqb (Message.message_type m) ty) (Ref.messages w).

(* ================================================================== *)
(** * Definitions for the further properties *)

(** The name interpolated in the welcome texts: the first name, or
    [atleta] when it is empty. *)
Definition athlete_name (u : User) : string :=
  if String.eqb (first_name u) "" then "atleta" else first_name u.

(** The pre-defined welcome text for a conversation type: the text of the
    type, the text of [general_fitness] for any other type. *)
Definition welcome_text (name conversation_type : string) : string :=
  match lookup conversation_type (type_messages name) with
  | Some text => text
  | None => lookup_or_empty "general_fitness" (type_messages name)
  end.

(** The context data [_build_conversation_context] builds in the reference
    world. *)
Definition context_data_of (c : Conversation.t) (w : Ref.World)
  : context_data :=
  fold_left
    (fun data x =>
       set_nested (ChatContext.context_type x) (ChatContext.context_key x)
         (ChatContext.context_value_ x) data)
    (Ref.get_all c w) [].

(** The welcome text the backend gives in the reference world, if it is
    available and answers with a non-empty text. *)
Definition ai_welcome_of {R : Runtime} (c : Conversation.t) (w : Ref.World)
  : option string :=
  if Ref.is_available (Ref.backend w)
  then match Ref.reply (Ref.backend w)
               (welcome_prompt (athlete_name (Conversation.user c))
                  (Conversation.conversation_type c) (context_data_of c w))
               150 0.8%Q with
       | Some text => if Py.truthy text then Some text else None
       | None => None
       end
  else None.

(** The record stored first under a key of a conversation, if any. *)
Definition stored_context (c : Conversation.t) (ty key : string)
  (w : Ref.World) : option (context_value * Q) :=
  match Ref.get_context c ty key w with
  | x :: _ => Some (ChatContext.context_value_ x, ChatContext.relevance x)
  | [] => None
  end.

(** The entry of the workout history made from a session. *)
Definition workout_entry_of {R : Runtime} (s : WorkoutSession.t)
  : workout_entry :=
  {| entry_workout_name :=
       match WorkoutSession.workout_name s with
       | Some name => name
       | None => "Treino Personalizado"
       end;
     entry_completed_at := strftime_dmy (WorkoutSession.completed_at s);
     entry_rating := WorkoutSession.user_rating s;
     entry_duration := WorkoutSession.actual_duration s |}.

(** The three keys [_initialize_conversation_context] writes. *)
Definition seed_key (ty key : string) : bool :=
  (String.eqb "user_profile" ty && String.eqb "basic_info" key)
  || (String.eqb "workout_history" ty && String.eqb "recent_workouts" key)
  || (String.eqb "preferences" ty && String.eqb "conversation_style" key).

(** The conversation [start_conversation] creates in the world [w]. *)
Definition created_conversation {R : Runtime} (user : User)
  (conversation_type : string) (w : Ref.World) : Conversation.t :=
  {| Conversation.id :=
       Ref.fresh_id (map Conversation.id (Ref.conversations w));
     Conversation.user := user;
     Conversation.conversation_type := conversation_type;
     Conversation.status := "active";
     Conversation.created_at := Ref.clock w;
     Conversation.ai_model_used := OPENAI_MODEL;
     Conversation.user_satisfaction_rating := None;
     Conversation.message_count := 0 |}.

(** The row [end_conversation] saves for the conversation [c]. *)
Definition ended (user_rating : option Q) (c : Conversation.t)
  : Conversation.t :=
  match user_rating with
  | Some rating =>
      if negb (Qeq_bool rating 0)
      then Conversation.with_rating rating
             (Conversation.with_status "completed" c)
      else Conversation.with_status "completed" c
  | None => Conversation.with_status "completed" c
  end.

(** ** Invariants of the calls the service makes *)

(** The (type, key) pairs under which the service writes context
    records. *)
Definition service_key (ty key : string) : bool :=
  seed_key ty key
  || (String.eqb "preferences" ty && String.eqb "message_style" key)
  || (String.eqb "preferences" ty && String.eqb "topics_of_interest" key).

(** [keeps F m]: a run of [m] relates the world before to the world after
    by [F], whether it returns or raises. *)
Definition keeps {W A : Type} (F : W -> W -> Prop) (m : M W A) : Prop :=
  forall w, F w (snd (m w)).

(** Every call to the context store, the cache, the backend, the profile
    and workout queries and the message history keeps [F]; of the context
    writes, only those under a service key are asked to. *)
Record aux_calls_keep {W : Type} (F : W -> W -> Prop) (C : Collaborators W)
  : Prop := {
  keep_get_last_messages :
    forall c n, keeps F (Conversation_get_last_messages c n);
  keep_set_context :
    forall c ty key v q,
      service_key ty key = true ->
      keeps F (ChatContext_set_context c ty key v q);
  keep_get_all : forall c, keeps F (ChatContext_get_all c);
  keep_get_context : forall c ty key, keeps F (ChatContext_get_context c ty key);
  keep_profile_get : forall u, keeps F (UserProfile_get u);
  keep_workout_recent : forall u since n, keeps F (WorkoutSession_recent u since n);
  keep_cache_get : forall key, keeps F (cache_get key);
  keep_cache_set : forall key v timeout, keeps F (cache_set key v timeout);
  keep_is_available : keeps F ai_is_available;
  keep_request :
    forall messages max_tokens temperature,
      keeps F (_make_openai_request messages max_tokens temperature)
}.

(** Every call to the conversation and message stores keeps [F]. *)
Record store_calls_keep {W : Type} (F : W -> W -> Prop) (C : Collaborators W)
  : Prop := {
  keep_filter_first :
    forall u status since, keeps F (Conversation_filter_first u status since);
  keep_conversation_create :
    forall u ty model, keeps F (Conversation_create u ty model);
  keep_conversation_get : forall id, keeps F (Conversation_get id);
  keep_conversation_save : forall c, keeps F (Conversation_save c);
  keep_is_expired : forall c, keeps F (Conversation_is_expired c);
  keep_message_create : forall m, keeps F (Message_create m);
  keep_message_save : forall m, keeps F (Message_save m)
}.

(** The context records all lie under service keys. *)
Definition service_keys_only (w : Ref.World) : Prop :=
  Forall (fun x => service_key (ChatContext.context_type x)
                     (ChatContext.context_key x) = true)
         (Ref.contexts w).

(** From [w] to [w']: service keys stay the only keys, and what is stored
    under every other key is untouched. *)
Definition context_keys_kept (w w' : Ref.World) : Prop :=
  (service_keys_only w -> service_keys_only w')
  /\ (forall c ty key,
         service_key ty key = false ->
         Ref.get_context c ty key w' = Ref.get_context c ty key w).

(** From [w] to [w']: everything but the cache and the context records is
    the same. *)
Definition same_core (w w' : Ref.World) : Prop :=
  Ref.conversations w' = Ref.conversations w
  /\ Ref.messages w' = Ref.messages w
  /\ Ref.profiles w' = Ref.profiles w
  /\ Ref.workout_sessions w' = Ref.workout_sessions w
  /\ Ref.backend w' = Ref.backend w
  /\ Ref.clock w' = Ref.clock w
  /\ Ref.timer w' = Ref.timer w.

(** ** Collaborators that fail

    The reference collaborators, of which the context store, the cache,
    the backend (its availability flag and its requests), the profile and
    workout queries and the message history raise whenever a fault plan
    says so, before doing anything.  The conversation and message stores
    work. *)

Module Flaky.

Inductive call : Type :=
| GetLastMessages | SetContext | GetAllContext | GetContext | ProfileGet
| WorkoutRecent | CacheGet | CacheSet | IsAvailable | Request.

(** The exception a call raises in a world, if it does. *)
Definition plan : Type := call -> Ref.World -> option exn.

Definition guard {A : Type} (p : plan) (k : call) (m : M Ref.World A)
  : M Ref.World A :=
  fun w =>
    match p k w with
    | Some e => (inl e, w)
    | None => m w
    end.

Definition collaborators (p : plan) : Collaborators Ref.World :=
  let ref := Ref.collaborators in
  {| time_time := @time_time _ ref;
     timezone_now := @timezone_now _ ref;
     Conversation_filter_first := @Conversation_filter_first _ ref;
     Conversation_create := @Conversation_create _ ref;
     Conversation_get := @Conversation_get _ ref;
     Conversation_save := @Conversation_save _ ref;
     Conversation_is_expired := @Conversation_is_expired _ ref;
     Conversation_get_last_messages := fun c n =>
       guard p GetLastMessages (@Conversation_get_last_messages _ ref c n);
     Message_create := @Message_create _ ref;
     Message_save := @Message_save _ ref;
     ChatContext_set_context := fun c ty key v q =>
       guard p SetContext (@ChatContext_set_context _ ref c ty key v q);
     ChatContext_get_all := fun c =>
       guard p GetAllContext (@ChatContext_get_all _ ref c);
     ChatContext_get_context := fun c ty key =>
       guard p GetContext (@ChatContext_get_context _ ref c ty key);
     UserProfile_get := fun u =>
       guard p ProfileGet (@UserProfile_get _ ref u);
     WorkoutSession_recent := fun u since n =>
       guard p WorkoutRecent (@WorkoutSession_recent _ ref u since n);
     cache_get := fun key => guard p CacheGet (@cache_get _ ref key);
     cache_set := fun key v timeout =>
       guard p CacheSet (@cache_set _ ref key v timeout);
     ai_is_available := guard p IsAvailable (@ai_is_available _ ref);
     _make_openai_request := fun messages max_tokens temperature =>
       guard p Request
         (@_make_openai_request _ ref messages max_tokens temperature) |}.

(** A plan under which everything auxiliary fails, but the reading of the
    availability flag. *)
Definition all_fail : plan :=
  fun k _ =>
    match k with
    | IsAvailable => None
    | _ => Some (Exception "unavailable")
    end.

(** A plan under which only the reading of the availability flag fails. *)
Definition flag_fails : plan :=
  fun k _ =>
    match k with
    | IsAvailable => Some (Exception "unavailable")
    | _ => None
    end.

End Flaky.

(** The last record of a list under a (type, key). *)
Definition last_under (ty key : string) (records : list ChatContext.t)
  : option ChatContext.t :=
  find (fun x => String.eqb ty (ChatContext.context_type x)
                 && String.eqb key (ChatContext.context_key x))
       (rev records).

(** ** The history of a conversation *)

(** What [get_conversation_history] needs beyond the collaborators of the
    other operations: the messages of a conversation in the order of their
    creation, cut to a limit, and the two columns of a message that the
    other operations do not touch. *)
Class HistoryCollaborators (W : Type) : Type := {
  (** [conversation.messages.order_by('created_at')[:limit]]; a negative
      limit raises *)
  Conversation_messages_by_created_at :
    Conversation.t -> Z -> M W (list Message.t);
  (** [message.created_at.isoformat()] *)
  Message_timestamp : Message.t -> string;
  (** [message.user_reaction] *)
  Message_user_reaction : Message.t -> option string
}.

Section History.

Context {W : Type} {C : Collaborators W} {H : HistoryCollaborators W}.

(** The dict appended to [history] for a message. *)
Definition history_entry (message : Message.t) : Py.dict :=
  [ ("id", Py.VInt (Message.id message));
    ("type", Py.VStr (Message.message_type message));
    ("content", Py.VStr (Message.content message));
    ("timestamp", Py.VStr (Message_timestamp message));
    ("intent", Py.of_opt_str (Message.intent_detected message));
    ("confidence", Py.of_opt_num (Message.confidence_score message));
    ("user_reaction", Py.of_opt_str (Message_user_reaction message)) ].

Definition get_conversation_history (conversation_id : Z) (limit : Z)
  : M W (list Py.dict) :=
  try_except
    (conversation <- Conversation_get conversation_id ;;
     messages <- Conversation_messages_by_created_at conversation limit ;;
     ret (map history_entry messages))
    (fun e =>
       match e with
       | Conversation_DoesNotExist => ret []
       | _ => ret []
       end).

End History.

Module RefHistory.

(** The messages of a conversation, in the order of the store. *)
Definition messages_of (c : Conversation.t) (w : Ref.World)
  : list Message.t :=
  filter (fun m => (Message.conversation m =? Conversation.id c)%Z)
         (Ref.messages w).

(** Modelled from the spec: the relation [conversation.messages] and the
    columns [created_at] and [user_reaction] are declared in the model
    class, which is missing; the messages of a conversation are ordered by
    creation, which is the order of the reference store, and the two
    columns are given by [timestamp] and [reaction]. *)
Definition collaborators (timestamp : Message.t -> string)
  (reaction : Message.t -> option string) : HistoryCollaborators Ref.World :=
  {| Conversation_messages_by_created_at := fun c limit w =>
       if (limit <? 0)%Z
       then (inl (Exception "Negative indexing is not supported."), w)
       else (inr (firstn (Z.to_nat limit) (messages_of c w)), w);
     Message_timestamp := timestamp;
     Message_user_reaction := reaction |}.

End RefHistory.

(** A second world for the worked examples: Ana has a profile with a
    goal. *)
Module Demo2.

Definition ana_profile : UserProfile.t :=
  {| UserProfile.user := 7;
     UserProfile.goal := Some "perder peso";
     UserProfile.activity_level := Some "iniciante";
     UserProfile.focus_areas := Some "pernas";
     UserProfile.age := Some 30%Z;
     UserProfile.current_weight := Some 70%Q;
     UserProfile.target_weight := Some 65%Q |}.

Definition world : Ref.World :=
  {| Ref.conversations := [Demo.conversation_1];
     Ref.messages := [];
     Ref.contexts := [];
     Ref.profiles := [ana_profile];
     Ref.workout_sessions := [];
     Ref.cache := [];
     Ref.backend := Demo.backend_up;
     Ref.clock := 2800;
     Ref.timer := inject_Z 2800 |}.

(** The world after Ana starts a conversation with a message. *)
Definition started : Ref.World :=
  snd (start_conversation (R := Demo.runtime) Demo.ana
         "workout_consultation" (Some "Quero um treino") world).

(** The conversation that start created. *)
Definition conversation_2 : Conversation.t :=
  created_conversation (R := Demo.runtime) Demo.ana "workout_consultation"
    world.

Definition timestamp (m : Message.t) : string :=
  NilEmpty.string_of_int (Z.to_int (Message.id m)).

Definition history : HistoryCollaborators Ref.World :=
  RefHistory.collaborators timestamp (fun _ => None).

End Demo2.

(** ** The chat request *)

(** The entry of [conversation_history] for a stored message. *)
Definition turn_of (msg : Message.t) : chat_message :=
  {| role := if String.eqb (Message.message_type msg) "user"
             then "user" else "assistant";
     chat_content := Message.content msg |}.

(** The chat request for a message: the system prompt, the last six
    messages of the conversation in the order of their creation, and the
    message. *)
Definition chat_request (prompt : string) (c : Conversation.t)
  (message : string) (w : Ref.World) : list chat_message :=
  {| role := "system"; chat_content := prompt |}
    :: map turn_of (Py.last_n 6 (RefHistory.messages_of c w))
    ++ [{| role := "user"; chat_content := message |}].

(** The reply [_generate_ai_response] obtains in the reference world, if
    any: none when the backend is unavailable, when the prompt cannot be
    built, and when the backend gives no text or an empty one. *)
Definition ai_reply {R : Runtime} (c : Conversation.t) (message : string)
  (a : Py.json) (w : Ref.World) : option ai_response :=
  if Ref.is_available (Ref.backend w)
  then
    match _build_fitness_chat_system_prompt a (context_data_of c w) with
    | inr prompt =>
        match Ref.reply (Ref.backend w) (chat_request prompt c message w)
                500 0.7%Q with
        | Some text =>
            if Py.truthy text
            then Some (_process_ai_response text a)
            else None
        | None => None
        end
    | inl _ => None
    end
  else None.

(** The error result of [process_user_message]. *)
Definition processing_error : Py.dict :=
  [ ("error", Py.VStr "Erro ao processar mensagem");
    ("suggestion", Py.VStr "Tente novamente ou reformule sua pergunta") ].

(* ================================================================== *)
(** * Properties *)

(** ** Substring search *)

Lemma prefix_app (needle hay : string) :
  String.prefix needle hay = true
  <-> exists rest, hay = (needle ++ rest)%string.
Proof.
  revert hay. induction needle as [|a needle IH]; intro hay.
  - split; [intros _; now exists hay | intros _; now destruct hay].
  - destruct hay as [|b hay]; simpl.
    + split; [discriminate | intros [rest H]; discriminate].
    + destruct (ascii_dec a b) as [->|Hab].
      * rewrite IH. split; intros [rest H]; exists rest.
        -- now rewrite H.
        -- now injection H.
      * split; [discriminate|]. intros [rest H]. injection H as H _.
        now contradiction Hab.
Qed.

(** [needle in hay] holds exactly when [hay] is some text, then [needle],
    then some text. *)
Lemma contains_occurs (hay needle : string) :
  Py.contains hay needle = true
  <-> exists before after, hay = (before ++ needle ++ after)%string.
Proof.
  induction hay as [|a hay IH].
  - change (Py.contains "" needle) with (String.prefix needle "" || false).
    rewrite orb_false_r, prefix_app. split.
    + intros [rest H]. now exists "", rest.
    + intros [[|b before] [after H]]; [now exists after | discriminate].
  - change (Py.contains (String a hay) needle)
      with (String.prefix needle (String a hay) || Py.contains hay needle).
    rewrite orb_true_iff, prefix_app, IH. split.
    + intros [[rest H] | [before [after H]]].
      * now exists "", rest.
      * exists (String a before), after. simpl. now rewrite H.
    + intros [[|b before] [after H]].
      * left. now exists after.
      * right. injection H as _ H. now exists before, after.
Qed.

Lemma substring_at (before needle after : string) :
  String.substring (String.length before) (String.length needle)
    (before ++ needle ++ after)
  = needle.
Proof.
  induction before as [|a before IH]; simpl.
  - induction needle as [|b needle IH]; simpl.
    + now destruct after.
    + now rewrite IH.
  - exact IH.
Qed.

Lemma substring_prefix (needle text : string) :
  String.substring 0 (String.length needle) text = needle ->
  exists after, text = (needle ++ after)%string.
Proof.
  revert text. induction needle as [|a needle IH]; intros text H.
  - now exists text.
  - destruct text as [|b text]; simpl in H; [discriminate|].
    injection H as -> H. destruct (IH text H) as [after ->].
    now exists after.
Qed.

Lemma substring_occurs (needle : string) (i : nat) (text : string) :
  String.substring i (String.length needle) text = needle ->
  exists before after, text = (before ++ needle ++ after)%string.
Proof.
  revert text. induction i as [|i IH]; intros text H.
  - destruct (substring_prefix needle text H) as [after ->].
    now exists "", after.
  - destruct text as [|a text].
    + assert (Hn : needle = "").
      { destruct needle; [reflexivity | discriminate]. }
      subst needle. now exists "", "".
    + simpl in H. destruct (IH text H) as (before & after & ->).
      now exists (String a before), after.
Qed.

Lemma length_string_app (a b : string) :
  String.length (a ++ b) = (String.length a + String.length b)%nat.
Proof. induction a as [|c a IH]; simpl; [reflexivity | now rewrite IH]. Qed.

(** [occurs_in] decides the occurrence of a substring. *)
Lemma occurs_in_iff (needle text : string) :
  occurs_in needle text = true
  <-> exists before after, text = (before ++ needle ++ after)%string.
Proof.
  unfold occurs_in. rewrite existsb_exists. split.
  - intros (i & _ & Hi). unfold occurs_at in Hi.
    apply String.eqb_eq in Hi. exact (substring_occurs needle i text Hi).
  - intros (before & after & ->). exists (String.length before). split.
    + apply in_seq. rewrite length_string_app. lia.
    + unfold occurs_at. rewrite substring_at. apply String.eqb_refl.
Qed.

(** The [in] of the code decides the same occurrence. *)
Lemma contains_occurs_in (text keyword : string) :
  Py.contains text keyword = occurs_in keyword text.
Proof.
  destruct (occurs_in keyword text) eqn:E.
  - apply contains_occurs, occurs_in_iff, E.
  - destruct (Py.contains text keyword) eqn:E'; [|reflexivity].
    apply contains_occurs, occurs_in_iff in E'. congruence.
Qed.

Lemma spec_hits_code (text : string) (keywords : list string) :
  spec_hits text keywords = keyword_hits text keywords.
Proof.
  unfold spec_hits, keyword_hits. f_equal. apply filter_ext.
  intro k. symmetry. apply contains_occurs_in.
Qed.

Lemma spec_score_code (text : string) (keywords : list string) :
  spec_score text keywords
  = ratio (keyword_hits text keywords) (length keywords).
Proof. unfold spec_score. now rewrite spec_hits_code. Qed.

(** ** The rule-based classifier *)

Lemma demo_knee_pain :
  let r := _rule_based_intent_analysis (R := Demo.runtime)
             "Sinto muita dor no joelho" in
  intent r = Some "injury_concern"
  /\ confidence r = Some (ratio 1 5)
  /\ urgency_level r = Some "high"
  /\ secondary_intents r = Some [].
Proof. vm_compute. repeat split. Qed.

Lemma Qlt_bool_iff (a b : Q) : Py.Qlt_bool a b = true <-> (a < b)%Q.
Proof.
  unfold Py.Qlt_bool. rewrite negb_true_iff. split; intro H.
  - apply Qnot_le_lt. intro Hle. apply Qle_bool_iff in Hle. congruence.
  - destruct (Qle_bool b a) eqn:E; [|reflexivity].
    apply Qle_bool_iff in E. exfalso. exact (Qlt_not_le _ _ H E).
Qed.

Lemma Qlt_bool_false_iff (a b : Q) : Py.Qlt_bool a b = false <-> (b <= a)%Q.
Proof.
  unfold Py.Qlt_bool. rewrite negb_false_iff. apply Qle_bool_iff.
Qed.

Lemma ratio_nonneg (a b : nat) : (0 <= ratio a b)%Q.
Proof.
  unfold ratio, Qdiv. apply Qmult_le_0_compat.
  - unfold Qle, inject_Z. simpl. lia.
  - apply Qinv_le_0_compat. unfold Qle, inject_Z. simpl. lia.
Qed.

Lemma ratio_zero (b : nat) : (ratio 0 b == 0)%Q.
Proof. unfold ratio, Qdiv. simpl. apply Qmult_0_l. Qed.

Lemma ratio_pos (a b : nat) : (0 < a)%nat -> (0 < b)%nat -> (0 < ratio a b)%Q.
Proof.
  intros Ha Hb. unfold ratio, Qdiv. apply Qmult_lt_0_compat.
  - unfold Qlt, inject_Z. simpl. lia.
  - apply Qinv_lt_0_compat. unfold Qlt, inject_Z. simpl. lia.
Qed.

Lemma keyword_hits_le (text : string) (keywords : list string) :
  (keyword_hits text keywords <= length keywords)%nat.
Proof. unfold keyword_hits. apply filter_length_le. Qed.

Lemma spec_score_pos (text : string) (keywords : list string) :
  (0 < keyword_hits text keywords)%nat -> (0 < spec_score text keywords)%Q.
Proof.
  intro H. rewrite spec_score_code. apply ratio_pos; [exact H|].
  pose proof (keyword_hits_le text keywords). lia.
Qed.

(** [max_from] keeps the current best unless a later entry beats it
    strictly; the entries come from the table, those without a hit being
    skipped. *)
Lemma max_from_scores (text : string) :
  forall (table : list (string * list string)) (best : string * Q),
    (0 <= snd best)%Q ->
    let r := Py.max_from best (intent_scores_of text table) in
    (r = best
     /\ Forall (fun e => (spec_score text (snd e) <= snd best)%Q) table)
    \/ (exists before kws after,
           table = before ++ (fst r, kws) :: after
           /\ snd r = spec_score text kws
           /\ (0 < keyword_hits text kws)%nat
           /\ (snd best < snd r)%Q
           /\ Forall (fun e => (spec_score text (snd e) < snd r)%Q) before
           /\ Forall (fun e => (spec_score text (snd e) <= snd r)%Q) after).
Proof.
  induction table as [|[i k] table IH]; intros best Hbest; simpl.
  - left. split; [reflexivity | constructor].
  - destruct (0 <? keyword_hits text k)%nat eqn:Hhit.
    + apply Nat.ltb_lt in Hhit. simpl.
      rewrite <- (spec_score_code text k).
      destruct (Py.Qlt_bool (snd best) (spec_score text k)) eqn:Hlt.
      * apply Qlt_bool_iff in Hlt.
        destruct (IH (i, spec_score text k)) as [[Hr Hall] | Hex].
        { simpl. apply Qlt_le_weak, spec_score_pos, Hhit. }
        { right. exists [], k, table. rewrite Hr. simpl.
          split; [reflexivity|]. split; [reflexivity|].
          split; [exact Hhit|]. split; [exact Hlt|].
          split; [constructor | exact Hall]. }
        { destruct Hex
            as (before & kws & after & Ht & Hs & Hh & Hb & Hbef & Haft).
          right. exists ((i, k) :: before), kws, after. simpl in Hb.
          split; [simpl; f_equal; exact Ht|]. split; [exact Hs|].
          split; [exact Hh|].
          split; [eapply Qlt_trans; eauto|].
          split; [constructor; auto | exact Haft]. }
      * apply Qlt_bool_false_iff in Hlt.
        destruct (IH best Hbest) as [[Hr Hall] | Hex].
        { left. split; [exact Hr|]. constructor; auto. }
        { destruct Hex
            as (before & kws & after & Ht & Hs & Hh & Hb & Hbef & Haft).
          right. exists ((i, k) :: before), kws, after.
          split; [simpl; f_equal; exact Ht|]. split; [exact Hs|].
          split; [exact Hh|]. split; [exact Hb|].
          split; [|exact Haft].
          constructor; auto. simpl. eapply Qle_lt_trans; eauto. }
    + apply Nat.ltb_ge in Hhit.
      assert (Hz : (spec_score text k == 0)%Q).
      { rewrite spec_score_code. replace (keyword_hits text k) with 0%nat by lia.
        apply ratio_zero. }
      destruct (IH best Hbest) as [[Hr Hall] | Hex].
      * left. split; [exact Hr|]. constructor; auto. simpl.
        rewrite Hz. exact Hbest.
      * destruct Hex
          as (before & kws & after & Ht & Hs & Hh & Hb & Hbef & Haft).
        right. exists ((i, k) :: before), kws, after.
        split; [simpl; f_equal; exact Ht|]. split; [exact Hs|].
        split; [exact Hh|]. split; [exact Hb|].
        split; [|exact Haft].
        constructor; auto. simpl. rewrite Hz.
        eapply Qle_lt_trans; eauto.
Qed.

(** The winner of [max(intent_scores, key=intent_scores.get)], read on the
    whole table. *)
Lemma max_by_value_scores (text : string) :
  forall table : list (string * list string),
    match Py.max_by_value (intent_scores_of text table) with
    | None => Forall (fun e => keyword_hits text (snd e) = 0%nat) table
    | Some r =>
        exists before kws after,
          table = before ++ (fst r, kws) :: after
          /\ snd r = spec_score text kws
          /\ (0 < keyword_hits text kws)%nat
          /\ Forall (fun e => (spec_score text (snd e) < snd r)%Q) before
          /\ Forall (fun e => (spec_score text (snd e) <= snd r)%Q) after
    end.
Proof.
  induction table as [|[i k] table IH]; simpl.
  - constructor.
  - destruct (0 <? keyword_hits text k)%nat eqn:Hhit.
    + apply Nat.ltb_lt in Hhit. simpl. rewrite <- (spec_score_code text k).
      destruct (max_from_scores text table (i, spec_score text k))
        as [[Hr Hall] | Hex].
      { simpl. apply Qlt_le_weak, spec_score_pos, Hhit. }
      * exists [], k, table. rewrite Hr. simpl.
        split; [reflexivity|]. split; [reflexivity|].
        split; [exact Hhit|]. split; [constructor | exact Hall].
      * destruct Hex
          as (before & kws & after & Ht & Hs & Hh & Hb & Hbef & Haft).
        exists ((i, k) :: before), kws, after. simpl in Hb.
        split; [simpl; f_equal; exact Ht|]. split; [exact Hs|].
        split; [exact Hh|]. split; [constructor; auto | exact Haft].
    + apply Nat.ltb_ge in Hhit.
      destruct (Py.max_by_value (intent_scores_of text table)) as [r|].
      * destruct IH as (before & kws & after & Ht & Hs & Hh & Hbef & Haft).
        exists ((i, k) :: before), kws, after.
        split; [simpl; f_equal; exact Ht|]. split; [exact Hs|].
        split; [exact Hh|]. split; [|exact Haft].
        constructor; auto. simpl.
        assert (Hz : (spec_score text k == 0)%Q).
        { rewrite spec_score_code.
          replace (keyword_hits text k) with 0%nat by lia.
          apply ratio_zero. }
        rewrite Hz, Hs. apply spec_score_pos, Hh.
      * constructor; [simpl; lia | exact IH].
Qed.

(** The comprehension over [intent_scores.items()] sees the same intents
    as one over the whole table: an intent without a hit scores 0, which is
    not above 0.2. *)
Lemma secondary_over_table (text main : string) :
  forall table : list (string * list string),
    map fst
      (filter (fun '(intent, score) =>
                 negb (String.eqb intent main) && Py.Qlt_bool 0.2 score)
              (intent_scores_of text table))
    = map fst
        (filter (fun '(intent, kws) =>
                   negb (String.eqb intent main)
                   && Py.Qlt_bool 0.2 (spec_score text kws))
                table).
Proof.
  induction table as [|[i k] table IH]; simpl; [reflexivity|].
  destruct (0 <? keyword_hits text k)%nat eqn:Hhit.
  - simpl. rewrite <- (spec_score_code text k).
    destruct (negb (String.eqb i main)
              && Py.Qlt_bool 0.2 (spec_score text k)); simpl;
      now rewrite IH.
  - apply Nat.ltb_ge in Hhit.
    assert (Hq : Py.Qlt_bool 0.2 (spec_score text k) = false).
    { apply Qlt_bool_false_iff. rewrite spec_score_code.
      replace (keyword_hits text k) with 0%nat by lia.
      rewrite ratio_zero. unfold Qle. simpl. lia. }
    rewrite Hq, andb_false_r. exact IH.
Qed.

(** C4. The rule-based classifier scores each of the eight keyworded
    intents by (keywords of the intent that occur as substrings of the
    lower-cased text) / (keywords of the intent), where a keyword occurs
    when the text is some text, the keyword, and some text.  Either no
    keyword occurs, and the result is [general_question] with confidence
    0.5; or the result is an intent of the table with a hit, its score is
    the confidence, every intent before it in the table scores strictly
    less and every intent after it scores no more (the maximal score, the
    first such in table order).  The secondary intents are exactly the
    other intents of the table whose score is strictly above 0.2, in table
    order. *)
Theorem rule_based_intent_analysis_scores (R : Runtime) (message : string) :
  let text := str_lower message in
  let r := _rule_based_intent_analysis message in
  ((Forall (fun e => spec_hits text (snd e) = 0%nat) intent_keywords
    /\ intent r = Some "general_question"
    /\ confidence r = Some 0.5%Q)
   \/ (exists before main kws after,
          intent_keywords = before ++ (main, kws) :: after
          /\ (0 < spec_hits text kws)%nat
          /\ intent r = Some main
          /\ confidence r = Some (spec_score text kws)
          /\ Forall (fun e => (spec_score text (snd e) < spec_score text kws)%Q)
                    before
          /\ Forall (fun e => (spec_score text (snd e) <= spec_score text kws)%Q)
                    after))
  /\ (exists main,
         intent r = Some main
         /\ secondary_intents r
            = Some (map fst
                      (filter (fun '(i, kws) =>
                                 negb (String.eqb i main)
                                 && Py.Qlt_bool 0.2 (spec_score text kws))
                              intent_keywords)))
  /\ (forall keyword,
         occurs_in keyword text = true
         <-> exists before after,
               text = (before ++ keyword ++ after)%string)
  /\ length intent_keywords = 8%nat.
Proof.
  intros text r. subst r. unfold _rule_based_intent_analysis.
  fold text.
  pose proof (max_by_value_scores text intent_keywords) as Hmax.
  assert (Hhits : forall P : nat -> Prop,
             Forall (fun e => P (keyword_hits text (snd e))) intent_keywords
             -> Forall (fun e => P (spec_hits text (snd e))) intent_keywords).
  { intros P H. eapply Forall_impl; [|exact H].
    intros e He. now rewrite spec_hits_code. }
  split; [|split; [|split; [intro keyword; apply occurs_in_iff
                          |reflexivity]]].
  - destruct (Py.max_by_value (intent_scores_of text intent_keywords))
      as [[main score]|] eqn:E.
    + destruct Hmax as (before & kws & after & Ht & Hs & Hh & Hbef & Haft).
      simpl in Ht, Hs, Hbef, Haft. subst score.
      right. exists before, main, kws, after. cbn [intent confidence].
      rewrite spec_hits_code. repeat split; assumption.
    + left. cbn [intent confidence]. split; [|split; reflexivity].
      apply (Hhits (fun n => n = 0%nat)), Hmax.
  - destruct (Py.max_by_value (intent_scores_of text intent_keywords))
      as [[main score]|] eqn:E.
    + exists main. cbn [intent secondary_intents].
      split; [reflexivity|]. f_equal. apply secondary_over_table.
    + exists "general_question". cbn [intent secondary_intents].
      split; [reflexivity|]. f_equal. apply secondary_over_table.
Qed.

(** ** The fallback responder *)

(** [_generate_fallback_response] computes the canned text for the intent
    of the payload and the display name of the conversation's user, when
    the payload is a dict whose intent is hashable; it raises otherwise. *)
Lemma generate_fallback_response_canned
  (c : Conversation.t) (message : string) (a : Py.json) :
  answerable a = true ->
  _generate_fallback_response c message a
  = inr (canned_template (display_name (Conversation.user c))
           (intent_string a)).
Proof.
  intro Ha. destruct a as [| | | | |l|items]; try discriminate.
  unfold _generate_fallback_response, dict_get, intent_string, intent_entry,
    answerable in *.
  assert (Hname :
            (if Py.truthy (first_name (Conversation.user c))
             then first_name (Conversation.user c) else "amigo(a)")
            = display_name (Conversation.user c)).
  { unfold display_name, Py.truthy.
    now destruct (String.eqb (first_name (Conversation.user c)) ""). }
  cbv zeta. rewrite Hname.
  destruct (Py.assoc "intent" items) as [v|].
  - destruct v as [| | | |i| |]; try discriminate; try reflexivity.
    unfold literal_get, canned_template. cbn [Py.hashable].
    unfold fallback_responses, lookup.
    repeat match goal with
           | |- context [String.eqb i ?k] => destruct (String.eqb i k)
           end; reflexivity.
  - reflexivity.
Qed.

Lemma generate_fallback_response_raises
  (c : Conversation.t) (message : string) (a : Py.json) :
  answerable a = false ->
  exists what,
    _generate_fallback_response c message a = inl (Exception what).
Proof.
  intro Ha. unfold _generate_fallback_response.
  destruct a as [| | | | |l|items]; try (eexists; reflexivity).
  unfold answerable in Ha. cbn [dict_get].
  destruct (Py.assoc "intent" items) as [v|]; [|discriminate].
  destruct v; try discriminate; eexists; reflexivity.
Qed.

(** Every canned text is one of the seven texts of the table. *)
Lemma canned_template_in_seven (name : string) (i : option string) :
  In (canned_template name i) (seven_texts name).
Proof.
  unfold canned_template, seven_texts.
  destruct i as [i|].
  - repeat match goal with
           | |- context [String.eqb i ?k] => destruct (String.eqb i k)
           end; cbv [lookup_or_empty lookup fallback_responses map snd String.eqb Ascii.eqb Bool.eqb];
      simpl; tauto.
  - cbv [lookup_or_empty lookup fallback_responses map snd String.eqb Ascii.eqb Bool.eqb];
      simpl; tauto.
Qed.

(** The seven texts are pairwise distinct, whatever the name. *)
Lemma seven_texts_NoDup (name : string) :
  NoDup (seven_texts name).
Proof.
  unfold seven_texts, fallback_responses. simpl map.
  repeat (constructor; [simpl; intuition discriminate|]).
  constructor.
Qed.

(** ** The monad *)

Section Run.

Context {W A B : Type}.

Lemma bind_inr (m : M W A) (k : A -> M W B) (w w' : W) (a : A) :
  m w = (inr a, w') -> bind m k w = k a w'.
Proof. intro H. unfold bind. now rewrite H. Qed.

Lemma bind_inl (m : M W A) (k : A -> M W B) (w w' : W) (e : exn) :
  m w = (inl e, w') -> bind m k w = (inl e, w').
Proof. intro H. unfold bind. now rewrite H. Qed.

Lemma try_except_inr (m : M W A) (h : exn -> M W A) (w w' : W) (a : A) :
  m w = (inr a, w') -> try_except m h w = (inr a, w').
Proof. intro H. unfold try_except. now rewrite H. Qed.

Lemma try_except_inl (m : M W A) (h : exn -> M W A) (w w' : W) (e : exn) :
  m w = (inl e, w') -> try_except m h w = h e w'.
Proof. intro H. unfold try_except. now rewrite H. Qed.

(** A [try] whose handler returns a value never raises. *)
Lemma try_except_total (m : M W A) (f : exn -> A) (w : W) :
  exists a w', try_except m (fun e => ret (f e)) w = (inr a, w').
Proof.
  unfold try_except, ret. destruct (m w) as [[e|a] w']; eauto.
Qed.

End Run.

(** ** Expiry *)

(** C1. In the reference world, [process_user_message] on a conversation
    whose age exceeds the timeout of 24 hours returns the expired result,
    whatever the status of the conversation, and leaves the world as it
    was: no message, neither of the user nor of the assistant, is
    persisted. *)
Theorem process_user_message_expired (R : Runtime) (w : Ref.World)
  (conversation_id : Z) (message : string) (c : Conversation.t) :
  Ref.conversation_get conversation_id w = Some c ->
  (conversation_timeout_hours * 3600
   < Ref.clock w - Conversation.created_at c)%Z ->
  process_user_message conversation_id message w
  = (inr [ ("error", Py.VStr "Conversa expirada");
           ("suggestion",
             Py.VStr "Inicie uma nova conversa para continuar") ],
     w).
Proof.
  intros Hget Hage.
  unfold process_user_message, process_user_message_try, try_except, bind,
    now_time, gets.
  cbn [Conversation_get Conversation_is_expired Ref.collaborators].
  rewrite Hget. unfold Ref.is_expired.
  apply Z.ltb_lt in Hage. rewrite Hage. reflexivity.
Qed.

Lemma process_user_message_expired_witness :
  let w := Demo.world_at 90000 Demo.backend_down in
  Ref.conversation_get 1 w = Some Demo.conversation_1
  /\ (conversation_timeout_hours * 3600
      < Ref.clock w - Conversation.created_at Demo.conversation_1)%Z
  /\ process_user_message (R := Demo.runtime) 1 "oi" w
     = (inr [ ("error", Py.VStr "Conversa expirada");
              ("suggestion",
                Py.VStr "Inicie uma nova conversa para continuar") ],
        w).
Proof.
  split; [reflexivity|]. split; [reflexivity|].
  apply (process_user_message_expired Demo.runtime
           (Demo.world_at 90000 Demo.backend_down) 1 "oi"
           Demo.conversation_1); reflexivity.
Defined.

(** ** Resuming *)



(** ** Ending a conversation *)

Lemma find_save_row (c : Conversation.t) (rows : list Conversation.t) :
  find (fun x => (Conversation.id x =? Conversation.id c)%Z)
       (Ref.save_row Conversation.id c rows)
  = Some c.
Proof.
  induction rows as [|y rows IH]; simpl.
  - now rewrite Z.eqb_refl.
  - destruct (Conversation.id y =? Conversation.id c)%Z eqn:E; simpl.
    + now rewrite Z.eqb_refl.
    + now rewrite E.
Qed.

(** With a rating other than zero, [end_conversation] on an existing
    conversation completes it, stores the rating, and reports the message
    count, the elapsed minutes and [rating_saved = True]. *)
Lemma end_conversation_stores_rating (w : Ref.World)
  (conversation_id : Z) (rating : Q) (c : Conversation.t) :
  Ref.conversation_get conversation_id w = Some c ->
  ~ (rating == 0)%Q ->
  let c' := Conversation.with_rating rating
              (Conversation.with_status "completed" c) in
  exists w',
    end_conversation conversation_id (Some rating) w
    = (inr [ ("conversation_ended", Py.VBool true);
             ("total_messages", Py.VInt (Conversation.message_count c));
             ("duration_minutes",
               Py.VNum (inject_Z (Ref.clock w - Conversation.created_at c)
                        / 60)%Q);
             ("rating_saved", Py.VBool true) ],
       w')
    /\ Ref.conversation_get conversation_id w' = Some c'
    /\ Conversation.status c' = "completed"
    /\ Conversation.user_satisfaction_rating c' = Some rating.
Proof.
  intros Hget Hnz c'.
  assert (Hid : Conversation.id c = conversation_id).
  { unfold Ref.conversation_get in Hget. apply find_some in Hget.
    destruct Hget as [_ H]. now apply Z.eqb_eq in H. }
  exists (Ref.set_conversations
            (Ref.save_row Conversation.id c' (Ref.conversations w)) w).
  split; [|split; [|split; reflexivity]].
  - unfold end_conversation, end_conversation_try, try_except, bind,
      now_datetime, gets.
    cbn [Conversation_get Conversation_save timezone_now Ref.collaborators].
    rewrite Hget.
    destruct (Qeq_bool rating 0) eqn:E.
    + apply Qeq_bool_iff in E. contradiction.
    + reflexivity.
  - unfold Ref.conversation_get. cbn [Ref.conversations Ref.set_conversations].
    rewrite <- Hid. change (Conversation.id c) with (Conversation.id c').
    apply find_save_row.
Qed.

(** [end_conversation] on an id that is not in the store returns the
    not-found result. *)
Lemma end_conversation_not_found (w : Ref.World)
  (conversation_id : Z) (user_rating : option Q) :
  Ref.conversation_get conversation_id w = None ->
  end_conversation conversation_id user_rating w
  = (inr [ ("error", Py.VStr "Conversa não encontrada") ], w).
Proof.
  intro Hget.
  unfold end_conversation, end_conversation_try, try_except, bind.
  cbn [Conversation_get Ref.collaborators].
  now rewrite Hget.
Qed.

(** C8, at the rating 0.0.  [end_conversation] on Ana's conversation
    with the rating 0.0 completes the conversation and reports
    [rating_saved = True], and the stored rating is still missing: the test
    [if user_rating:] takes the rating 0.0 for no rating, while
    [user_rating is not None] takes it for one. *)
Theorem end_conversation_rating_zero_not_stored :
  let w := Demo.world_at 2800 Demo.backend_down in
  let '(r, w') := end_conversation 1 (Some 0%Q) w in
  (r = inr [ ("conversation_ended", Py.VBool true);
             ("total_messages", Py.VInt 0);
             ("duration_minutes", Py.VNum (inject_Z 1800 / 60)%Q);
             ("rating_saved", Py.VBool true) ])
  /\ option_map Conversation.status (Ref.conversation_get 1 w')
     = Some "completed"
  /\ option_map Conversation.user_satisfaction_rating
       (Ref.conversation_get 1 w')
     = Some None.
Proof. vm_compute. repeat split. Qed.

(** The same call with the rating 4.5 stores 4.5. *)
Lemma end_conversation_rating_four_and_a_half :
  let w := Demo.world_at 2800 Demo.backend_down in
  let '(r, w') := end_conversation 1 (Some 4.5%Q) w in
  (exists d, r = inr d
             /\ Py.get "rating_saved" d = Some (Py.VBool true))
  /\ option_map Conversation.status (Ref.conversation_get 1 w')
     = Some "completed"
  /\ option_map Conversation.user_satisfaction_rating
       (Ref.conversation_get 1 w')
     = Some (Some 4.5%Q).
Proof. vm_compute. repeat split. eexists. split; reflexivity. Qed.

(** ** The orchestrator boundary *)

(** C9, as the code has it.  Whatever the collaborators do, none of
    [start_conversation], [process_user_message] and [end_conversation]
    raises: what the [try] block returns is returned, and an exception of
    the [try] block is turned into a fixed result that does not mention the
    exception.  For [start_conversation] that result is an error text with
    a retry hint under [fallback]; for [process_user_message] it is an error
    text with a retry hint under [suggestion] (the not-found result for
    [Conversation.DoesNotExist]); for [end_conversation] it is an error text
    alone (the not-found text for [Conversation.DoesNotExist]). *)
Theorem orchestrator_never_raises (R : Runtime) (W : Type)
  (C : Collaborators W) :
  (forall user conversation_type initial_message (w : W),
      start_conversation user conversation_type initial_message w
      = match start_conversation_try user conversation_type
                initial_message w with
        | (inr d, w') => (inr d, w')
        | (inl _, w') =>
            (inr [ ("error", Py.VStr "Não foi possível iniciar conversa");
                   ("fallback",
                     Py.VStr "Tente novamente em alguns instantes") ],
             w')
        end)
  /\ (forall conversation_id message (w : W),
         process_user_message conversation_id message w
         = match process_user_message_try (time_time w)
                   conversation_id message w with
           | (inr d, w') => (inr d, w')
           | (inl Conversation_DoesNotExist, w') =>
               (inr [ ("error", Py.VStr "Conversa não encontrada");
                      ("suggestion",
                        Py.VStr
                          "Verifique o ID da conversa ou inicie uma nova") ],
                w')
           | (inl _, w') =>
               (inr [ ("error", Py.VStr "Erro ao processar mensagem");
                      ("suggestion",
                        Py.VStr
                          "Tente novamente ou reformule sua pergunta") ],
                w')
           end)
  /\ (forall conversation_id user_rating (w : W),
         end_conversation conversation_id user_rating w
         = match end_conversation_try conversation_id user_rating w with
           | (inr d, w') => (inr d, w')
           | (inl Conversation_DoesNotExist, w') =>
               (inr [ ("error", Py.VStr "Conversa não encontrada") ], w')
           | (inl _, w') =>
               (inr [ ("error", Py.VStr "Erro ao finalizar conversa") ], w')
           end)
  /\ (forall user conversation_type initial_message (w : W),
         exists d w',
           start_conversation user conversation_type initial_message w
           = (inr d, w'))
  /\ (forall conversation_id message (w : W),
         exists d w',
           process_user_message conversation_id message w = (inr d, w'))
  /\ (forall conversation_id user_rating (w : W),
         exists d w',
           end_conversation conversation_id user_rating w = (inr d, w')).
Proof.
  split; [|split; [|split; [|split; [|split]]]]; intros.
  - unfold start_conversation, try_except, ret.
    destruct (start_conversation_try _ _ _ w) as [[e|d] w']; reflexivity.
  - unfold process_user_message, bind, now_time, gets, try_except, ret.
    destruct (process_user_message_try _ _ _ w) as [[e|d] w'];
      [destruct e|]; reflexivity.
  - unfold end_conversation, try_except, ret.
    destruct (end_conversation_try _ _ w) as [[e|d] w'];
      [destruct e|]; reflexivity.
  - apply try_except_total.
  - unfold process_user_message, bind, now_time, gets.
    apply try_except_total.
  - apply try_except_total.
Qed.

(** C9 as stated fails for [end_conversation]: when saving the
    conversation raises, the result is the error text alone, without any
    retry suggestion. *)
Lemma end_conversation_failure_without_suggestion :
  let w := Demo.world_at 2800 Demo.backend_down in
  end_conversation_try (C := Demo.read_only_conversations) 1 None w
  = (inl (Exception "database is locked"), w)
  /\ exists d,
       end_conversation (C := Demo.read_only_conversations) 1 None w
       = (inr d, w)
       /\ Py.has_key "suggestion" d = false
       /\ Py.has_key "fallback" d = false.
Proof.
  split; [reflexivity|].
  eexists. split; [reflexivity|]. split; reflexivity.
Qed.

(** ** Intent analysis in the reference world *)


(** [_ai_intent_analysis] only reads, and what it returns is the
    classification of the backend when it is truthy. *)
Lemma ai_intent_analysis_ref (R : Runtime) (message : string)
  (c : Conversation.t) (w : Ref.World) :
  exists a,
    _ai_intent_analysis message c w = (inr a, w)
    /\ ai_intent_of message w
       = if Py.truthy_json a then Some a else None.
Proof.
  unfold _ai_intent_analysis, ai_intent_of, try_except, bind.
  cbn [_make_openai_request Ref.collaborators].
  destruct (Ref.reply (Ref.backend w) (intent_prompt message) 200 0.3%Q)
    as [text|]; [|now exists Py.JNull].
  destruct (Py.truthy text); [|now exists Py.JNull].
  destruct (json_loads text) as [parsed|]; [|now exists Py.JNull].
  exists parsed. split; [reflexivity|].
  now destruct (Py.truthy_json parsed).
Qed.

(** [_analyze_message_intent] returns the live cache entry if there is a
    truthy one; otherwise it classifies, by the backend when that yields a
    truthy payload and by rules when not, and stores the payload for
    3600 s or 1800 s. *)
Lemma analyze_message_intent_ref (R : Runtime) (message : string)
  (c : Conversation.t) (w : Ref.World) :
  _analyze_message_intent message c w
  = match cached_payload message w with
    | Some cached => (inr cached, w)
    | None =>
        match (if Ref.is_available (Ref.backend w)
               then ai_intent_of message w else None) with
        | Some ai_intent =>
            (inr ai_intent,
             Ref.cache_store (cache_key message) ai_intent 3600 w)
        | None =>
            (inr (dict_of (_rule_based_intent_analysis message)),
             Ref.cache_store (cache_key message)
               (dict_of (_rule_based_intent_analysis message)) 1800 w)
        end
    end.
Proof.
  unfold _analyze_message_intent, cached_payload, try_except, bind.
  cbn [cache_get cache_set ai_is_available Ref.collaborators].
  destruct (Ref.cache_lookup (cache_key message) (Ref.clock w) (Ref.cache w))
    as [cached|];
    [destruct (Py.truthy_json cached) eqn:Hc; [reflexivity|]
    | cbn [Py.truthy_json]].
  all: destruct (Ref.is_available (Ref.backend w)); [|reflexivity].
  all: destruct (ai_intent_analysis_ref R message c w) as (a & Hrun & Hai).
  all: rewrite Hrun, Hai.
  all: destruct (Py.truthy_json a); reflexivity.
Qed.

Lemma analyze_message_intent_detected (R : Runtime) (message : string)
  (c : Conversation.t) (w : Ref.World) :
  exists w',
    _analyze_message_intent message c w = (inr (detected message w), w')
    /\ Ref.conversations w' = Ref.conversations w
    /\ Ref.messages w' = Ref.messages w
    /\ Ref.contexts w' = Ref.contexts w
    /\ Ref.backend w' = Ref.backend w
    /\ Ref.clock w' = Ref.clock w
    /\ Ref.timer w' = Ref.timer w.
Proof.
  rewrite analyze_message_intent_ref. unfold detected.
  destruct (cached_payload message w).
  - exists w. repeat split; reflexivity.
  - destruct (if Ref.is_available (Ref.backend w)
              then ai_intent_of message w else None);
      eexists; repeat split; reflexivity.
Qed.




(** The two lifetimes, evaluated: at time 2800 a rule-based payload is kept
    until 4600 and a payload of the backend until 6400. *)
Lemma demo_cache_lifetimes :
  let key := cache_key (R := Demo.runtime) "O que devo comer?" in
  let after b :=
    snd (_analyze_message_intent (R := Demo.runtime) "O que devo comer?"
           Demo.conversation_1 (Demo.world_at 2800 b)) in
  option_map snd (cache_entry key (Ref.cache (after Demo.backend_down)))
  = Some 4600%Z
  /\ option_map snd (cache_entry key (Ref.cache (after Demo.backend_up)))
     = Some 6400%Z
  /\ option_map (fun e => intent_string (fst e))
       (cache_entry key (Ref.cache (after Demo.backend_down)))
     = Some (Some "nutrition_advice")
  /\ option_map fst
       (cache_entry key (Ref.cache (after Demo.backend_up)))
     = Some (payload_of (Py.JStr "nutrition_advice")).
Proof. vm_compute. repeat split. Qed.

(** ** Context maintenance *)

Lemma mem_In (x : string) (l : list string) :
  Py.mem x l = true <-> In x l.
Proof.
  unfold Py.mem. rewrite existsb_exists. split.
  - intros [y [Hin Heq]]. apply String.eqb_eq in Heq. now subst.
  - intro Hin. exists x. split; [exact Hin | apply String.eqb_refl].
Qed.

(** An intent is listed exactly when it is an element of the list. *)
Lemma listed_In (i : string) (topics : list Py.json) :
  listed i topics = true <-> In (Py.JStr i) topics.
Proof.
  unfold listed. rewrite existsb_exists. split.
  - intros [y [Hin Heq]]. destruct y; try discriminate.
    apply String.eqb_eq in Heq. now subst.
  - intro Hin. exists (Py.JStr i). split; [exact Hin | apply String.eqb_refl].
Qed.

(** The [in] of the code, for a string, is that membership. *)
Lemma mem_json_listed (i : string) (topics : list Py.json) :
  Py.mem_json (Py.JStr i) topics = listed i topics.
Proof.
  unfold Py.mem_json, listed.
  induction topics as [|y topics IH]; [reflexivity|].
  simpl. rewrite IH. now destruct y.
Qed.

(** What [get] finds under [intent] in a dict whose intent is a string. *)
Lemma dict_get_intent_string (a : Py.json) (i : string) (default : Py.json) :
  intent_string a = Some i ->
  dict_get "intent" default a = inr (Py.JStr i).
Proof.
  unfold intent_string, intent_entry, dict_get.
  destruct a as [| | | | | |items]; try discriminate.
  destruct (Py.assoc "intent" items) as [v|]; [|discriminate].
  destruct v; try discriminate. now intros [= ->].
Qed.

Lemma truthy_intent_string (a : Py.json) :
  Py.truthy_opt (intent_string a) = true ->
  intent_string a = Some (intent_of a)
  /\ Py.truthy (intent_of a) = true.
Proof.
  unfold intent_of. destruct (intent_string a) as [i|]; [|discriminate].
  intro H. split; [reflexivity | exact H].
Qed.

Lemma last_n_rev {A : Type} (n : nat) (l : list A) :
  Py.last_n n l = rev (firstn n (rev l)).
Proof. unfold Py.last_n. now rewrite firstn_rev, rev_involutive. Qed.

Lemma last_n_snoc {A : Type} (n : nat) (l : list A) (x : A) :
  Py.last_n (S n) (l ++ [x]) = Py.last_n n l ++ [x].
Proof. rewrite !last_n_rev, rev_app_distr. reflexivity. Qed.

Lemma last_n_last_n {A : Type} (n m : nat) (l : list A) :
  (n <= m)%nat -> Py.last_n n (Py.last_n m l) = Py.last_n n l.
Proof.
  intro H. rewrite !last_n_rev, rev_involutive, firstn_firstn.
  now rewrite Nat.min_l.
Qed.

Lemma last_n_length {A : Type} (n : nat) (l : list A) :
  (length (Py.last_n n l) <= n)%nat.
Proof. unfold Py.last_n. rewrite length_skipn. lia. Qed.

Lemma In_last_n {A : Type} (n : nat) (l : list A) (x : A) :
  In x (Py.last_n n l) -> In x l.
Proof.
  unfold Py.last_n. intro H.
  rewrite <- (firstn_skipn (length l - n) l). apply in_or_app. now right.
Qed.

Lemma last_n_map {A B : Type} (f : A -> B) (n : nat) (l : list A) :
  Py.last_n n (map f l) = map f (Py.last_n n l).
Proof. unfold Py.last_n. now rewrite length_map, skipn_map. Qed.

Lemma record_topic_In (i : string) (topics : list Py.json) :
  In (Py.JStr i) (record_topic i topics).
Proof.
  unfold record_topic. destruct (listed i topics) eqn:E.
  - now apply listed_In.
  - rewrite last_n_snoc. apply in_or_app. right. now left.
Qed.

Lemma record_topic_length (i : string) (topics : list Py.json) :
  (length topics <= 5)%nat -> (length (record_topic i topics) <= 5)%nat.
Proof.
  intro H. unfold record_topic. destruct (listed i topics).
  - exact H.
  - apply last_n_length.
Qed.

Lemma record_topics_length (l : list string) (topics : list Py.json) :
  (length topics <= 5)%nat ->
  (length (fold_left (fun t i => record_topic i t) l topics) <= 5)%nat.
Proof.
  revert topics. induction l as [|i l IH]; intros topics H; simpl.
  - exact H.
  - apply IH, record_topic_length, H.
Qed.

(** An intent that was just appended survives the next write. *)
Lemma record_topic_keeps_last (b : string) (a : Py.json)
  (l : list Py.json) :
  In a (record_topic b (l ++ [a])).
Proof.
  unfold record_topic. destruct (listed b (l ++ [a])).
  - apply in_or_app. right. now left.
  - rewrite !last_n_snoc. apply in_or_app. left.
    apply in_or_app. right. now left.
Qed.

(** A list of fewer than 5 topics loses nothing at the next write. *)
Lemma record_topic_keeps_short (b : string) (a : Py.json)
  (topics : list Py.json) :
  In a topics -> (length topics < 5)%nat -> In a (record_topic b topics).
Proof.
  intros Hin Hlen. unfold record_topic. destruct (listed b topics).
  - exact Hin.
  - unfold Py.last_n. rewrite length_app. simpl length.
    replace (length topics + 1 - 5)%nat with 0%nat by lia.
    simpl. apply in_or_app. now left.
Qed.

(** After the writes of [a] then [b], the list holds both, provided [a]
    was appended by its write or the list was not full. *)
Lemma record_two_topics (a b : string) (topics : list Py.json) :
  ~ In (Py.JStr a) topics \/ (length topics < 5)%nat ->
  In (Py.JStr a) (record_topic b (record_topic a topics))
  /\ In (Py.JStr b) (record_topic b (record_topic a topics)).
Proof.
  intro H. split; [|apply record_topic_In].
  unfold record_topic at 2. destruct (listed a topics) eqn:E.
  - apply listed_In in E. destruct H as [H|H]; [contradiction|].
    now apply record_topic_keeps_short.
  - rewrite last_n_snoc. apply record_topic_keeps_last.
Qed.

(** Recording intents that are all different, from a list that holds the
    last 5 of those recorded before, keeps the last 5 of them all. *)
Lemma record_topics_distinct (l before : list string) :
  NoDup (before ++ l) ->
  fold_left (fun t i => record_topic i t) l
    (Py.last_n 5 (map Py.JStr before))
  = Py.last_n 5 (map Py.JStr (before ++ l)).
Proof.
  revert before. induction l as [|x l IH]; intros before Hnd; simpl.
  - now rewrite app_nil_r.
  - assert (Hx : listed x (Py.last_n 5 (map Py.JStr before)) = false).
    { destruct (listed x (Py.last_n 5 (map Py.JStr before))) eqn:E;
        [|reflexivity].
      apply listed_In, In_last_n, in_map_iff in E.
      destruct E as (y & Hy & Hin). injection Hy as ->.
      apply NoDup_remove_2 in Hnd. exfalso. apply Hnd.
      apply in_or_app. now left. }
    unfold record_topic at 2. rewrite Hx.
    rewrite last_n_snoc, last_n_last_n, <- last_n_snoc by lia.
    replace (before ++ x :: l) with ((before ++ [x]) ++ l)
      by (now rewrite <- app_assoc).
    replace (map Py.JStr before ++ [Py.JStr x])
      with (map Py.JStr (before ++ [x])) by (now rewrite map_app).
    apply IH. now rewrite <- app_assoc.
Qed.

(** *** The context store *)

Lemma same_key_of_same_row (a : Z) (b k : string) (x y : ChatContext.t) :
  Ref.same_key (ChatContext.conversation x) (ChatContext.context_type x)
    (ChatContext.context_key x) y = true ->
  Ref.same_key a b k y = Ref.same_key a b k x.
Proof.
  unfold Ref.same_key. rewrite !andb_true_iff.
  intros [[H1 H2] H3].
  apply Z.eqb_eq in H1. apply String.eqb_eq in H2, H3.
  now rewrite H1, H2, H3.
Qed.

(** A write under another key does not change what is read under a key. *)
Lemma filter_upsert_other (a : Z) (b k : string) (x : ChatContext.t)
  (rows : list ChatContext.t) :
  Ref.same_key a b k x = false ->
  filter (Ref.same_key a b k) (Ref.upsert x rows)
  = filter (Ref.same_key a b k) rows.
Proof.
  intro Hx. induction rows as [|y rows IH]; simpl.
  - now rewrite Hx.
  - destruct (Ref.same_key (ChatContext.conversation x)
                (ChatContext.context_type x) (ChatContext.context_key x) y)
      eqn:E; simpl.
    + rewrite (same_key_of_same_row a b k x y E), Hx. reflexivity.
    + now rewrite IH.
Qed.

(** A write under a key puts its record in the place of the first record
    read under that key. *)
Lemma filter_upsert_same (x : ChatContext.t) (rows : list ChatContext.t) :
  let K := Ref.same_key (ChatContext.conversation x)
             (ChatContext.context_type x) (ChatContext.context_key x) in
  filter K (Ref.upsert x rows) = x :: tl (filter K rows).
Proof.
  intro K.
  assert (HK : K x = true).
  { unfold K, Ref.same_key. now rewrite Z.eqb_refl, !String.eqb_refl. }
  induction rows as [|y rows IH]; simpl.
  - now rewrite HK.
  - fold K. destruct (K y) eqn:E; simpl.
    + now rewrite HK.
    + now rewrite E.
Qed.

Lemma topics_records_styled (R : Runtime) (c : Conversation.t)
  (message : string) (w : Ref.World) :
  topics_records c (styled c message w) = topics_records c w.
Proof.
  unfold styled. destruct (20 <? length (str_split message))%nat;
    [|reflexivity].
  unfold topics_records, Ref.get_context, Ref.set_context.
  cbn [Ref.contexts Ref.set_contexts].
  apply filter_upsert_other.
  unfold Ref.same_key. cbn. now rewrite andb_false_r.
Qed.

(** One run of [_update_conversation_context] with a dict whose intent is
    a non-empty string. *)
Lemma update_conversation_context_ref (R : Runtime) (c : Conversation.t)
  (message : string) (ia : Py.json) (w : Ref.World) :
  Py.truthy_opt (intent_string ia) = true ->
  _update_conversation_context c message ia w
  = (inr tt,
     Ref.set_context c "preferences" "topics_of_interest"
       (CV_topics (record_topic (intent_of ia) (stored_topics c w))) 0.6%Q
       (styled c message w)).
Proof.
  intro Htruthy.
  pose proof (topics_records_styled R c message w) as Hrec.
  destruct (truthy_intent_string ia Htruthy) as [Hi Hne].
  unfold _update_conversation_context, try_except, bind, lift.
  cbn [ChatContext_set_context ChatContext_get_context Ref.collaborators].
  rewrite (dict_get_intent_string ia _ _ Hi).
  cbn [Py.truthy_json]. rewrite Hne.
  unfold stored_topics, record_topic.
  revert Hrec. unfold topics_records, styled, ret.
  destruct (20 <? length (str_split message))%nat; intro Hrec.
  - rewrite Hrec.
    destruct (Ref.get_context c "preferences" "topics_of_interest" w)
      as [|r rest].
    + reflexivity.
    + rewrite mem_json_listed. destruct (listed _ _); reflexivity.
  - destruct (Ref.get_context c "preferences" "topics_of_interest" w)
      as [|r rest].
    + reflexivity.
    + rewrite mem_json_listed. destruct (listed _ _); reflexivity.
Qed.

(** The record a run of [_update_conversation_context] leaves under
    (preferences, topics_of_interest). *)
Lemma update_topics_step (R : Runtime) (c : Conversation.t)
  (message : string) (ia : Py.json) (w : Ref.World) :
  Py.truthy_opt (intent_string ia) = true ->
  topics_records c (snd (_update_conversation_context c message ia w))
  = {| ChatContext.conversation := Conversation.id c;
       ChatContext.context_type := "preferences";
       ChatContext.context_key := "topics_of_interest";
       ChatContext.context_value_ :=
         CV_topics (record_topic (intent_of ia) (stored_topics c w));
       ChatContext.relevance := 0.6%Q |}
    :: tl (topics_records c w).
Proof.
  intro Htruthy. rewrite update_conversation_context_ref by exact Htruthy.
  cbn [snd]. rewrite <- (topics_records_styled R c message w).
  unfold topics_records, Ref.get_context, Ref.set_context.
  cbn [Ref.contexts Ref.set_contexts].
  exact (filter_upsert_same
           {| ChatContext.conversation := Conversation.id c;
              ChatContext.context_type := "preferences";
              ChatContext.context_key := "topics_of_interest";
              ChatContext.context_value_ :=
                CV_topics (record_topic (intent_of ia) (stored_topics c w));
              ChatContext.relevance := 0.6%Q |}
           (Ref.contexts (styled c message w))).
Qed.

Lemma update_topics_stored (R : Runtime) (c : Conversation.t)
  (message : string) (ia : Py.json) (w : Ref.World) :
  Py.truthy_opt (intent_string ia) = true ->
  stored_topics c (snd (_update_conversation_context c message ia w))
  = record_topic (intent_of ia) (stored_topics c w).
Proof.
  intro Htruthy. unfold stored_topics at 1.
  now rewrite update_topics_step.
Qed.

Lemma record_turns_stored (R : Runtime) (c : Conversation.t)
  (turns : list (string * Py.json)) :
  Forall (fun t => Py.truthy_opt (intent_string (snd t)) = true) turns ->
  forall w : Ref.World,
    stored_topics c (record_turns c turns w)
    = fold_left (fun t i => record_topic i t)
        (map (fun t => intent_of (snd t)) turns) (stored_topics c w).
Proof.
  induction 1 as [|[message ia] turns Ht _ IH]; intro w; simpl.
  - reflexivity.
  - unfold record_turns in *. simpl. rewrite IH.
    now rewrite update_topics_stored.
Qed.

Lemma record_turns_records (R : Runtime) (c : Conversation.t)
  (turns : list (string * Py.json)) :
  Forall (fun t => Py.truthy_opt (intent_string (snd t)) = true) turns ->
  turns <> [] ->
  forall w : Ref.World,
    topics_records c (record_turns c turns w)
    = {| ChatContext.conversation := Conversation.id c;
         ChatContext.context_type := "preferences";
         ChatContext.context_key := "topics_of_interest";
         ChatContext.context_value_ :=
           CV_topics (stored_topics c (record_turns c turns w));
         ChatContext.relevance := 0.6%Q |}
      :: tl (topics_records c w).
Proof.
  induction 1 as [|[message ia] turns Ht Hts IH]; intros Hne w.
  - contradiction.
  - destruct turns as [|t turns].
    + unfold record_turns. simpl.
      rewrite update_topics_stored by exact Ht.
      now apply update_topics_step.
    + assert (Hne' : t :: turns <> []) by discriminate.
      specialize (IH Hne'
                    (snd (_update_conversation_context c message ia w))).
      change (record_turns c ((message, ia) :: t :: turns) w)
        with (record_turns c (t :: turns)
                (snd (_update_conversation_context c message ia w))).
      rewrite IH. f_equal.
      now rewrite update_topics_step.
Qed.

(** C7, as the code has it.  In the reference world, after the context
    updates of a sequence of turns whose analyses are dicts with non-empty
    string intents: the stored list of topics is the stored list to which
    each intent, in turn, was recorded, where recording an intent that is
    an element of the list leaves the list as it is, and recording an
    intent that is not appends it at the end and keeps the last 5 entries;
    it contains the intent of the last turn; it has at most 5 entries if
    it had at most 5 before; when the conversation had no record and the
    intents are all different, it is the list of the last 5 of them (both
    of them, for two); the writes are upserts: the records under
    (preferences, topics_of_interest) are one record with relevance 0.6
    that holds the list, in the place of the first record found before, so
    a single record when there was at most one; and after two turns with
    intents A then B the list holds both, provided A was appended by its
    turn or the list held fewer than 5 topics. *)
Theorem topics_of_interest_rolling (R : Runtime) (w : Ref.World)
  (c : Conversation.t) (turns : list (string * Py.json)) :
  Forall (fun t => Py.truthy_opt (intent_string (snd t)) = true) turns ->
  turns <> [] ->
  let intents := map (fun t => intent_of (snd t)) turns in
  let w' := record_turns c turns w in
  stored_topics c w'
  = fold_left (fun t i => record_topic i t) intents (stored_topics c w)
  /\ (forall i topics,
         (In (Py.JStr i) topics -> record_topic i topics = topics)
         /\ (~ In (Py.JStr i) topics ->
             record_topic i topics
             = Py.last_n 5 (topics ++ [Py.JStr i])))
  /\ In (Py.JStr (last intents "")) (stored_topics c w')
  /\ ((length (stored_topics c w) <= 5)%nat ->
      (length (stored_topics c w') <= 5)%nat)
  /\ (topics_records c w = [] -> NoDup intents ->
      stored_topics c w' = map Py.JStr (Py.last_n 5 intents))
  /\ (exists r,
         topics_records c w' = r :: tl (topics_records c w)
         /\ ChatContext.relevance r = 0.6%Q
         /\ ChatContext.context_value_ r = CV_topics (stored_topics c w'))
  /\ ((length (topics_records c w) <= 1)%nat ->
      length (topics_records c w') = 1%nat)
  /\ (forall ta tb,
         turns = [ta; tb] ->
         ~ In (Py.JStr (intent_of (snd ta))) (stored_topics c w)
         \/ (length (stored_topics c w) < 5)%nat ->
         In (Py.JStr (intent_of (snd ta))) (stored_topics c w')
         /\ In (Py.JStr (intent_of (snd tb))) (stored_topics c w')).
Proof.
  intros Hturns Hne intents w'.
  pose proof (record_turns_stored R c turns Hturns w) as Hstored.
  fold intents w' in Hstored.
  pose proof (record_turns_records R c turns Hturns Hne w) as Hrec.
  fold w' in Hrec.
  split; [exact Hstored|].
  split; [|split; [|split; [|split; [|split; [|split]]]]].
  - intros i topics. unfold record_topic. split; intro H.
    + apply listed_In in H. now rewrite H.
    + destruct (listed i topics) eqn:E; [|reflexivity].
      apply listed_In in E. contradiction.
  - rewrite Hstored.
    assert (Hi : intents <> []).
    { unfold intents. destruct turns; [contradiction | discriminate]. }
    destruct (exists_last Hi) as [l [i Hl]]. rewrite Hl.
    rewrite last_last, fold_left_app. simpl. apply record_topic_In.
  - intro Hlen. rewrite Hstored. now apply record_topics_length.
  - intros Hnone Hnd. rewrite Hstored.
    unfold stored_topics. rewrite Hnone.
    rewrite <- last_n_map.
    exact (record_topics_distinct intents [] Hnd).
  - eexists. split; [exact Hrec|]. split; reflexivity.
  - intro Hone. rewrite Hrec. simpl.
    destruct (topics_records c w) as [|r [|r' rest]]; simpl in *;
      [reflexivity | reflexivity | lia].
  - intros ta tb Hab Hnew. rewrite Hstored. unfold intents.
    rewrite Hab. simpl. now apply record_two_topics.
Qed.

(** C7 as stated fails on which five are kept and on A then B.  After the
    intents a, b, c, d, e, a, f the list is b, c, d, e, f: the intent a,
    detected again just before f, was not moved to the end and is dropped,
    so the list is not that of the five most recent intents.  And on a
    list a, b, c, d, e, writing a then f leaves a list without a. *)
Lemma topics_are_not_the_most_recent_five :
  let w := Demo.world_at 2800 Demo.backend_down in
  let after intents :=
    stored_topics Demo.conversation_1
      (record_turns (R := Demo.runtime) Demo.conversation_1
         (Demo.turns_of intents) w) in
  after ["a"; "b"; "c"; "d"; "e"; "a"; "f"]
  = map Py.JStr ["b"; "c"; "d"; "e"; "f"]
  /\ ~ In (Py.JStr "a") (after ["a"; "b"; "c"; "d"; "e"; "a"; "f"])
  /\ after ["a"; "b"; "c"; "d"; "e"] = map Py.JStr ["a"; "b"; "c"; "d"; "e"]
  /\ let w5 :=
       record_turns (R := Demo.runtime) Demo.conversation_1
         (Demo.turns_of ["a"; "b"; "c"; "d"; "e"]) w in
     ~ In (Py.JStr "a")
         (stored_topics Demo.conversation_1
            (record_turns (R := Demo.runtime) Demo.conversation_1
               (Demo.turns_of ["a"; "f"]) w5)).
Proof.
  vm_compute.
  split; [reflexivity|]. split; [intuition discriminate|].
  split; [reflexivity|]. intuition discriminate.
Qed.

(** ** Processing a message in the reference world *)

Lemma fresh_id_gt (ids : list Z) (i : Z) :
  In i ids -> (i < Ref.fresh_id ids)%Z.
Proof.
  unfold Ref.fresh_id. induction ids as [|j ids IH]; simpl.
  - contradiction.
  - intros [->|Hin]; [lia|]. specialize (IH Hin). lia.
Qed.

(** Saving a row whose key is that of the last row, and of no row before
    it, replaces the last row. *)
Lemma save_row_last {A : Type} (key : A -> Z) (x x0 : A) (rows : list A) :
  (forall y, In y rows -> key y <> key x) ->
  key x0 = key x ->
  Ref.save_row key x (rows ++ [x0]) = rows ++ [x].
Proof.
  intros Hfresh Hkey. induction rows as [|y rows IH]; simpl.
  - rewrite Hkey, Z.eqb_refl. reflexivity.
  - destruct (key y =? key x)%Z eqn:E.
    + apply Z.eqb_eq in E. exfalso. apply (Hfresh y); [now left | exact E].
    + f_equal. apply IH. intros z Hz. apply Hfresh. now right.
Qed.

Lemma set_contexts_same (w : Ref.World) : Ref.set_contexts (Ref.contexts w) w = w.
Proof. now destruct w. Qed.

(** [_update_conversation_context] never raises and touches the context
    records only, whatever the analysis is. *)
Lemma update_conversation_context_frame (R : Runtime) (c : Conversation.t)
  (message : string) (ia : Py.json) (w : Ref.World) :
  exists l,
    _update_conversation_context c message ia w
    = (inr tt, Ref.set_contexts l w).
Proof.
  unfold _update_conversation_context, try_except, bind, lift, ret.
  cbn [ChatContext_set_context ChatContext_get_context Ref.collaborators].
  destruct (20 <? length (str_split message))%nat;
    (destruct (dict_get "intent" Py.JNull ia) as [e|intent];
     [|destruct (Py.truthy_json intent);
       [match goal with
        | |- context [Ref.get_context ?c ?ty ?k ?w0] =>
            destruct (Ref.get_context c ty k w0) as [|r rest]
        end|]]);
    first [ eexists; reflexivity
          | exists (Ref.contexts w); now rewrite set_contexts_same ].
Qed.

(** The prompt cannot be built for an analysis that cannot be answered. *)
Lemma build_prompt_raises (R : Runtime) (a : Py.json)
  (data : context_data) :
  answerable a = false ->
  exists e, _build_fitness_chat_system_prompt a data = inl e.
Proof.
  intro Ha. unfold _build_fitness_chat_system_prompt. cbv zeta.
  destruct a as [| | | | |l|items]; try (eexists; reflexivity).
  unfold answerable in Ha. cbn [dict_get].
  destruct (Py.assoc "intent" items) as [v|]; [|discriminate].
  destruct v; try discriminate; eexists; reflexivity.
Qed.

Lemma ai_reply_unanswerable (R : Runtime) (c : Conversation.t)
  (message : string) (a : Py.json) (w : Ref.World) :
  answerable a = false -> ai_reply c message a w = None.
Proof.
  intro Ha. unfold ai_reply.
  destruct (build_prompt_raises R a (context_data_of c w) Ha) as [e ->].
  now destruct (Ref.is_available (Ref.backend w)).
Qed.

(** [_generate_ai_response] only reads the world; a reply it returns is
    marked as a success. *)
Lemma generate_ai_response_ref (R : Runtime) (c : Conversation.t)
  (message : string) (a : Py.json) (w : Ref.World) :
  _generate_ai_response c message a w = (inr (ai_reply c message a w), w)
  /\ usable (ai_reply c message a w) = ai_reply c message a w.
Proof.
  unfold _generate_ai_response, ai_reply, _build_conversation_context,
    try_except, bind, lift.
  cbn [ai_is_available ChatContext_get_all Conversation_get_last_messages
       _make_openai_request Ref.collaborators].
  destruct (Ref.is_available (Ref.backend w));
    cbv beta iota zeta delta [negb ret]; [|now split].
  fold (context_data_of c w).
  destruct (_build_fitness_chat_system_prompt a (context_data_of c w))
    as [e|prompt]; [now split|].
  unfold Ref.get_last_messages.
  rewrite <- last_n_rev.
  change (map _ (Py.last_n 8 ?l)) with (map turn_of (Py.last_n 8 l)).
  rewrite <- last_n_map, last_n_last_n by lia. rewrite last_n_map.
  fold (RefHistory.messages_of c w).
  change ([?x] ++ ?l) with (x :: l).
  fold (chat_request prompt c message w).
  destruct (Ref.reply (Ref.backend w) (chat_request prompt c message w)
              500 0.7%Q) as [text|];
    [destruct (Py.truthy text)|]; now split.
Qed.

(** What [get] finds under [intent] in a dict. *)
Lemma dict_get_reported (a : Py.json) :
  answerable a = true ->
  dict_get "intent" Py.JNull a = inr (reported_intent a).
Proof.
  destruct a as [| | | | | |items]; try discriminate. reflexivity.
Qed.

Lemma char_column_general (R : Runtime) (a : Py.json) :
  answerable a = true ->
  option_map char_column
    match dict_get "intent" (Py.JStr "general_question") a with
    | inr v => Some v
    | inl _ => None
    end
  = Some (stored_intent a).
Proof.
  destruct a as [| | | | | |items]; try discriminate. intros _.
  unfold stored_intent, intent_entry. cbn [dict_get option_map].
  now destruct (Py.assoc "intent" items).
Qed.

(** One run of [process_user_message] on an existing conversation that has
    not expired.  The user message is appended to the messages.  When the
    analysis can be answered, the detected intent is filled in on the user
    message and one assistant message is appended; the result is the
    AI-powered one when [_generate_ai_response] yields a reply and the
    rule-based one when it does not.  When it cannot, nothing else is
    appended and the result is the error result. *)
Lemma process_user_message_ref (R : Runtime) (w : Ref.World)
  (conversation_id : Z) (message : string) (c : Conversation.t) :
  Ref.conversation_get conversation_id w = Some c ->
  Ref.is_expired c (Ref.clock w) = false ->
  let a := detected message w in
  exists d w' um,
    process_user_message conversation_id message w = (inr d, w')
    /\ Ref.conversations w' = Ref.conversations w
    /\ Ref.backend w' = Ref.backend w
    /\ (Message.id um = Ref.fresh_id (map Message.id (Ref.messages w))
        /\ Message.conversation um = Conversation.id c
        /\ Message.message_type um = "user"
        /\ Message.content um = message)
    /\ if answerable a
       then
         Message.intent_detected um = stored_intent a
         /\ exists aim w4,
              Ref.messages w' = Ref.messages w ++ [um; aim]
              /\ Ref.messages w4 = Ref.messages w ++ [um]
              /\ Ref.backend w4 = Ref.backend w
              /\ (Message.conversation aim = Conversation.id c
                  /\ Message.message_type aim = "ai"
                  /\ Message.intent_detected aim
                     = char_column (reported_intent a))
              /\ match ai_reply c message a w4 with
                 | Some reply =>
                     Message.content aim = ai_content reply
                     /\ Message.confidence_score aim
                        = Some (ai_confidence_score reply)
                     /\ d = [ ("message_id", Py.VInt (Message.id aim));
                              ("response", Py.VStr (ai_content reply));
                              ("conversation_updated", Py.VBool true);
                              ("intent_detected",
                                Py.of_json (reported_intent a));
                              ("confidence_score",
                                Py.VNum (ai_confidence_score reply));
                              ("response_time_ms",
                                Py.VNum
                                  (round2
                                     ((Ref.timer w - Ref.timer w) * 1000)%Q));
                              ("suggested_actions",
                                Py.VList (suggested_actions reply));
                              ("workout_references",
                                Py.VList (workout_references reply));
                              ("method", Py.VStr "ai_powered") ]
                 | None =>
                     Message.content aim
                     = canned_template (display_name (Conversation.user c))
                         (intent_string a)
                     /\ Message.confidence_score aim = Some 0.6%Q
                     /\ d = [ ("message_id", Py.VInt (Message.id aim));
                              ("response",
                                Py.VStr
                                  (canned_template
                                     (display_name (Conversation.user c))
                                     (intent_string a)));
                              ("conversation_updated", Py.VBool true);
                              ("intent_detected",
                                Py.of_json (reported_intent a));
                              ("method", Py.VStr "rule_based_fallback");
                              ("note",
                                Py.VStr "IA temporariamente indisponível") ]
                 end
       else
         Ref.messages w' = Ref.messages w ++ [um]
         /\ d = processing_error.
Proof.
  intros Hget Hexp. cbv zeta.
  unfold process_user_message. unfold bind at 1. unfold now_time, gets.
  cbn [time_time Ref.collaborators].
  unfold process_user_message_try, _save_user_message, _save_ai_message.
  unfold try_except, bind, lift.
  cbn [Conversation_get Conversation_is_expired Message_create Message_save
       Ref.collaborators].
  rewrite Hget, Hexp.
  cbv beta iota zeta delta [Ref.message_create ret].
  set (um0 := Message.with_id
                (Ref.fresh_id (map Message.id (Ref.messages w)))
                {| Message.id := 0;
                   Message.conversation := Conversation.id c;
                   Message.message_type := "user";
                   Message.content := message;
                   Message.status := "delivered";
                   Message.confidence_score := None;
                   Message.ai_model_version := None;
                   Message.response_time_ms := None;
                   Message.tokens_used := None;
                   Message.intent_detected := None |}).
  match goal with
  | |- context [_analyze_message_intent message c ?w1] =>
      destruct (analyze_message_intent_detected R message c w1)
        as (w2 & Hrun & Hc2 & Hm2 & Hx2 & Hb2 & Hk2 & Ht2)
  end.
  rewrite Hrun. cbv beta iota.
  change (detected message (Ref.set_messages _ w)) with (detected message w).
  cbn [Ref.messages Ref.set_messages Ref.conversations Ref.backend
       Ref.clock Ref.timer Ref.contexts] in Hc2, Hm2, Hx2, Hb2, Hk2, Ht2.
  clear Hrun.
  remember (detected message w) as a eqn:Ha. clear Ha.
  assert (Hfresh : forall v,
             Ref.save_row Message.id
               (Message.with_intent_detected v um0) (Ref.messages w2)
             = Ref.messages w ++ [Message.with_intent_detected v um0]).
  { intro v. rewrite Hm2. apply save_row_last; [|reflexivity].
    intros y Hy. cbn [Message.id Message.with_intent_detected
                      Message.with_id um0].
    pose proof (fresh_id_gt (map Message.id (Ref.messages w))
                  (Message.id y) (in_map _ _ _ Hy)).
    lia. }
  destruct (answerable a) eqn:Hans.
  - destruct a as [| | | | | |items]; try discriminate.
    cbn [dict_get]. rewrite Hfresh.
    match goal with
    | |- context [_update_conversation_context c message _ ?w3] =>
        destruct (update_conversation_context_frame R c message
                    (Py.JObj items) w3)
          as (l & Hup)
    end.
    rewrite Hup. cbv beta iota.
    match goal with
    | |- context [_generate_ai_response c message _ ?w4] =>
        destruct (generate_ai_response_ref R c message (Py.JObj items) w4)
          as (Hgen & Hus);
        set (w4_ := w4) in *
    end.
    rewrite Hgen. cbv beta iota. rewrite Hus.
    rewrite (generate_fallback_response_canned c message _ Hans).
    unfold now_time, gets.
    destruct (ai_reply c message (Py.JObj items) w4_) as [reply|] eqn:Hreply.
    + cbv beta iota zeta.
      cbn [time_time Ref.collaborators Ref.timer Ref.messages
           Ref.set_messages Ref.set_contexts w4_].
      rewrite Ht2.
      eexists. eexists.
      exists (Message.with_intent_detected
                (char_column
                   match Py.assoc "intent" items with
                   | Some v => v
                   | None => Py.JStr "general_question"
                   end) um0).
      split; [reflexivity|].
      cbn [Ref.messages Ref.set_messages Ref.set_contexts Ref.conversations
           Ref.backend].
      split; [exact Hc2|]. split; [exact Hb2|].
      split; [repeat split|].
      split.
      { unfold stored_intent, intent_entry.
        cbn [Message.intent_detected Message.with_intent_detected].
        now destruct (Py.assoc "intent" items). }
      eexists. exists w4_.
      split; [rewrite <- app_assoc; reflexivity|].
      split; [reflexivity|]. split; [exact Hb2|].
      split; [repeat split|].
      rewrite Hreply. repeat split.
    + cbv beta iota zeta.
      cbn [time_time Ref.collaborators Ref.timer Ref.messages
           Ref.set_messages Ref.set_contexts w4_].
      rewrite Ht2.
      eexists. eexists.
      exists (Message.with_intent_detected
                (char_column
                   match Py.assoc "intent" items with
                   | Some v => v
                   | None => Py.JStr "general_question"
                   end) um0).
      split; [reflexivity|].
      cbn [Ref.messages Ref.set_messages Ref.set_contexts Ref.conversations
           Ref.backend].
      split; [exact Hc2|]. split; [exact Hb2|].
      split; [repeat split|].
      split.
      { unfold stored_intent, intent_entry.
        cbn [Message.intent_detected Message.with_intent_detected].
        now destruct (Py.assoc "intent" items). }
      eexists. exists w4_.
      split; [rewrite <- app_assoc; reflexivity|].
      split; [reflexivity|]. split; [exact Hb2|].
      split; [repeat split|].
      rewrite Hreply. repeat split.
  - destruct (dict_get "intent" (Py.JStr "general_question") a)
      as [e|v] eqn:Hv.
    + eexists. eexists. exists um0. split; [reflexivity|].
      split; [exact Hc2|]. split; [exact Hb2|].
      split; [|split; [exact Hm2 |]]; [repeat split|].
      destruct a; cbn [dict_get] in Hv; try discriminate;
        injection Hv as <-; reflexivity.
    + rewrite Hfresh.
      match goal with
      | |- context [_update_conversation_context c message _ ?w3] =>
          destruct (update_conversation_context_frame R c message a w3)
            as (l & Hup)
      end.
      rewrite Hup. cbv beta iota.
      match goal with
      | |- context [_generate_ai_response c message _ ?w4] =>
          destruct (generate_ai_response_ref R c message a w4)
            as (Hgen & Hus);
          rewrite Hgen; cbv beta iota;
          rewrite (ai_reply_unanswerable R c message a w4 Hans)
      end.
      cbn [usable].
      destruct (generate_fallback_response_raises c message a Hans)
        as [what ->].
      eexists. eexists. exists (Message.with_intent_detected (char_column v) um0).
      split; [reflexivity|].
      cbn [Ref.messages Ref.set_messages Ref.set_contexts Ref.conversations
           Ref.backend].
      split; [exact Hc2|]. split; [exact Hb2|].
      split; [|split; reflexivity].
      repeat split.
Qed.

(** ** The analysis of the rule-based classifier as a value *)

Lemma intent_entry_dict_of (r : intent_analysis) :
  intent_entry (dict_of r) = option_map Py.JStr (intent r).
Proof.
  destruct r as [i co se ke ur re]. unfold dict_of, intent_entry.
  cbn [intent confidence secondary_intents keywords urgency_level
       requires_personalization].
  destruct i; [reflexivity|].
  destruct co, se, ke, ur, re; reflexivity.
Qed.

Lemma answerable_dict_of (r : intent_analysis) :
  answerable (dict_of r) = true.
Proof.
  pose proof (intent_entry_dict_of r) as H.
  unfold answerable, intent_entry, dict_of in *. rewrite H.
  now destruct (intent r).
Qed.

Lemma intent_string_dict_of (r : intent_analysis) :
  intent_string (dict_of r) = intent r.
Proof.
  unfold intent_string. rewrite intent_entry_dict_of.
  now destruct (intent r).
Qed.

(** ** Fallback *)

Lemma seven_texts_interpolate (name text : string) :
  In text (seven_texts name) ->
  exists before after, text = (before ++ name ++ after)%string.
Proof.
  cbv [seven_texts fallback_responses map snd In].
  intros [H|[H|[H|[H|[H|[H|[H|[]]]]]]]]; subst text;
    eexists; eexists; reflexivity.
Qed.

(** C2, as the code has it.  In the reference world, when the backend is
    unavailable, the analysis in effect for [process_user_message] on an
    existing conversation that has not expired is the payload of the live
    cache entry for the message, if there is a truthy one, and that of the
    rule-based classifier otherwise.  When that analysis is a dict whose
    intent is hashable, as that of the rule-based classifier always is,
    the result has [method = rule_based_fallback], the detected intent,
    and as response the canned text for that intent and the user's display
    name: the first name, or the placeholder [amigo(a)] when it is empty.
    When it is not, which takes a cache entry left by an earlier reply of
    the backend, the result is the error result.  The canned text is a
    function of the intent and the name into seven texts, pairwise
    distinct, each containing the name: one for each of [workout_request],
    [technique_question], [nutrition_advice], [progress_inquiry],
    [motivation_need] and [injury_concern], and the general text for
    [general_question], [equipment_question], [schedule_planning], any
    other intent, an intent that is not a string, and a missing one. *)
Theorem process_user_message_fallback (R : Runtime) (w : Ref.World)
  (conversation_id : Z) (message : string) (c : Conversation.t) :
  Ref.conversation_get conversation_id w = Some c ->
  Ref.is_expired c (Ref.clock w) = false ->
  Ref.is_available (Ref.backend w) = false ->
  let a := detected message w in
  (exists d w',
      process_user_message conversation_id message w = (inr d, w')
      /\ if answerable a
         then
           Py.get "method" d = Some (Py.VStr "rule_based_fallback")
           /\ Py.get "intent_detected" d
              = Some (Py.of_json (reported_intent a))
           /\ Py.get "response" d
              = Some (Py.VStr (canned_template
                                 (display_name (Conversation.user c))
                                 (intent_string a)))
         else d = processing_error)
  /\ a = match cached_payload message w with
         | Some cached => cached
         | None => dict_of (_rule_based_intent_analysis message)
         end
  /\ (cached_payload message w = None ->
      answerable a = true
      /\ intent_string a = intent (_rule_based_intent_analysis message))
  /\ (forall name i, In (canned_template name i) (seven_texts name))
  /\ (forall name,
         NoDup (seven_texts name) /\ length (seven_texts name) = 7%nat)
  /\ (forall name text,
         In text (seven_texts name) ->
         exists before after, text = (before ++ name ++ after)%string)
  /\ (forall name,
         canned_template name (Some "equipment_question")
         = canned_template name (Some "general_question")
         /\ canned_template name (Some "schedule_planning")
            = canned_template name (Some "general_question")
         /\ canned_template name None
            = canned_template name (Some "general_question")).
Proof.
  intros Hget Hexp Hdown a.
  assert (Ha : a = match cached_payload message w with
                   | Some cached => cached
                   | None => dict_of (_rule_based_intent_analysis message)
                   end).
  { unfold a, detected. now rewrite Hdown. }
  split; [|split; [exact Ha|split; [|split; [|split; [|split]]]]].
  - destruct (process_user_message_ref R w conversation_id message c
                Hget Hexp)
      as (d & w' & um & Hrun & _ & _ & _ & Hd).
    exists d, w'. split; [exact Hrun|]. fold a in Hd.
    destruct (answerable a).
    + destruct Hd as (_ & aim & w4 & _ & _ & Hb4 & _ & Hd).
      assert (Hnone : ai_reply c message a w4 = None).
      { unfold ai_reply. now rewrite Hb4, Hdown. }
      rewrite Hnone in Hd. destruct Hd as (_ & _ & ->). repeat split.
    + exact (proj2 Hd).
  - intro Hmiss. rewrite Ha, Hmiss.
    split; [apply answerable_dict_of | apply intent_string_dict_of].
  - apply canned_template_in_seven.
  - intro name. split; [apply seven_texts_NoDup | reflexivity].
  - apply seven_texts_interpolate.
  - intro name. repeat split.
Qed.

Lemma process_user_message_fallback_witness :
  let w := Demo.world_at 2800 Demo.backend_down in
  exists d w',
    process_user_message (R := Demo.runtime) 1 "Sinto muita dor no joelho" w
    = (inr d, w')
    /\ Py.get "method" d = Some (Py.VStr "rule_based_fallback")
    /\ Py.get "intent_detected" d = Some (Py.VStr "injury_concern")
    /\ Py.get "response" d
       = Some (Py.VStr
                 (canned_template (display_name Demo.ana)
                    (Some "injury_concern"))).
Proof.
  destruct (proj1 (process_user_message_fallback Demo.runtime
                     (Demo.world_at 2800 Demo.backend_down) 1
                     "Sinto muita dor no joelho" Demo.conversation_1
                     eq_refl eq_refl eq_refl))
    as (d & w' & Hrun & Hd).
  exists d, w'. split; [exact Hrun|]. exact Hd.
Defined.

(** C2 as stated fails on the number of texts: the table holds seven
    texts, not nine; [equipment_question] and [schedule_planning] have no
    text of their own and get the general one. *)
Lemma fallback_texts_are_not_one_per_intent :
  let text i :=
    _generate_fallback_response Demo.conversation_1 ""
      (payload_of (Py.JStr i)) in
  text "equipment_question" = text "general_question"
  /\ text "schedule_planning" = text "general_question"
  /\ ~ NoDup (map text nine_intents).
Proof.
  intro text. split; [reflexivity|]. split; [reflexivity|].
  intro H.
  change (map text nine_intents)
    with ([ text "workout_request"; text "technique_question";
            text "nutrition_advice"; text "progress_inquiry";
            text "motivation_need" ]
            ++ text "equipment_question"
            :: [ text "injury_concern"; text "schedule_planning";
                 text "general_question" ]) in H.
  apply NoDup_remove_2 in H. apply H.
  apply in_or_app. right. right. right. left. reflexivity.
Qed.

(** A cache entry that cannot be answered.  With a backend that answers
    the classification request with the text [5], the first run stores
    the number 5 under the key of the message and returns the error
    result; a second run half an hour later, with the backend down, finds
    the entry and returns the error result as well, not the rule-based
    one.  Each run persists the user message and no assistant message. *)
Lemma demo_cached_five :
  let w := Demo.world_at 2800 Demo.backend_five in
  let '(r1, w1) :=
    process_user_message (R := Demo.runtime) 1 "Quero um treino" w in
  let w1_down :=
    {| Ref.conversations := Ref.conversations w1;
       Ref.messages := Ref.messages w1;
       Ref.contexts := Ref.contexts w1;
       Ref.profiles := Ref.profiles w1;
       Ref.workout_sessions := Ref.workout_sessions w1;
       Ref.cache := Ref.cache w1;
       Ref.backend := Demo.backend_down;
       Ref.clock := 4600;
       Ref.timer := inject_Z 4600 |} in
  let '(r2, w2) :=
    process_user_message (R := Demo.runtime) 1 "Quero um treino" w1_down in
  r1 = inr processing_error
  /\ r2 = inr processing_error
  /\ cached_payload (R := Demo.runtime) "Quero um treino" w1_down
     = Some (Py.JInt 5)
  /\ length (messages_of_type "user" w2) = 2%nat
  /\ messages_of_type "ai" w2 = [].
Proof. vm_compute. repeat split. Qed.

(** ** The two success branches *)

(** C5, as the code has it.  In the reference world, a run of
    [process_user_message] on an existing conversation that has not expired
    persists the user message.  When the analysis in effect is a dict whose
    intent is hashable, the run ends in one of the two success branches:
    it persists exactly one assistant message, and returns the id of the
    assistant message, its text and the detected intent; the AI-powered
    result also holds the response latency, the confidence score, the
    suggested actions and the exercise references; the rule-based result
    holds none of these four, and holds a note.  When the analysis is
    anything else, the run ends in the error result and no assistant
    message is persisted. *)
Theorem process_user_message_success (R : Runtime) (w : Ref.World)
  (conversation_id : Z) (message : string) (c : Conversation.t) :
  Ref.conversation_get conversation_id w = Some c ->
  Ref.is_expired c (Ref.clock w) = false ->
  let a := detected message w in
  exists d w' um,
    process_user_message conversation_id message w = (inr d, w')
    /\ Message.message_type um = "user"
    /\ Message.content um = message
    /\ if answerable a
       then
         exists aim,
           Ref.messages w' = Ref.messages w ++ [um; aim]
           /\ Message.message_type aim = "ai"
           /\ messages_of_type "ai" w' = messages_of_type "ai" w ++ [aim]
           /\ Py.get "message_id" d = Some (Py.VInt (Message.id aim))
           /\ Py.get "response" d = Some (Py.VStr (Message.content aim))
           /\ Py.get "intent_detected" d
              = Some (Py.of_json (reported_intent a))
           /\ ((Py.get "method" d = Some (Py.VStr "ai_powered")
                /\ Py.get "confidence_score" d
                   = Some (Py.of_opt_num (Message.confidence_score aim))
                /\ Py.has_key "response_time_ms" d = true
                /\ Py.has_key "suggested_actions" d = true
                /\ Py.has_key "workout_references" d = true)
               \/ (Py.get "method" d = Some (Py.VStr "rule_based_fallback")
                   /\ Py.has_key "confidence_score" d = false
                   /\ Py.has_key "response_time_ms" d = false
                   /\ Py.has_key "suggested_actions" d = false
                   /\ Py.has_key "workout_references" d = false
                   /\ Py.has_key "note" d = true))
       else
         Ref.messages w' = Ref.messages w ++ [um]
         /\ messages_of_type "ai" w' = messages_of_type "ai" w
         /\ d = processing_error.
Proof.
  intros Hget Hexp a.
  destruct (process_user_message_ref R w conversation_id message c Hget Hexp)
    as (d & w' & um & Hrun & _ & _ & Hum & Hd).
  destruct Hum as (_ & _ & Hutype & Hucontent).
  fold a in Hd.
  exists d, w', um.
  split; [exact Hrun|]. split; [exact Hutype|]. split; [exact Hucontent|].
  destruct (answerable a).
  - destruct Hd as (_ & aim & w4 & Hmsgs & _ & _ & Haim & Hd).
    destruct Haim as (_ & Hatype & _).
    exists aim. split; [exact Hmsgs|]. split; [exact Hatype|].
    split.
    { unfold messages_of_type. rewrite Hmsgs, filter_app. f_equal.
      simpl. now rewrite Hutype, Hatype. }
    destruct (ai_reply c message a w4) as [reply|].
    + destruct Hd as (Hcontent & Hconf & ->). rewrite Hcontent, Hconf.
      split; [reflexivity|]. split; [reflexivity|]. split; [reflexivity|].
      left. repeat split.
    + destruct Hd as (Hcontent & Hconf & ->). rewrite Hcontent.
      split; [reflexivity|]. split; [reflexivity|]. split; [reflexivity|].
      right. repeat split.
  - destruct Hd as [Hmsgs ->]. split; [exact Hmsgs|].
    split; [|reflexivity].
    unfold messages_of_type. rewrite Hmsgs, filter_app.
    simpl. rewrite Hutype. simpl. apply app_nil_r.
Qed.

Lemma process_user_message_success_witness :
  let w := Demo.world_at 2800 Demo.backend_up in
  exists d w' um aim,
    process_user_message (R := Demo.runtime) 1 "O que devo comer?" w
    = (inr d, w')
    /\ Ref.messages w' = Ref.messages w ++ [um; aim]
    /\ Message.message_type um = "user"
    /\ Message.message_type aim = "ai"
    /\ Py.get "message_id" d = Some (Py.VInt (Message.id aim)).
Proof.
  destruct (process_user_message_success Demo.runtime
              (Demo.world_at 2800 Demo.backend_up) 1 "O que devo comer?"
              Demo.conversation_1 eq_refl eq_refl)
    as (d & w' & um & H1 & H2 & _ & aim & H4 & H5 & _ & H7 & _).
  exists d, w', um, aim. repeat split; assumption.
Defined.

(** The AI-powered branch on a concrete run: the reply is classified by the
    backend, and the post-processor finds two actions and one exercise. *)
Lemma demo_ai_powered :
  let w := Demo.world_at 2800 Demo.backend_up in
  let '(r, w') :=
    process_user_message (R := Demo.runtime) 1 "O que devo comer?" w in
  exists d,
    r = inr d
    /\ Py.get "method" d = Some (Py.VStr "ai_powered")
    /\ Py.get "intent_detected" d = Some (Py.VStr "nutrition_advice")
    /\ Py.get "suggested_actions" d
       = Some (Py.VList ["try_exercise"; "seek_professional"])
    /\ Py.get "workout_references" d = Some (Py.VList ["caminhada"])
    /\ length (messages_of_type "ai" w') = 1%nat
    /\ length (messages_of_type "user" w') = 1%nat.
Proof. vm_compute. eexists. repeat split. Qed.

(** C5 as stated fails on the rule-based branch: its result holds
    neither the latency, nor the confidence, nor the suggestions, nor the
    exercise references. *)
Lemma fallback_result_lacks_latency_and_confidence :
  let w := Demo.world_at 2800 Demo.backend_down in
  let '(r, w') :=
    process_user_message (R := Demo.runtime) 1 "Sinto muita dor no joelho"
      w in
  exists d,
    r = inr d
    /\ Py.get "method" d = Some (Py.VStr "rule_based_fallback")
    /\ Py.get "intent_detected" d = Some (Py.VStr "injury_concern")
    /\ length (messages_of_type "ai" w') = 1%nat
    /\ Py.has_key "response_time_ms" d = false
    /\ Py.has_key "confidence_score" d = false
    /\ Py.has_key "suggested_actions" d = false
    /\ Py.has_key "workout_references" d = false.
Proof. vm_compute. eexists. repeat split. Qed.

(** A classification without an intent.  With a backend whose
    classification is the dict [{intent: null}], the run succeeds, the
    user message is stored without an intent, and the result reports
    none. *)
Lemma demo_null_intent :
  let w := Demo.world_at 2800 Demo.backend_null in
  let '(r, w') :=
    process_user_message (R := Demo.runtime) 1 "O que devo comer?" w in
  exists d,
    r = inr d
    /\ Py.get "method" d = Some (Py.VStr "ai_powered")
    /\ Py.get "intent_detected" d = Some Py.VNone
    /\ map Message.intent_detected (Ref.messages w') = [None; None].
Proof. vm_compute. eexists. repeat split. Qed.

(** ** Starting with an initial message *)

Lemma find_app_last {A : Type} (f : A -> bool) (rows : list A) (x : A) :
  (forall y, In y rows -> f y = false) ->
  f x = true ->
  find f (rows ++ [x]) = Some x.
Proof.
  intros Hrows Hx. induction rows as [|y rows IH]; simpl.
  - now rewrite Hx.
  - rewrite (Hrows y) by now left. apply IH. intros z Hz. apply Hrows.
    now right.
Qed.

(** [_initialize_conversation_context] never raises and touches the
    context records only. *)
Lemma initialize_conversation_context_frame (R : Runtime)
  (c : Conversation.t) (w : Ref.World) :
  exists l,
    _initialize_conversation_context c w = (inr tt, Ref.set_contexts l w).
Proof.
  unfold _initialize_conversation_context, try_except, bind, now_datetime,
    gets.
  cbn [UserProfile_get ChatContext_set_context WorkoutSession_recent
       timezone_now Ref.collaborators].
  destruct (Ref.profile_get (Conversation.user c) w);
    eexists; reflexivity.
Qed.

(** C10. In the reference world, [start_conversation] with a non-empty
    initial message creates a conversation and persists, for it, two user
    messages with the content of the initial message, the one saved by
    [start_conversation] itself and the one saved by
    [process_user_message], and no other user message.  They are followed
    by one assistant message when the analysis of the message is a dict
    whose intent is hashable, and by nothing when it is not: the inner
    [process_user_message] then fails after it saved the message, and
    [start_conversation] reports the conversation as created all the same.
    This holds whether or not the user has a resumable conversation. *)
Theorem start_conversation_saves_initial_message_twice (R : Runtime)
  (w : Ref.World) (user : User) (conversation_type message : string) :
  Py.truthy message = true ->
  exists d w' c um1 um2 rest,
    start_conversation user conversation_type (Some message) w = (inr d, w')
    /\ Py.get "status" d = Some (Py.VStr "created")
    /\ Py.get "conversation_id" d = Some (Py.VInt (Conversation.id c))
    /\ Ref.conversations w' = Ref.conversations w ++ [c]
    /\ (forall c0, In c0 (Ref.conversations w) ->
                   Conversation.id c0 <> Conversation.id c)
    /\ Ref.messages w' = Ref.messages w ++ [um1; um2] ++ rest
    /\ messages_of_type "user" w'
       = messages_of_type "user" w ++ [um1; um2]
    /\ (Message.message_type um1 = "user"
        /\ Message.content um1 = message
        /\ Message.conversation um1 = Conversation.id c)
    /\ (Message.message_type um2 = "user"
        /\ Message.content um2 = message
        /\ Message.conversation um2 = Conversation.id c)
    /\ Message.id um1 <> Message.id um2
    /\ if answerable (detected message w)
       then exists aim,
              rest = [aim]
              /\ Message.message_type aim = "ai"
              /\ Message.conversation aim = Conversation.id c
       else rest = [].
Proof.
  intro Htruthy.
  unfold start_conversation, try_except.
  unfold start_conversation_try.
  unfold bind at 1. unfold now_datetime, gets.
  cbn [timezone_now Ref.collaborators].
  unfold bind at 1.
  cbn [Conversation_filter_first Ref.collaborators].
  assert (Hbranch :
            Py.truthy_opt (Some message) = true) by exact Htruthy.
  rewrite Hbranch.
  set (c := fst (Ref.conversation_create user conversation_type
                   OPENAI_MODEL w)).
  set (w1 := snd (Ref.conversation_create user conversation_type
                    OPENAI_MODEL w)).
  assert (Hfresh : forall c0, In c0 (Ref.conversations w) ->
                              Conversation.id c0 <> Conversation.id c).
  { intros c0 Hc0.
    pose proof (fresh_id_gt (map Conversation.id (Ref.conversations w))
                  (Conversation.id c0) (in_map _ _ _ Hc0)) as Hlt.
    unfold c. cbn. lia. }
  destruct (initialize_conversation_context_frame R c w1) as (l & Hinit).
  set (um1 := Message.with_id
                (Ref.fresh_id (map Message.id (Ref.messages w)))
                {| Message.id := 0;
                   Message.conversation := Conversation.id c;
                   Message.message_type := "user";
                   Message.content := message;
                   Message.status := "delivered";
                   Message.confidence_score := None;
                   Message.ai_model_version := None;
                   Message.response_time_ms := None;
                   Message.tokens_used := None;
                   Message.intent_detected := None |}).
  set (w3 := Ref.set_messages (Ref.messages w ++ [um1])
               (Ref.set_contexts l w1)).
  assert (Hget : Ref.conversation_get (Conversation.id c) w3 = Some c).
  { unfold Ref.conversation_get, w3, w1. cbn.
    apply find_app_last.
    - intros y Hy. apply Z.eqb_neq. now apply Hfresh.
    - apply Z.eqb_refl. }
  assert (Hexp : Ref.is_expired c (Ref.clock w3) = false).
  { unfold Ref.is_expired, w3, w1, c. cbn.
    apply Z.ltb_ge. unfold conversation_timeout_hours. lia. }
  destruct (process_user_message_ref R w3 (Conversation.id c) message c
              Hget Hexp)
    as (d & w' & um2 & Hrun & Hconvs & Hback & Hum & Hd).
  destruct Hum as (Hid2 & Hconv2 & Htype2 & Hcontent2).
  change (detected message w3) with (detected message w) in Hd.
  assert (Hrest : exists rest,
             Ref.messages w' = Ref.messages w3 ++ [um2] ++ rest
             /\ Forall (fun m => Message.message_type m = "ai") rest
             /\ if answerable (detected message w)
                then exists aim,
                       rest = [aim]
                       /\ Message.message_type aim = "ai"
                       /\ Message.conversation aim = Conversation.id c
                else rest = []).
  { destruct (answerable (detected message w)).
    - destruct Hd as (_ & aim & w4 & Hmsgs & _ & _ & Haim & _).
      destruct Haim as (Hconva & Htypea & _).
      exists [aim]. split; [exact Hmsgs|].
      split; [now constructor|]. now exists aim.
    - destruct Hd as [Hmsgs _]. exists []. split; [exact Hmsgs|].
      split; [constructor | reflexivity]. }
  destruct Hrest as (rest & Hmsgs & Hai & Hrest).
  assert (Hbody :
            (conversation <-
               Conversation_create user conversation_type OPENAI_MODEL ;;
             _initialize_conversation_context conversation ;;
             (if negb true
              then
                welcome_response <- _generate_welcome_message conversation ;;
                match welcome_response with
                | Some welcome_response =>
                    _save_ai_message conversation
                      (welcome_content welcome_response)
                      (welcome_response_time welcome_response)
                      (welcome_confidence welcome_response)
                      Py.JNull ;;
                    ret tt
                | None => ret tt
                end
              else
                _save_user_message conversation message ;;
                process_user_message (Conversation.id conversation) message ;;
                ret tt) ;;
             available <- ai_is_available ;;
             ret [ ("conversation_id",
                     Py.VInt (Conversation.id conversation));
                   ("status", Py.VStr "created");
                   ("conversation_type", Py.VStr conversation_type);
                   ("context_loaded", Py.VBool true);
                   ("welcome_message", Py.VBool true);
                   ("ai_available", Py.VBool available) ]) w
            = (inr [ ("conversation_id", Py.VInt (Conversation.id c));
                     ("status", Py.VStr "created");
                     ("conversation_type", Py.VStr conversation_type);
                     ("context_loaded", Py.VBool true);
                     ("welcome_message", Py.VBool true);
                     ("ai_available",
                       Py.VBool (Ref.is_available (Ref.backend w'))) ],
               w')).
  { cbn [negb].
    unfold bind at 1. cbn [Conversation_create Ref.collaborators].
    change (Ref.conversation_create user conversation_type OPENAI_MODEL w)
      with (c, w1).
    cbv beta iota.
    unfold bind at 1. rewrite Hinit.
    unfold bind at 1. unfold bind at 1.
    unfold _save_user_message.
    cbn [Message_create Ref.collaborators].
    change (Ref.message_create _ (Ref.set_contexts l w1))
      with (um1, w3).
    cbv beta iota.
    unfold bind at 1. rewrite Hrun. reflexivity. }
  exists [ ("conversation_id", Py.VInt (Conversation.id c));
           ("status", Py.VStr "created");
           ("conversation_type", Py.VStr conversation_type);
           ("context_loaded", Py.VBool true);
           ("welcome_message", Py.VBool true);
           ("ai_available", Py.VBool (Ref.is_available (Ref.backend w'))) ],
    w', c, um1, um2, rest.
  split.
  { destruct (Ref.conversation_filter_first user "active"
                (Ref.clock w - 2 * 3600) w);
      rewrite Hbody; reflexivity. }
  split; [reflexivity|]. split; [reflexivity|].
  split; [rewrite Hconvs; reflexivity|].
  split; [exact Hfresh|].
  split;
    [rewrite Hmsgs; unfold w3; cbn [Ref.messages Ref.set_messages];
     now rewrite <- app_assoc|].
  split.
  { unfold messages_of_type. rewrite Hmsgs. unfold w3.
    cbn [Ref.messages Ref.set_messages].
    rewrite !filter_app. simpl filter at 2 3.
    rewrite Htype2. cbn [Message.message_type um1 Message.with_id].
    simpl String.eqb. rewrite <- app_assoc. f_equal. simpl. f_equal. f_equal.
    clear - Hai. induction Hai as [|m rest Hm _ IH]; simpl.
    - reflexivity.
    - now rewrite Hm. }
  split; [repeat split|].
  split; [repeat split; assumption|].
  split.
  { rewrite Hid2. unfold w3. cbn [Ref.messages Ref.set_messages].
    pose proof (fresh_id_gt (map Message.id (Ref.messages w ++ [um1]))
                  (Message.id um1)) as Hlt.
    assert (In (Message.id um1)
              (map Message.id (Ref.messages w ++ [um1]))) as Hin.
    { apply in_map, in_or_app. right. now left. }
    specialize (Hlt Hin). lia. }
  exact Hrest.
Qed.

Lemma start_conversation_saves_initial_message_twice_witness :
  let w := Demo.world_at 2800 Demo.backend_down in
  Py.truthy "Quero um treino" = true
  /\ exists d w' c um1 um2 rest,
       start_conversation (R := Demo.runtime) Demo.ana "general_fitness"
         (Some "Quero um treino") w
       = (inr d, w')
       /\ Ref.messages w' = Ref.messages w ++ [um1; um2] ++ rest
       /\ Message.content um1 = "Quero um treino"
       /\ Message.content um2 = "Quero um treino"
       /\ Message.conversation um1 = Conversation.id c
       /\ Message.conversation um2 = Conversation.id c
       /\ Message.id um1 <> Message.id um2.
Proof.
  split; [reflexivity|].
  destruct (start_conversation_saves_initial_message_twice Demo.runtime
              (Demo.world_at 2800 Demo.backend_down) Demo.ana
              "general_fitness" "Quero um treino" eq_refl)
    as (d & w' & c & um1 & um2 & rest & H1 & _ & _ & _ & _ & H6 & _
        & (_ & H7 & H8) & (_ & H9 & H10) & H11 & _).
  exists d, w', c, um1, um2, rest. repeat split; assumption.
Defined.

(** The same run, evaluated: Ana already has a resumable conversation, and
    a second conversation is created that holds the message twice. *)
Lemma demo_initial_message_twice :
  let w := Demo.world_at 2800 Demo.backend_down in
  let '(r, w') :=
    start_conversation (R := Demo.runtime) Demo.ana "general_fitness"
      (Some "Quero um treino") w in
  map Conversation.id (Ref.conversations w') = [1; 2]%Z
  /\ map (fun m => (Message.conversation m, Message.message_type m,
                    Message.content m))
         (messages_of_type "user" w')
     = [ (2%Z, "user", "Quero um treino");
         (2%Z, "user", "Quero um treino") ]
  /\ length (messages_of_type "ai" w') = 1%nat.
Proof. vm_compute. repeat split. Qed.

(** The same start with a backend that answers the classification request
    with the text [5]: the conversation is reported as created, the
    message is stored twice, and there is no assistant message. *)
Lemma demo_initial_message_unanswered :
  let w := Demo.world_at 2800 Demo.backend_five in
  let '(r, w') :=
    start_conversation (R := Demo.runtime) Demo.ana "general_fitness"
      (Some "Quero um treino") w in
  (exists d, r = inr d /\ Py.get "status" d = Some (Py.VStr "created"))
  /\ map Message.content (messages_of_type "user" w')
     = ["Quero um treino"; "Quero um treino"]
  /\ messages_of_type "ai" w' = [].
Proof. vm_compute. split; [eexists; split; reflexivity|]. now split. Qed.

Lemma topics_of_interest_rolling_witness :
  let w := Demo.world_at 2800 Demo.backend_down in
  let w' := record_turns (R := Demo.runtime) Demo.conversation_1
              Demo.six_turns w in
  Forall (fun t => Py.truthy_opt (intent_string (snd t)) = true)
    Demo.six_turns
  /\ Demo.six_turns <> []
  /\ stored_topics Demo.conversation_1 w'
     = map Py.JStr
         [ "technique_question"; "nutrition_advice"; "progress_inquiry";
           "motivation_need"; "injury_concern" ]
  /\ length (topics_records Demo.conversation_1 w') = 1%nat.
Proof.
  assert (Hturns : Forall (fun t => Py.truthy_opt (intent_string (snd t))
                                    = true)
                     Demo.six_turns).
  { repeat constructor. }
  assert (Hne : Demo.six_turns <> []) by discriminate.
  split; [exact Hturns|]. split; [exact Hne|].
  destruct (topics_of_interest_rolling Demo.runtime
              (Demo.world_at 2800 Demo.backend_down) Demo.conversation_1
              Demo.six_turns Hturns Hne)
    as (_ & _ & _ & _ & Hlast & _ & Hone & _).
  split.
  - rewrite Hlast.
    + reflexivity.
    + reflexivity.
    + repeat (constructor; [simpl; intuition discriminate|]). constructor.
  - apply Hone. simpl. lia.
Defined.

(* ================================================================== *)
(** * Further properties of the service *)

(** ** The rule-based classifier: shape of the result *)

Lemma ratio_le_1 (a b : nat) :
  (a <= b)%nat -> (0 < b)%nat -> (ratio a b <= 1)%Q.
Proof.
  intros Hab Hb. unfold ratio. apply Qle_shift_div_r.
  - change 0%Q with (inject_Z 0). rewrite <- Zlt_Qlt. lia.
  - rewrite Qmult_1_l, <- Zle_Qle. lia.
Qed.

Lemma table_intents_in_nine (i : string) (kws : list string) :
  In (i, kws) intent_keywords -> In i nine_intents.
Proof.
  unfold intent_keywords, nine_intents. simpl.
  intros H.
  repeat (destruct H as [H|H]; [injection H as <- _; tauto|]).
  contradiction.
Qed.

(** The result of [_rule_based_intent_analysis] is always one of the nine
    intents with a confidence above 0 and at most 1, an urgency that is
    [high] or [medium], personalization required, and every field filled
    in. *)
Theorem rule_based_result_well_formed (R : Runtime) (message : string) :
  let r := _rule_based_intent_analysis message in
  exists i q secondary kws urgency,
    intent r = Some i
    /\ In i nine_intents
    /\ confidence r = Some q
    /\ (0 < q)%Q /\ (q <= 1)%Q
    /\ secondary_intents r = Some secondary
    /\ keywords r = Some kws
    /\ urgency_level r = Some urgency
    /\ (urgency = "high" \/ urgency = "medium")
    /\ requires_personalization r = Some true.
Proof.
  intro r. subst r. unfold _rule_based_intent_analysis.
  set (text := str_lower message).
  pose proof (max_by_value_scores text intent_keywords) as Hmax.
  destruct (Py.max_by_value (intent_scores_of text intent_keywords))
    as [[main score]|].
  - destruct Hmax as (before & kws & after & Ht & Hs & Hh & _ & _).
    simpl in Ht, Hs. subst score.
    do 5 eexists. cbn [intent confidence secondary_intents keywords
                       urgency_level requires_personalization].
    split; [reflexivity|]. split.
    { apply (table_intents_in_nine main kws). rewrite Ht.
      apply in_or_app. right. now left. }
    split; [reflexivity|]. split; [now apply spec_score_pos|]. split.
    { rewrite spec_score_code. apply ratio_le_1; [apply keyword_hits_le|].
      pose proof (keyword_hits_le text kws). lia. }
    split; [reflexivity|]. split; [reflexivity|]. split; [reflexivity|].
    split; [|reflexivity].
    destruct (existsb _ _); [now left | now right].
  - do 5 eexists. cbn [intent confidence secondary_intents keywords
                        urgency_level requires_personalization].
    split; [reflexivity|]. split; [simpl; tauto|].
    split; [reflexivity|]. split; [reflexivity|]. split; [discriminate|].
    split; [reflexivity|]. split; [reflexivity|]. split; [reflexivity|].
    split; [|reflexivity].
    destruct (existsb _ _); [now left | now right].
Qed.

(** ** The rule-based classifier: secondary intents and urgency *)

Lemma table_lengths (i : string) (kws : list string) :
  In (i, kws) intent_keywords -> length kws = 5%nat \/ length kws = 6%nat.
Proof.
  unfold intent_keywords. simpl. intros H.
  repeat (destruct H as [H|H]; [injection H as _ <-; simpl; tauto|]).
  contradiction.
Qed.

(** With 5 or 6 keywords, a score above 0.2 means at least two hits. *)
Lemma score_above_fifth (hits len : nat) :
  len = 5%nat \/ len = 6%nat ->
  Py.Qlt_bool 0.2 (ratio hits len) = true <-> (2 <= hits)%nat.
Proof.
  intros [->| ->]; rewrite Qlt_bool_iff;
    unfold ratio, Qdiv, Qlt, Qmult, Qinv, inject_Z; simpl; lia.
Qed.

Lemma NoDup_map_fst_filter {A B : Type} (f : A * B -> bool)
  (l : list (A * B)) :
  NoDup (map fst l) -> NoDup (map fst (filter f l)).
Proof.
  induction l as [|x l IH]; simpl; intro H; [constructor|].
  inversion H as [|? ? Hx Hl]; subst.
  destruct (f x); simpl; [|now apply IH].
  constructor; [|now apply IH].
  intro Hin. apply Hx. apply in_map_iff in Hin.
  destruct Hin as [y [Hy Hin]]. apply filter_In in Hin.
  apply in_map_iff. exists y. tauto.
Qed.

Lemma intent_keywords_NoDup : NoDup (map fst intent_keywords).
Proof.
  unfold intent_keywords. simpl.
  repeat (constructor; [simpl; intuition discriminate|]). constructor.
Qed.

Lemma table_keywords_NoDup (i : string) (kws : list string) :
  In (i, kws) intent_keywords -> NoDup kws.
Proof.
  unfold intent_keywords. simpl. intros H.
  repeat (destruct H as [H|H];
          [injection H as _ <-;
           repeat (constructor; [simpl; intuition discriminate|]);
           constructor|]).
  contradiction.
Qed.

Lemma two_elements {A : Type} (a b : A) (l : list A) :
  a <> b -> In a l -> In b l -> (2 <= length l)%nat.
Proof.
  intros Hab Ha Hb. destruct l as [|x [|y l]]; simpl in *.
  - contradiction.
  - destruct Ha as [<-|[]], Hb as [<-|[]]. contradiction.
  - lia.
Qed.

(** In a list without repetition, at least two elements pass a test
    exactly when two different elements do. *)
Lemma two_in_filter {A : Type} (f : A -> bool) (l : list A) :
  NoDup l ->
  (2 <= length (filter f l))%nat
  <-> exists a b,
        a <> b /\ In a l /\ In b l /\ f a = true /\ f b = true.
Proof.
  intro Hnd. split.
  - intro Hlen.
    pose proof (NoDup_filter f Hnd) as Hndf.
    destruct (filter f l) as [|a [|b rest]] eqn:E; simpl in Hlen; try lia.
    assert (Ha : In a (filter f l)) by (rewrite E; now left).
    assert (Hb : In b (filter f l)) by (rewrite E; right; now left).
    apply filter_In in Ha, Hb.
    exists a, b. split; [|tauto].
    inversion Hndf as [|? ? Hnotin _]; subst.
    intros ->. apply Hnotin. now left.
  - intros (a & b & Hab & Ha & Hb & Hfa & Hfb).
    apply (two_elements a b); [exact Hab | |]; apply filter_In; tauto.
Qed.

(** The secondary intents of [_rule_based_intent_analysis] are exactly the
    keyworded intents, other than the main one, of which at least two
    different keywords occur as substrings of the lower-cased text; none
    is listed twice. *)
Theorem secondary_intents_have_two_hits (R : Runtime) (message : string) :
  let text := str_lower message in
  let r := _rule_based_intent_analysis message in
  let occurs keyword :=
    exists before after, text = (before ++ keyword ++ after)%string in
  exists main l,
    intent r = Some main
    /\ secondary_intents r = Some l
    /\ NoDup l
    /\ ~ In main l
    /\ (forall i,
           In i l
           <-> i <> main
               /\ exists kws k1 k2,
                    In (i, kws) intent_keywords
                    /\ In k1 kws /\ In k2 kws /\ k1 <> k2
                    /\ occurs k1 /\ occurs k2).
Proof.
  intros text r occurs.
  assert (H : exists main,
             intent r = Some main
             /\ secondary_intents r
                = Some (map fst
                          (filter (fun '(i, kws) =>
                                     negb (String.eqb i main)
                                     && Py.Qlt_bool 0.2 (spec_score text kws))
                                  intent_keywords))).
  { subst r. unfold _rule_based_intent_analysis. fold text.
    destruct (Py.max_by_value (intent_scores_of text intent_keywords))
      as [[main score]|].
    - exists main. cbn [intent secondary_intents].
      split; [reflexivity|]. f_equal. apply secondary_over_table.
    - exists "general_question". cbn [intent secondary_intents].
      split; [reflexivity|]. f_equal. apply secondary_over_table. }
  destruct H as (main & Hmain & Hsec).
  exists main. eexists. split; [exact Hmain|]. split; [exact Hsec|].
  assert (Htwo : forall i kws,
             In (i, kws) intent_keywords ->
             Py.Qlt_bool 0.2 (spec_score text kws) = true
             <-> exists k1 k2,
                   In k1 kws /\ In k2 kws /\ k1 <> k2
                   /\ occurs k1 /\ occurs k2).
  { intros i kws Hin. rewrite spec_score_code.
    rewrite (score_above_fifth _ (length kws) (table_lengths i kws Hin)).
    unfold keyword_hits.
    rewrite (two_in_filter _ kws (table_keywords_NoDup i kws Hin)).
    split.
    - intros (a & b & Hab & Ha & Hb & Hfa & Hfb).
      exists a, b. apply contains_occurs in Hfa, Hfb. tauto.
    - intros (a & b & Ha & Hb & Hab & Hfa & Hfb).
      exists a, b. apply contains_occurs in Hfa, Hfb. tauto. }
  assert (Hiff : forall i,
             In i (map fst
                     (filter (fun '(i, kws) =>
                                negb (String.eqb i main)
                                && Py.Qlt_bool 0.2 (spec_score text kws))
                             intent_keywords))
             <-> i <> main
                 /\ exists kws k1 k2,
                      In (i, kws) intent_keywords
                      /\ In k1 kws /\ In k2 kws /\ k1 <> k2
                      /\ occurs k1 /\ occurs k2).
  { intro i. rewrite in_map_iff. split.
    - intros [[j kws] [Hj Hin]]. simpl in Hj. subst j.
      apply filter_In in Hin. destruct Hin as [Hin Hf].
      apply andb_true_iff in Hf. destruct Hf as [Hne Hq].
      apply negb_true_iff, String.eqb_neq in Hne.
      split; [exact Hne|]. exists kws.
      apply (Htwo i kws Hin) in Hq. destruct Hq as (k1 & k2 & Hq).
      exists k1, k2. tauto.
    - intros [Hne (kws & k1 & k2 & Hin & Hrest)]. exists (i, kws).
      split; [reflexivity|]. apply filter_In. split; [exact Hin|].
      apply andb_true_iff. split.
      + now apply negb_true_iff, String.eqb_neq.
      + apply (Htwo i kws Hin). now exists k1, k2. }
  split; [apply NoDup_map_fst_filter, intent_keywords_NoDup|].
  split; [|exact Hiff].
  intro Hin. apply Hiff in Hin. destruct Hin as [Hne _]. now apply Hne.
Qed.

(** The urgency is [high] exactly when the lower-cased text contains
    [dor], [lesão] or [urgente] somewhere, inside a longer word included,
    and [medium] otherwise; and a text that contains [dor] or [lesão] is
    never classified as a general question. *)
Theorem urgency_level_high_iff (R : Runtime) (message : string) :
  let text := str_lower message in
  let r := _rule_based_intent_analysis message in
  let marked markers :=
    exists marker before after,
      In marker markers /\ text = (before ++ marker ++ after)%string in
  (urgency_level r = Some "high" <-> marked ["dor"; "lesão"; "urgente"])
  /\ (urgency_level r = Some "medium"
      <-> ~ marked ["dor"; "lesão"; "urgente"])
  /\ (marked ["dor"; "lesão"] -> intent r <> Some "general_question").
Proof.
  intros text r marked.
  assert (Hex : forall markers,
             existsb (Py.contains text) markers = true <-> marked markers).
  { intro markers. unfold marked. rewrite existsb_exists. split.
    - intros [m [Hin Hc]]. apply contains_occurs in Hc.
      destruct Hc as (before & after & Hc). now exists m, before, after.
    - intros (m & before & after & Hin & Hc). exists m.
      split; [exact Hin|]. apply contains_occurs. now exists before, after. }
  assert (Hurg : urgency_level r
                 = Some (if existsb (Py.contains text)
                              ["dor"; "lesão"; "urgente"]
                         then "high" else "medium")).
  { subst r. unfold _rule_based_intent_analysis. fold text.
    destruct (Py.max_by_value (intent_scores_of text intent_keywords))
      as [[main score]|]; reflexivity. }
  split; [|split].
  - rewrite Hurg, <- Hex.
    destruct (existsb _ _); split; congruence.
  - rewrite Hurg, <- Hex.
    destruct (existsb _ _); split; try congruence; discriminate.
  - intros (m & before & after & Hin & Hc).
    assert (Hhit : (0 < keyword_hits text
                           ["dor"; "lesão"; "machuca"; "problema";
                            "desconforto"])%nat).
    { assert (Hm : Py.contains text m = true).
      { apply contains_occurs. now exists before, after. }
      unfold keyword_hits. simpl filter.
      destruct Hin as [<-|[<-|[]]].
      - rewrite Hm. simpl. lia.
      - rewrite Hm. destruct (Py.contains text "dor"); simpl; lia. }
    subst r. unfold _rule_based_intent_analysis. fold text.
    pose proof (max_by_value_scores text intent_keywords) as Hmax.
    destruct (Py.max_by_value (intent_scores_of text intent_keywords))
      as [[main score]|].
    + destruct Hmax as (bef & kws & aft & Ht & _).
      cbn [intent fst] in *. intro Heq. injection Heq as ->.
      assert (Hin' : In "general_question" (map fst intent_keywords)).
      { rewrite Ht, map_app. apply in_or_app. right. now left. }
      unfold intent_keywords in Hin'. simpl in Hin'.
      intuition discriminate.
    + exfalso. unfold intent_keywords in Hmax.
      repeat (apply Forall_cons_iff in Hmax; destruct Hmax as [? Hmax]).
      simpl in *. lia.
Qed.

(** ** The post-processor *)

Lemma action_patterns_NoDup : NoDup (map fst action_patterns).
Proof.
  unfold action_patterns. simpl.
  repeat (constructor; [simpl; intuition discriminate|]). constructor.
Qed.

Lemma common_exercises_NoDup : NoDup common_exercises.
Proof.
  unfold common_exercises.
  repeat (constructor; [simpl; intuition discriminate|]). constructor.
Qed.

(** [_process_ai_response] returns the reply as it is, marked as a success
    with confidence 0.8, whatever the intent analysis.  An action is
    suggested exactly when one of its patterns occurs in the lower-cased
    reply, and an exercise is referenced exactly when its name does; no
    action and no exercise is listed twice, so there are at most 5 actions
    and 6 exercises. *)
Theorem process_ai_response_annotations (R : Runtime) (response : string)
  (ia : Py.json) :
  let r := _process_ai_response response ia in
  let occurs p :=
    exists before after,
      str_lower response = (before ++ p ++ after)%string in
  success r = true
  /\ ai_content r = response
  /\ ai_confidence_score r = 0.8%Q
  /\ (forall action,
         In action (suggested_actions r)
         <-> exists patterns p,
               In (action, patterns) action_patterns
               /\ In p patterns /\ occurs p)
  /\ (forall exercise,
         In exercise (workout_references r)
         <-> In exercise common_exercises /\ occurs exercise)
  /\ NoDup (suggested_actions r)
  /\ NoDup (workout_references r)
  /\ (length (suggested_actions r) <= 5)%nat
  /\ (length (workout_references r) <= 6)%nat.
Proof.
  intros r occurs. subst r. unfold _process_ai_response.
  cbn [success ai_content ai_confidence_score suggested_actions
       workout_references].
  split; [reflexivity|]. split; [reflexivity|]. split; [reflexivity|].
  split; [|split; [|split; [|split; [|split]]]].
  - intro action. rewrite in_map_iff. split.
    + intros [[a patterns] [Ha Hin]]. simpl in Ha. subst a.
      apply filter_In in Hin. destruct Hin as [Hin Hf].
      apply existsb_exists in Hf. destruct Hf as [p [Hp Hc]].
      exists patterns, p. split; [exact Hin|]. split; [exact Hp|].
      now apply contains_occurs.
    + intros (patterns & p & Hin & Hp & Hc). exists (action, patterns).
      split; [reflexivity|]. apply filter_In. split; [exact Hin|].
      apply existsb_exists. exists p. split; [exact Hp|].
      now apply contains_occurs.
  - intro exercise. rewrite filter_In, contains_occurs. reflexivity.
  - apply NoDup_map_fst_filter, action_patterns_NoDup.
  - apply NoDup_filter, common_exercises_NoDup.
  - rewrite length_map.
    etransitivity; [apply filter_length_le | simpl; lia].
  - etransitivity; [apply filter_length_le | simpl; lia].
Qed.

(** ** Unknown conversations *)

(** [process_user_message] on an id that is not in the store returns the
    not-found result with its suggestion and changes nothing: no message is
    persisted and the backend is not asked. *)
Theorem process_user_message_not_found (R : Runtime) (w : Ref.World)
  (conversation_id : Z) (message : string) :
  Ref.conversation_get conversation_id w = None ->
  process_user_message conversation_id message w
  = (inr [ ("error", Py.VStr "Conversa não encontrada");
           ("suggestion",
             Py.VStr "Verifique o ID da conversa ou inicie uma nova") ],
     w).
Proof.
  intro Hget.
  unfold process_user_message, process_user_message_try, try_except, bind,
    now_time, gets.
  cbn [Conversation_get Ref.collaborators]. now rewrite Hget.
Qed.

Lemma process_user_message_not_found_witness :
  let w := Demo.world_at 2800 Demo.backend_up in
  Ref.conversation_get 99 w = None
  /\ process_user_message (R := Demo.runtime) 99 "oi" w
     = (inr [ ("error", Py.VStr "Conversa não encontrada");
              ("suggestion",
                Py.VStr "Verifique o ID da conversa ou inicie uma nova") ],
        w).
Proof.
  split; [reflexivity|].
  apply (process_user_message_not_found Demo.runtime
           (Demo.world_at 2800 Demo.backend_up) 99 "oi"). reflexivity.
Defined.

(** ** Ending a conversation: what is kept *)

Lemma end_conversation_stores_rating_witness :
  let w := Demo.world_at 2800 Demo.backend_down in
  Ref.conversation_get 1 w = Some Demo.conversation_1
  /\ ~ (4.5 == 0)%Q
  /\ exists w',
       end_conversation 1 (Some 4.5%Q) w
       = (inr [ ("conversation_ended", Py.VBool true);
                ("total_messages", Py.VInt 0);
                ("duration_minutes", Py.VNum (inject_Z (2800 - 1000) / 60)%Q);
                ("rating_saved", Py.VBool true) ],
          w')
       /\ option_map Conversation.user_satisfaction_rating
            (Ref.conversation_get 1 w')
          = Some (Some 4.5%Q).
Proof.
  assert (Hnz : ~ (4.5 == 0)%Q) by (intro H; discriminate H).
  split; [reflexivity|]. split; [exact Hnz|].
  destruct (end_conversation_stores_rating
              (Demo.world_at 2800 Demo.backend_down) 1 4.5%Q
              Demo.conversation_1 eq_refl Hnz)
    as (w' & Hrun & Hget & _ & _).
  exists w'. split; [exact Hrun|]. now rewrite Hget.
Defined.

Lemma find_save_row_other (c : Conversation.t) (rows : list Conversation.t)
  (i : Z) :
  i <> Conversation.id c ->
  find (fun x => (Conversation.id x =? i)%Z)
       (Ref.save_row Conversation.id c rows)
  = find (fun x => (Conversation.id x =? i)%Z) rows.
Proof.
  intro Hne. induction rows as [|y rows IH]; simpl.
  - destruct (Conversation.id c =? i)%Z eqn:E; [|reflexivity].
    apply Z.eqb_eq in E. congruence.
  - destruct (Conversation.id y =? Conversation.id c)%Z eqn:E; simpl.
    + apply Z.eqb_eq in E.
      destruct (Conversation.id c =? i)%Z eqn:E1;
        [apply Z.eqb_eq in E1; congruence|].
      destruct (Conversation.id y =? i)%Z eqn:E2;
        [apply Z.eqb_eq in E2; congruence|].
      reflexivity.
    + destruct (Conversation.id y =? i)%Z; [reflexivity | exact IH].
Qed.

(** One run of [end_conversation] on an existing conversation. *)
Lemma end_conversation_ref (w : Ref.World) (conversation_id : Z)
  (user_rating : option Q) (c : Conversation.t) :
  Ref.conversation_get conversation_id w = Some c ->
  end_conversation conversation_id user_rating w
  = (inr [ ("conversation_ended", Py.VBool true);
           ("total_messages", Py.VInt (Conversation.message_count c));
           ("duration_minutes",
             Py.VNum (inject_Z (Ref.clock w - Conversation.created_at c)
                      / 60)%Q);
           ("rating_saved",
             Py.VBool match user_rating with
                      | Some _ => true
                      | None => false
                      end) ],
     Ref.set_conversations
       (Ref.save_row Conversation.id (ended user_rating c)
          (Ref.conversations w))
       w).
Proof.
  intro Hget.
  unfold end_conversation, end_conversation_try, try_except, bind,
    now_datetime, gets.
  cbn [Conversation_get Conversation_save timezone_now Ref.collaborators].
  rewrite Hget. cbv beta iota zeta delta [ret]. unfold ended.
  destruct user_rating as [rating|]; [|reflexivity].
  destruct (negb (Qeq_bool rating 0)); reflexivity.
Qed.

Lemma ended_fields (user_rating : option Q) (c : Conversation.t) :
  Conversation.status (ended user_rating c) = "completed"
  /\ Conversation.id (ended user_rating c) = Conversation.id c
  /\ Conversation.user (ended user_rating c) = Conversation.user c
  /\ Conversation.conversation_type (ended user_rating c)
     = Conversation.conversation_type c
  /\ Conversation.created_at (ended user_rating c)
     = Conversation.created_at c
  /\ Conversation.message_count (ended user_rating c)
     = Conversation.message_count c.
Proof.
  unfold ended. destruct user_rating as [rating|];
    [destruct (negb (Qeq_bool rating 0))|]; repeat split.
Qed.

Lemma conversation_get_id (w : Ref.World) (i : Z) (c : Conversation.t) :
  Ref.conversation_get i w = Some c -> Conversation.id c = i.
Proof.
  unfold Ref.conversation_get. intro H. apply find_some in H.
  destruct H as [_ H]. now apply Z.eqb_eq in H.
Qed.

(** [end_conversation] without a rating completes the conversation and
    keeps the rating it had; it reports [rating_saved = False].  With or
    without a rating, it touches nothing but the row of that conversation,
    of which only the status and the rating may change: every other
    conversation, the messages, the context records and the cache are as
    before. *)
Theorem end_conversation_frame (w : Ref.World) (conversation_id : Z)
  (user_rating : option Q) (c : Conversation.t) :
  Ref.conversation_get conversation_id w = Some c ->
  exists d w' c',
    end_conversation conversation_id user_rating w = (inr d, w')
    /\ Ref.conversation_get conversation_id w' = Some c'
    /\ Conversation.status c' = "completed"
    /\ (user_rating = None ->
        Conversation.user_satisfaction_rating c'
        = Conversation.user_satisfaction_rating c
        /\ Py.get "rating_saved" d = Some (Py.VBool false))
    /\ (Conversation.id c' = Conversation.id c
        /\ Conversation.user c' = Conversation.user c
        /\ Conversation.conversation_type c' = Conversation.conversation_type c
        /\ Conversation.created_at c' = Conversation.created_at c
        /\ Conversation.message_count c' = Conversation.message_count c)
    /\ (forall i, i <> conversation_id ->
                  Ref.conversation_get i w' = Ref.conversation_get i w)
    /\ Ref.messages w' = Ref.messages w
    /\ Ref.contexts w' = Ref.contexts w
    /\ Ref.cache w' = Ref.cache w.
Proof.
  intro Hget.
  pose proof (conversation_get_id w conversation_id c Hget) as Hid.
  destruct (ended_fields user_rating c) as (Hs & Hi & Hu & Ht & Hc & Hm).
  do 2 eexists. exists (ended user_rating c).
  split; [exact (end_conversation_ref w conversation_id user_rating c Hget)|].
  split.
  { unfold Ref.conversation_get. cbn [Ref.conversations Ref.set_conversations].
    rewrite <- Hid, <- Hi. apply find_save_row. }
  split; [exact Hs|].
  split; [intros ->; split; reflexivity|].
  split; [repeat split; assumption|].
  split.
  { intros i Hne. unfold Ref.conversation_get.
    cbn [Ref.conversations Ref.set_conversations].
    apply find_save_row_other. congruence. }
  repeat split.
Qed.

Lemma end_conversation_frame_witness :
  let w := Demo.world_at 2800 Demo.backend_down in
  Ref.conversation_get 1 w = Some Demo.conversation_1
  /\ exists d w' c',
       end_conversation 1 None w = (inr d, w')
       /\ Ref.conversation_get 1 w' = Some c'
       /\ Conversation.status c' = "completed"
       /\ Ref.messages w' = Ref.messages w.
Proof.
  split; [reflexivity|].
  destruct (end_conversation_frame (Demo.world_at 2800 Demo.backend_down)
              1 None Demo.conversation_1 eq_refl)
    as (d & w' & c' & H1 & H2 & H3 & _ & _ & _ & H7 & _).
  exists d, w', c'. repeat split; assumption.
Defined.

(** Ending a conversation does not close it for messages: the status is
    not looked at.  As long as the conversation has not expired,
    [process_user_message] on the ended conversation persists the user
    message and, when the analysis of the message is a dict whose intent
    is hashable, answers: it persists one assistant message and returns a
    result without error; when it is not, the result is the error result,
    as on a conversation that was not ended.  The conversation stays
    completed. *)
Theorem process_after_end (R : Runtime) (w : Ref.World)
  (conversation_id : Z) (user_rating : option Q) (message : string)
  (c : Conversation.t) :
  Ref.conversation_get conversation_id w = Some c ->
  Ref.is_expired c (Ref.clock w) = false ->
  let w1 := snd (end_conversation conversation_id user_rating w) in
  exists d w2 um c',
    process_user_message conversation_id message w1 = (inr d, w2)
    /\ Message.message_type um = "user"
    /\ Message.content um = message
    /\ Ref.conversation_get conversation_id w2 = Some c'
    /\ Conversation.status c' = "completed"
    /\ if answerable (detected message w)
       then
         Py.has_key "error" d = false
         /\ exists aim,
              Ref.messages w2 = Ref.messages w ++ [um; aim]
              /\ Message.message_type aim = "ai"
       else
         d = processing_error
         /\ Ref.messages w2 = Ref.messages w ++ [um].
Proof.
  intros Hget Hexp w1.
  pose proof (conversation_get_id w conversation_id c Hget) as Hid.
  destruct (ended_fields user_rating c) as (Hs & Hi & _ & _ & Hc & _).
  unfold w1. rewrite (end_conversation_ref w conversation_id user_rating c)
    by exact Hget.
  cbn [snd].
  set (w1' := Ref.set_conversations
                (Ref.save_row Conversation.id (ended user_rating c)
                   (Ref.conversations w)) w).
  assert (Hget1 : Ref.conversation_get conversation_id w1'
                  = Some (ended user_rating c)).
  { unfold Ref.conversation_get, w1'.
    cbn [Ref.conversations Ref.set_conversations].
    rewrite <- Hid, <- Hi. apply find_save_row. }
  assert (Hexp1 : Ref.is_expired (ended user_rating c) (Ref.clock w1')
                  = false).
  { unfold Ref.is_expired in *. now rewrite Hc. }
  destruct (process_user_message_ref R w1' conversation_id message
              (ended user_rating c) Hget1 Hexp1)
    as (d & w2 & um & Hp & Hcv & _ & Hum & Hd).
  change (detected message w1') with (detected message w) in Hd.
  exists d, w2, um, (ended user_rating c).
  split; [exact Hp|].
  destruct Hum as (_ & _ & Hut & Huc).
  split; [exact Hut|]. split; [exact Huc|].
  split; [unfold Ref.conversation_get in *; now rewrite Hcv|].
  split; [exact Hs|].
  destruct (answerable (detected message w)).
  - destruct Hd as (_ & aim & w4 & Hm & _ & _ & Haim & Hd).
    split.
    { destruct (ai_reply _ _ _ w4); destruct Hd as (_ & _ & ->);
        reflexivity. }
    exists aim. split; [exact Hm|]. exact (proj1 (proj2 Haim)).
  - destruct Hd as [Hm ->]. split; [reflexivity | exact Hm].
Qed.

Lemma process_after_end_witness :
  let w := Demo.world_at 2800 Demo.backend_down in
  let w1 := snd (end_conversation 1 (Some 4.5%Q) w) in
  exists d w2 um aim c',
    process_user_message (R := Demo.runtime) 1 "Mais uma pergunta" w1
    = (inr d, w2)
    /\ Py.has_key "error" d = false
    /\ Ref.messages w2 = Ref.messages w ++ [um; aim]
    /\ Ref.conversation_get 1 w2 = Some c'
    /\ Conversation.status c' = "completed".
Proof.
  destruct (process_after_end Demo.runtime
              (Demo.world_at 2800 Demo.backend_down) 1 (Some 4.5%Q)
              "Mais uma pergunta" Demo.conversation_1 eq_refl eq_refl)
    as (d & w2 & um & c' & H1 & _ & _ & H4 & H5 & H6 & aim & H7 & _).
  exists d, w2, um, aim, c'. repeat split; assumption.
Defined.

(** ** Seeding the context of a new conversation *)

(** What [_initialize_conversation_context] writes in the reference world:
    three upserts, in this order. *)
Lemma initialize_conversation_context_ref (R : Runtime)
  (c : Conversation.t) (w : Ref.World) :
  _initialize_conversation_context c w
  = (inr tt,
     Ref.set_context c "preferences" "conversation_style"
       (CV_conversation_style "medium" "intermediate") 0.6%Q
       (Ref.set_context c "workout_history" "recent_workouts"
          (CV_recent_sessions
             (map workout_entry_of
                (Ref.workout_sessions_recent (Conversation.user c)
                   (Ref.clock w - 7 * 86400) 5 w)))
          0.8%Q
          (match Ref.profile_get (Conversation.user c) w with
           | Some profile =>
               Ref.set_context c "user_profile" "basic_info"
                 (CV_basic_info profile) 1.0%Q w
           | None =>
               Ref.set_context c "user_profile" "basic_info"
                 (CV_profile_complete false) 0.5%Q w
           end))).
Proof.
  unfold _initialize_conversation_context, try_except, bind, now_datetime,
    gets.
  cbn [UserProfile_get ChatContext_set_context WorkoutSession_recent
       timezone_now Ref.collaborators].
  destruct (Ref.profile_get (Conversation.user c) w); reflexivity.
Qed.

Lemma stored_context_set_same (c : Conversation.t) (ty key : string)
  (v : context_value) (q : Q) (w : Ref.World) :
  stored_context c ty key (Ref.set_context c ty key v q w) = Some (v, q).
Proof.
  unfold stored_context, Ref.get_context, Ref.set_context.
  cbn [Ref.contexts Ref.set_contexts].
  rewrite (filter_upsert_same
             {| ChatContext.conversation := Conversation.id c;
                ChatContext.context_type := ty;
                ChatContext.context_key := key;
                ChatContext.context_value_ := v;
                ChatContext.relevance := q |}).
  reflexivity.
Qed.

Lemma get_context_set_other (c c0 : Conversation.t) (ty key ty0 key0 : string)
  (v : context_value) (q : Q) (w : Ref.World) :
  (Conversation.id c =? Conversation.id c0)%Z
  && String.eqb ty ty0 && String.eqb key key0 = false ->
  Ref.get_context c0 ty0 key0 (Ref.set_context c ty key v q w)
  = Ref.get_context c0 ty0 key0 w.
Proof.
  intro H. unfold Ref.get_context, Ref.set_context.
  cbn [Ref.contexts Ref.set_contexts].
  now apply filter_upsert_other.
Qed.

Lemma stored_context_set_other (c c0 : Conversation.t)
  (ty key ty0 key0 : string) (v : context_value) (q : Q) (w : Ref.World) :
  (Conversation.id c =? Conversation.id c0)%Z
  && String.eqb ty ty0 && String.eqb key key0 = false ->
  stored_context c0 ty0 key0 (Ref.set_context c ty key v q w)
  = stored_context c0 ty0 key0 w.
Proof.
  intro H. unfold stored_context. now rewrite get_context_set_other.
Qed.

Lemma In_insert_latest_first (s x : WorkoutSession.t)
  (l : list WorkoutSession.t) :
  In x (Ref.insert_latest_first s l) <-> x = s \/ In x l.
Proof.
  induction l as [|y l IH]; simpl.
  - intuition.
  - destruct (WorkoutSession.completed_at y <? WorkoutSession.completed_at s)%Z;
      simpl; [intuition|]. rewrite IH. intuition.
Qed.

Lemma In_workout_sessions_recent (user : User) (since : Z) (n : nat)
  (w : Ref.World) (s : WorkoutSession.t) :
  In s (Ref.workout_sessions_recent user since n w) ->
  In s (Ref.workout_sessions w)
  /\ WorkoutSession.user s = user_id user
  /\ WorkoutSession.completed s = true
  /\ (since <= WorkoutSession.completed_at s)%Z.
Proof.
  unfold Ref.workout_sessions_recent. intro H.
  match type of H with
  | In _ (firstn ?k ?l) =>
      assert (H' : In s l)
        by (rewrite <- (firstn_skipn k l); apply in_or_app; now left)
  end.
  clear H. rename H' into H.
  assert (Hin : forall l, In s (fold_right Ref.insert_latest_first [] l) ->
                          In s l).
  { induction l as [|y l IH]; simpl; [tauto|].
    rewrite In_insert_latest_first. intuition. }
  apply Hin, filter_In in H. destruct H as [H Hf].
  apply andb_true_iff in Hf. destruct Hf as [Hf H3].
  apply andb_true_iff in Hf. destruct Hf as [H1 H2].
  apply Z.eqb_eq in H1. apply Z.leb_le in H3. tauto.
Qed.

Ltac other_key :=
  rewrite <- andb_assoc; cbn; apply andb_false_r.

(** [_initialize_conversation_context] seeds three records for the
    conversation: the profile facts with relevance 1.0, or the dict
    [{profile_complete: False}] with relevance 0.5 when the user has no
    profile; the workout history, at most 5 entries made from completed
    sessions of the user of the last 7 days, with relevance 0.8; and the
    default conversation style with relevance 0.6.  It never raises, and
    it leaves every other context record, the conversations, the messages
    and the cache as they were. *)
Theorem initialize_conversation_context_seeds (R : Runtime)
  (c : Conversation.t) (w : Ref.World) :
  let w' := snd (_initialize_conversation_context c w) in
  fst (_initialize_conversation_context c w) = inr tt
  /\ stored_context c "user_profile" "basic_info" w'
     = Some match Ref.profile_get (Conversation.user c) w with
            | Some profile => (CV_basic_info profile, 1.0%Q)
            | None => (CV_profile_complete false, 0.5%Q)
            end
  /\ (exists sessions,
         stored_context c "workout_history" "recent_workouts" w'
         = Some (CV_recent_sessions (map workout_entry_of sessions), 0.8%Q)
         /\ (length sessions <= 5)%nat
         /\ forall s, In s sessions ->
                      In s (Ref.workout_sessions w)
                      /\ WorkoutSession.user s
                         = user_id (Conversation.user c)
                      /\ WorkoutSession.completed s = true
                      /\ (Ref.clock w - 7 * 86400
                          <= WorkoutSession.completed_at s)%Z)
  /\ stored_context c "preferences" "conversation_style" w'
     = Some (CV_conversation_style "medium" "intermediate", 0.6%Q)
  /\ (forall c0 ty key,
         Conversation.id c0 <> Conversation.id c \/ seed_key ty key = false ->
         Ref.get_context c0 ty key w' = Ref.get_context c0 ty key w)
  /\ Ref.conversations w' = Ref.conversations w
  /\ Ref.messages w' = Ref.messages w
  /\ Ref.cache w' = Ref.cache w.
Proof.
  intro w'. subst w'. rewrite initialize_conversation_context_ref.
  cbn [fst snd].
  split; [reflexivity|]. split; [|split; [|split; [|split]]].
  - unfold stored_context.
    rewrite !get_context_set_other by other_key.
    destruct (Ref.profile_get (Conversation.user c) w);
      apply stored_context_set_same.
  - exists (Ref.workout_sessions_recent (Conversation.user c)
              (Ref.clock w - 7 * 86400) 5 w).
    split; [|split].
    + unfold stored_context.
      rewrite get_context_set_other by other_key.
      apply stored_context_set_same.
    + unfold Ref.workout_sessions_recent. apply firstn_le_length.
    + intros s Hs. now apply In_workout_sessions_recent in Hs.
  - apply stored_context_set_same.
  - intros c0 ty key Hother.
    assert (Hkeys :
              (Conversation.id c =? Conversation.id c0)%Z
              && String.eqb "user_profile" ty && String.eqb "basic_info" key
              = false
              /\ (Conversation.id c =? Conversation.id c0)%Z
                 && String.eqb "workout_history" ty
                 && String.eqb "recent_workouts" key = false
              /\ (Conversation.id c =? Conversation.id c0)%Z
                 && String.eqb "preferences" ty
                 && String.eqb "conversation_style" key = false).
    { destruct Hother as [Hid|Hkey].
      - assert (E : (Conversation.id c =? Conversation.id c0)%Z = false)
          by (apply Z.eqb_neq; congruence).
        rewrite E. repeat split.
      - unfold seed_key in Hkey.
        apply orb_false_iff in Hkey. destruct Hkey as [Hkey H3].
        apply orb_false_iff in Hkey. destruct Hkey as [H1 H2].
        rewrite <- !andb_assoc, H1, H2, H3, !andb_false_r. repeat split. }
    destruct Hkeys as (H1 & H2 & H3).
    rewrite !get_context_set_other by assumption.
    destruct (Ref.profile_get (Conversation.user c) w);
      now rewrite get_context_set_other.
  - destruct (Ref.profile_get (Conversation.user c) w); repeat split.
Qed.

(** ** The welcome message *)

Lemma athlete_name_eq (u : User) :
  (if Py.truthy (first_name u) then first_name u else "atleta")
  = athlete_name u.
Proof.
  unfold athlete_name, Py.truthy.
  now destruct (String.eqb (first_name u) "").
Qed.

Lemma build_conversation_context_ref (c : Conversation.t) (w : Ref.World) :
  _build_conversation_context c w = (inr (context_data_of c w), w).
Proof. reflexivity. Qed.

(** [_generate_welcome_message] in the reference world: the stripped text
    of the backend when it gives one, the pre-defined text of the
    conversation type otherwise; the world is only read. *)
Lemma generate_welcome_message_ref (R : Runtime) (c : Conversation.t)
  (w : Ref.World) :
  _generate_welcome_message c w
  = (inr (Some match ai_welcome_of c w with
               | Some text =>
                   {| welcome_content := str_strip text;
                      welcome_confidence := 0.9%Q;
                      welcome_response_time :=
                        round0 ((Ref.timer w - Ref.timer w) * 1000)%Q |}
               | None =>
                   {| welcome_content :=
                        welcome_text (athlete_name (Conversation.user c))
                          (Conversation.conversation_type c);
                      welcome_confidence := 0.8%Q;
                      welcome_response_time := 100%Q |}
               end),
     w).
Proof.
  unfold _generate_welcome_message, ai_welcome_of, welcome_text.
  rewrite athlete_name_eq.
  unfold try_except at 1. unfold bind at 1.
  cbn [ai_is_available Ref.collaborators].
  destruct (Ref.is_available (Ref.backend w)); [|reflexivity].
  unfold bind at 1. unfold bind at 1.
  rewrite build_conversation_context_ref.
  unfold _ai_welcome_message, try_except, bind, now_time, gets.
  cbn [_make_openai_request time_time Ref.collaborators].
  match goal with
  | |- context [Ref.reply ?b ?m ?k ?t] =>
      destruct (Ref.reply b m k t) as [text|]
  end; [|reflexivity].
  destruct (Py.truthy text); reflexivity.
Qed.

Lemma string_app_inv_head (s a b : string) :
  (s ++ a)%string = (s ++ b)%string -> a = b.
Proof.
  induction s as [|c s IH]; simpl; intro H; [exact H|].
  injection H as H. now apply IH.
Qed.

Lemma type_messages_distinct (name : string) :
  NoDup (map snd (type_messages name)).
Proof.
  unfold type_messages. cbv [map snd].
  repeat (constructor;
          [cbv [In]; intuition (try discriminate);
           match goal with
           | H : _ = _ |- _ =>
               apply string_app_inv_head, string_app_inv_head in H;
               discriminate H
           end|]).
  constructor.
Qed.

(** [_generate_welcome_message] always yields a message and only reads the
    world.  When the backend is unavailable, silent, or answers with an
    empty text, the message is the pre-defined text of the conversation
    type, with confidence 0.8 and response time 100: one of five texts,
    pairwise distinct, each containing the user's first name ([atleta]
    when it is empty), the [general_fitness] text for a type without a
    text of its own.  When the backend answers, the message is the answer,
    stripped, with confidence 0.9. *)
Theorem generate_welcome_message_sources (R : Runtime) (c : Conversation.t)
  (w : Ref.World) :
  let name := athlete_name (Conversation.user c) in
  exists m,
    _generate_welcome_message c w = (inr (Some m), w)
    /\ (ai_welcome_of c w = None ->
        welcome_content m = welcome_text name (Conversation.conversation_type c)
        /\ welcome_confidence m = 0.8%Q
        /\ welcome_response_time m = 100%Q)
    /\ (forall text,
           ai_welcome_of c w = Some text ->
           welcome_content m = str_strip text
           /\ welcome_confidence m = 0.9%Q)
    /\ (Ref.is_available (Ref.backend w) = false -> ai_welcome_of c w = None)
    /\ (forall ty,
           In (welcome_text name ty) (map snd (type_messages name))
           /\ (lookup ty (type_messages name) = None ->
               welcome_text name ty = welcome_text name "general_fitness")
           /\ exists before after,
                welcome_text name ty = (before ++ name ++ after)%string)
    /\ NoDup (map snd (type_messages name)).
Proof.
  intro name. rewrite generate_welcome_message_ref. fold name.
  eexists. split; [reflexivity|].
  split; [intros ->; repeat split|].
  split; [intros text ->; repeat split|].
  split.
  { unfold ai_welcome_of. now intros ->. }
  split; [|apply type_messages_distinct].
  intro ty.
  assert (Hcases :
            welcome_text name ty
            = lookup_or_empty "workout_consultation" (type_messages name)
            \/ welcome_text name ty
               = lookup_or_empty "progress_analysis" (type_messages name)
            \/ welcome_text name ty
               = lookup_or_empty "motivation_chat" (type_messages name)
            \/ welcome_text name ty
               = lookup_or_empty "technique_guidance" (type_messages name)
            \/ welcome_text name ty
               = lookup_or_empty "general_fitness" (type_messages name)).
  { unfold welcome_text, type_messages, lookup.
    repeat match goal with
           | |- context [String.eqb ty ?k] => destruct (String.eqb ty k)
           end; tauto. }
  split; [|split].
  - cbv [type_messages map snd In].
    destruct Hcases as [H|[H|[H|[H|H]]]]; rewrite H; tauto.
  - intro Hnone. unfold welcome_text. now rewrite Hnone.
  - destruct Hcases as [H|[H|[H|[H|H]]]]; rewrite H;
      eexists; eexists; reflexivity.
Qed.

(** ** Starting without an initial message *)

Lemma filter_last_other (ty : string) (l : list Message.t) (m : Message.t) :
  String.eqb (Message.message_type m) ty = false ->
  filter (fun m => String.eqb (Message.message_type m) ty) (l ++ [m])
  = filter (fun m => String.eqb (Message.message_type m) ty) l.
Proof.
  intro H. rewrite filter_app. simpl. rewrite H. apply app_nil_r.
Qed.

(** One run of [start_conversation] that creates a conversation and
    welcomes the user. *)
Lemma start_conversation_welcome_ref (R : Runtime) (w : Ref.World)
  (user : User) (conversation_type : string)
  (initial_message : option string) :
  Py.truthy_opt initial_message = false ->
  Ref.conversation_filter_first user "active" (Ref.clock w - 2 * 3600) w
  = None ->
  let c := created_conversation user conversation_type w in
  let w1 := Ref.set_conversations (Ref.conversations w ++ [c]) w in
  let w2 := snd (_initialize_conversation_context c w1) in
  exists m aim w',
    _generate_welcome_message c w2 = (inr (Some m), w2)
    /\ start_conversation user conversation_type initial_message w
       = (inr [ ("conversation_id", Py.VInt (Conversation.id c));
                ("status", Py.VStr "created");
                ("conversation_type", Py.VStr conversation_type);
                ("context_loaded", Py.VBool true);
                ("welcome_message", Py.VBool true);
                ("ai_available",
                  Py.VBool (Ref.is_available (Ref.backend w))) ],
          w')
    /\ w' = Ref.set_messages (Ref.messages w ++ [aim]) w2
    /\ aim = Message.with_id
               (Ref.fresh_id (map Message.id (Ref.messages w)))
               {| Message.id := 0;
                  Message.conversation := Conversation.id c;
                  Message.message_type := "ai";
                  Message.content := welcome_content m;
                  Message.status := "delivered";
                  Message.confidence_score := Some (welcome_confidence m);
                  Message.ai_model_version := Some OPENAI_MODEL;
                  Message.response_time_ms :=
                    Some (welcome_response_time m);
                  Message.tokens_used :=
                    Some (inject_Z
                            (Z.of_nat
                               (length (str_split (welcome_content m))))
                          * 1.3)%Q;
                  Message.intent_detected := None |}
    /\ Ref.messages w2 = Ref.messages w
    /\ Ref.conversations w2 = Ref.conversations w ++ [c]
    /\ Ref.backend w2 = Ref.backend w.
Proof.
  intros Hmsg Hnone c w1 w2.
  assert (Hframe : Ref.messages w2 = Ref.messages w
                   /\ Ref.conversations w2 = Ref.conversations w ++ [c]
                   /\ Ref.backend w2 = Ref.backend w).
  { unfold w2. rewrite initialize_conversation_context_ref. cbn [snd].
    destruct (Ref.profile_get (Conversation.user c) w1); repeat split. }
  destruct Hframe as (Hm2 & Hc2 & Hb2).
  pose proof (generate_welcome_message_ref R c w2) as Hwelcome.
  set (m := match ai_welcome_of c w2 with
            | Some text =>
                {| welcome_content := str_strip text;
                   welcome_confidence := 0.9%Q;
                   welcome_response_time :=
                     round0 ((Ref.timer w2 - Ref.timer w2) * 1000)%Q |}
            | None =>
                {| welcome_content :=
                     welcome_text (athlete_name (Conversation.user c))
                       (Conversation.conversation_type c);
                   welcome_confidence := 0.8%Q;
                   welcome_response_time := 100%Q |}
            end) in *.
  exists m. do 2 eexists.
  split; [exact Hwelcome|].
  split; [|split; [reflexivity|split; [reflexivity|]]].
  2:{ repeat split; assumption. }
  unfold start_conversation, try_except, start_conversation_try.
  unfold bind at 1. unfold now_datetime, gets.
  cbn [timezone_now Ref.collaborators].
  unfold bind at 1.
  cbn [Conversation_filter_first Ref.collaborators].
  rewrite Hnone, Hmsg. cbn [negb].
  unfold bind at 1. cbn [Conversation_create Ref.collaborators].
  change (Ref.conversation_create user conversation_type OPENAI_MODEL w)
    with (c, w1).
  cbv beta iota.
  unfold bind at 1.
  assert (Hinit : _initialize_conversation_context c w1 = (inr tt, w2)).
  { unfold w2. now rewrite initialize_conversation_context_ref. }
  rewrite Hinit.
  unfold bind at 1. unfold bind at 1. rewrite Hwelcome.
  unfold bind at 1. unfold _save_ai_message.
  cbn [Message_create Ref.collaborators].
  unfold Ref.message_create. rewrite Hm2.
  cbv beta iota zeta delta [ret].
  unfold bind. cbn [ai_is_available Ref.collaborators].
  cbn [Ref.backend Ref.set_messages]. rewrite Hb2. reflexivity.
Qed.

(** [start_conversation] without an initial message, for a user who has no
    resumable conversation, creates an active conversation of the given
    type at the current time, seeds its three context records, and
    persists exactly one message: the assistant's welcome, without intent.
    No user message is persisted.  When the backend is unavailable the
    welcome is the pre-defined text of the conversation type. *)
Theorem start_conversation_creates (R : Runtime) (w : Ref.World)
  (user : User) (conversation_type : string)
  (initial_message : option string) :
  Py.truthy_opt initial_message = false ->
  Ref.conversation_filter_first user "active" (Ref.clock w - 2 * 3600) w
  = None ->
  let c := created_conversation user conversation_type w in
  exists d w' aim,
    start_conversation user conversation_type initial_message w = (inr d, w')
    /\ Py.get "status" d = Some (Py.VStr "created")
    /\ Py.get "conversation_id" d = Some (Py.VInt (Conversation.id c))
    /\ Py.get "ai_available" d
       = Some (Py.VBool (Ref.is_available (Ref.backend w)))
    /\ Ref.conversations w' = Ref.conversations w ++ [c]
    /\ (forall c0, In c0 (Ref.conversations w) ->
                   Conversation.id c0 <> Conversation.id c)
    /\ Ref.messages w' = Ref.messages w ++ [aim]
    /\ (Message.conversation aim = Conversation.id c
        /\ Message.message_type aim = "ai"
        /\ Message.intent_detected aim = None)
    /\ messages_of_type "user" w' = messages_of_type "user" w
    /\ (exists v1 v2,
           stored_context c "user_profile" "basic_info" w' = Some v1
           /\ stored_context c "workout_history" "recent_workouts" w'
              = Some v2
           /\ stored_context c "preferences" "conversation_style" w'
              = Some (CV_conversation_style "medium" "intermediate", 0.6%Q))
    /\ (Ref.is_available (Ref.backend w) = false ->
        Message.content aim
        = welcome_text (athlete_name user) conversation_type
        /\ Message.confidence_score aim = Some 0.8%Q
        /\ Message.response_time_ms aim = Some 100%Q).
Proof.
  intros Hmsg Hnone c.
  destruct (start_conversation_welcome_ref R w user conversation_type
              initial_message Hmsg Hnone)
    as (m & aim & w' & Hwelcome & Hrun & Hw' & Haim & Hm2 & Hc2 & Hb2).
  fold c in Hwelcome, Hrun, Hw', Haim, Hm2, Hc2, Hb2.
  set (w1 := Ref.set_conversations (Ref.conversations w ++ [c]) w) in *.
  set (w2 := snd (_initialize_conversation_context c w1)) in *.
  eexists. exists w', aim.
  split; [exact Hrun|].
  split; [reflexivity|]. split; [reflexivity|]. split; [reflexivity|].
  split; [now rewrite Hw'|].
  split.
  { intros c0 Hc0.
    pose proof (fresh_id_gt (map Conversation.id (Ref.conversations w))
                  (Conversation.id c0) (in_map _ _ _ Hc0)) as Hlt.
    unfold c, created_conversation. cbn. lia. }
  split; [now rewrite Hw'|].
  split; [rewrite Haim; repeat split|].
  split.
  { unfold messages_of_type. rewrite Hw'.
    cbn [Ref.messages Ref.set_messages].
    apply filter_last_other. now rewrite Haim. }
  split.
  { assert (Hctx : forall ty key,
               stored_context c ty key w' = stored_context c ty key w2).
    { intros ty key. now rewrite Hw'. }
    rewrite !Hctx. unfold w2.
    rewrite initialize_conversation_context_ref. cbn [snd].
    destruct (Ref.profile_get (Conversation.user c) w1);
      do 2 eexists; (split; [|split]);
      rewrite ?stored_context_set_other by other_key;
      apply stored_context_set_same. }
  intro Hdown.
  rewrite generate_welcome_message_ref in Hwelcome.
  assert (Hoff : ai_welcome_of c w2 = None).
  { unfold ai_welcome_of. now rewrite Hb2, Hdown. }
  rewrite Hoff in Hwelcome. injection Hwelcome as <-.
  rewrite Haim. repeat split.
Qed.

Lemma start_conversation_creates_witness :
  let w := Demo.world_at 2800 Demo.backend_down in
  Py.truthy_opt None = false
  /\ Ref.conversation_filter_first Demo.nameless "active"
       (Ref.clock w - 2 * 3600) w = None
  /\ exists d w' aim,
       start_conversation (R := Demo.runtime) Demo.nameless
         "motivation_chat" None w = (inr d, w')
       /\ Py.get "status" d = Some (Py.VStr "created")
       /\ Ref.messages w' = Ref.messages w ++ [aim]
       /\ Message.message_type aim = "ai"
       /\ Message.content aim = welcome_text "atleta" "motivation_chat".
Proof.
  split; [reflexivity|]. split; [reflexivity|].
  destruct (start_conversation_creates Demo.runtime
              (Demo.world_at 2800 Demo.backend_down) Demo.nameless
              "motivation_chat" None eq_refl eq_refl)
    as (d & w' & aim & H1 & H2 & _ & _ & _ & _ & H7 & (_ & H8 & _) & _ & _
        & H11).
  exists d, w', aim.
  split; [exact H1|]. split; [exact H2|]. split; [exact H7|].
  split; [exact H8|]. exact (proj1 (H11 eq_refl)).
Defined.

Lemma resumable_iff (user : User) (now : Z) (c : Conversation.t) :
  resumable user now c = true
  <-> user_id (Conversation.user c) = user_id user
      /\ Conversation.status c = "active"
      /\ (now - Conversation.created_at c <= 2 * 3600)%Z.
Proof.
  unfold resumable.
  rewrite !andb_true_iff, Z.eqb_eq, String.eqb_eq, Z.leb_le.
  intuition lia.
Qed.

(** Without an initial message, [start_conversation] resumes exactly when
    the user has an active conversation created at most 2 hours ago, the
    conversation created exactly 2 hours ago included, and then changes
    nothing; in every other case it creates a conversation.  It never
    returns the error result in the reference world. *)
Theorem start_conversation_resumes_iff (R : Runtime) (w : Ref.World)
  (user : User) (conversation_type : string)
  (initial_message : option string) :
  Py.truthy_opt initial_message = false ->
  let recent :=
    exists c,
      In c (Ref.conversations w)
      /\ user_id (Conversation.user c) = user_id user
      /\ Conversation.status c = "active"
      /\ (Ref.clock w - Conversation.created_at c <= 2 * 3600)%Z in
  exists d w',
    start_conversation user conversation_type initial_message w = (inr d, w')
    /\ (Py.get "status" d = Some (Py.VStr "resumed") <-> recent)
    /\ (Py.get "status" d = Some (Py.VStr "created") <-> ~ recent)
    /\ (recent -> w' = w).
Proof.
  intros Hmsg recent.
  destruct (find (resumable user (Ref.clock w)) (Ref.conversations w))
    as [c|] eqn:Hfind.
  - assert (Hrecent : recent).
    { apply find_some in Hfind. destruct Hfind as [Hin Hres].
      apply resumable_iff in Hres. now exists c. }
    do 2 eexists. split.
    { unfold start_conversation, start_conversation_try, try_except, bind,
        now_datetime, gets.
      cbn [Conversation_filter_first timezone_now Ref.collaborators].
      unfold Ref.conversation_filter_first.
      unfold resumable in Hfind. rewrite Hfind, Hmsg. reflexivity. }
    split; [split; [intros _; exact Hrecent | reflexivity]|].
    split; [split; [discriminate | intro H; now contradiction H]|].
    reflexivity.
  - assert (Hrecent : ~ recent).
    { intros (c & Hin & Hc). apply resumable_iff in Hc.
      pose proof (find_none _ _ Hfind c Hin). congruence. }
    destruct (start_conversation_welcome_ref R w user conversation_type
                initial_message Hmsg Hfind)
      as (m & aim & w' & _ & Hrun & _).
    do 2 eexists. split; [exact Hrun|].
    split; [split; [discriminate | intro H; now contradiction Hrecent]|].
    split; [split; [intros _; exact Hrecent | reflexivity]|].
    intro H. now contradiction Hrecent.
Qed.

Lemma start_conversation_resumes_iff_witness :
  let w := Demo.world_at 8200 Demo.backend_down in
  exists d w',
    start_conversation (R := Demo.runtime) Demo.ana "general_fitness" None w
    = (inr d, w')
    /\ Py.get "status" d = Some (Py.VStr "resumed")
    /\ w' = w.
Proof.
  destruct (start_conversation_resumes_iff Demo.runtime
              (Demo.world_at 8200 Demo.backend_down) Demo.ana
              "general_fitness" None eq_refl)
    as (d & w' & Hrun & Hres & _ & Hsame).
  assert (Hrecent :
            exists c,
              In c (Ref.conversations (Demo.world_at 8200 Demo.backend_down))
              /\ user_id (Conversation.user c) = user_id Demo.ana
              /\ Conversation.status c = "active"
              /\ (Ref.clock (Demo.world_at 8200 Demo.backend_down)
                  - Conversation.created_at c <= 2 * 3600)%Z).
  { exists Demo.conversation_1. split; [now left|].
    split; [reflexivity|]. split; [reflexivity|]. vm_compute. discriminate. }
  exists d, w'. split; [exact Hrun|].
  split; [now apply Hres | now apply Hsame].
Defined.

(** ** What the service keeps, whatever the collaborators *)

Section Keeps.

Context {R : Runtime} {W : Type} {C : Collaborators W}.
Variable F : W -> W -> Prop.
Hypothesis F_refl : forall w, F w w.
Hypothesis F_trans : forall a b c, F a b -> F b c -> F a c.

Lemma keeps_ret {A : Type} (a : A) : keeps F (ret a).
Proof. intro w. apply F_refl. Qed.

Lemma keeps_raise {A : Type} (e : exn) : keeps F (@raise W A e).
Proof. intro w. apply F_refl. Qed.

Lemma keeps_gets {A : Type} (f : W -> A) : keeps F (gets f).
Proof. intro w. apply F_refl. Qed.

Lemma keeps_lift {A : Type} (r : exn + A) : keeps F (@lift W A r).
Proof. intro w. apply F_refl. Qed.

Lemma keeps_bind {A B : Type} (m : M W A) (k : A -> M W B) :
  keeps F m -> (forall a, keeps F (k a)) -> keeps F (bind m k).
Proof.
  intros Hm Hk w. unfold bind. specialize (Hm w).
  destruct (m w) as [[e|a] w']; simpl in *; [exact Hm|].
  eapply F_trans; [exact Hm | apply Hk].
Qed.

Lemma keeps_try_except {A : Type} (m : M W A) (h : exn -> M W A) :
  keeps F m -> (forall e, keeps F (h e)) -> keeps F (try_except m h).
Proof.
  intros Hm Hh w. unfold try_except. specialize (Hm w).
  destruct (m w) as [[e|a] w']; simpl in *; [|exact Hm].
  eapply F_trans; [exact Hm | apply Hh].
Qed.

Hypothesis aux : aux_calls_keep F C.

Ltac keeps_call :=
  first
    [ apply keeps_ret
    | apply keeps_raise
    | apply keeps_gets
    | apply keeps_lift
    | apply (keep_get_last_messages F C aux)
    | apply (keep_set_context F C aux); reflexivity
    | apply (keep_get_all F C aux)
    | apply (keep_get_context F C aux)
    | apply (keep_profile_get F C aux)
    | apply (keep_workout_recent F C aux)
    | apply (keep_cache_get F C aux)
    | apply (keep_cache_set F C aux)
    | apply (keep_is_available F C aux)
    | apply (keep_request F C aux) ].

Ltac keeps_branch :=
  match goal with
  | |- keeps _ (if ?b then _ else _) => destruct b
  | |- keeps _ (match ?x with _ => _ end) => destruct x
  end.

Ltac keeps_step known :=
  first
    [ known
    | keeps_call
    | apply keeps_bind; [|intro]
    | apply keeps_try_except; [|intro]
    | keeps_branch
    | progress cbv zeta ].

Lemma keeps_build_conversation_context (c : Conversation.t) :
  keeps F (_build_conversation_context c).
Proof.
  unfold _build_conversation_context. repeat keeps_step fail.
Qed.

Lemma keeps_ai_intent_analysis (message : string) (c : Conversation.t) :
  keeps F (_ai_intent_analysis message c).
Proof.
  unfold _ai_intent_analysis. repeat keeps_step fail.
Qed.

Lemma keeps_analyze_message_intent (message : string) (c : Conversation.t) :
  keeps F (_analyze_message_intent message c).
Proof.
  unfold _analyze_message_intent.
  repeat keeps_step ltac:(apply keeps_ai_intent_analysis).
Qed.

Lemma keeps_update_conversation_context (c : Conversation.t)
  (message : string) (ia : Py.json) :
  keeps F (_update_conversation_context c message ia).
Proof.
  unfold _update_conversation_context. repeat keeps_step fail.
Qed.

Lemma keeps_generate_ai_response (c : Conversation.t) (message : string)
  (ia : Py.json) :
  keeps F (_generate_ai_response c message ia).
Proof.
  unfold _generate_ai_response.
  repeat keeps_step ltac:(apply keeps_build_conversation_context).
Qed.

Lemma keeps_initialize_conversation_context (c : Conversation.t) :
  keeps F (_initialize_conversation_context c).
Proof.
  unfold _initialize_conversation_context, now_datetime.
  repeat keeps_step fail.
Qed.

Lemma keeps_ai_welcome_message (name ty : string) (data : context_data) :
  keeps F (_ai_welcome_message name ty data).
Proof.
  unfold _ai_welcome_message, now_time. repeat keeps_step fail.
Qed.

Lemma keeps_generate_welcome_message (c : Conversation.t) :
  keeps F (_generate_welcome_message c).
Proof.
  unfold _generate_welcome_message.
  repeat keeps_step
    ltac:(first [ apply keeps_build_conversation_context
                | apply keeps_ai_welcome_message ]).
Qed.

Hypothesis store : store_calls_keep F C.

Ltac keeps_store :=
  first
    [ apply (keep_filter_first F C store)
    | apply (keep_conversation_create F C store)
    | apply (keep_conversation_get F C store)
    | apply (keep_conversation_save F C store)
    | apply (keep_is_expired F C store)
    | apply (keep_message_create F C store)
    | apply (keep_message_save F C store) ].

Lemma keeps_process_user_message (conversation_id : Z) (message : string) :
  keeps F (process_user_message conversation_id message).
Proof.
  unfold process_user_message, process_user_message_try,
    _save_user_message, _save_ai_message, now_time.
  repeat keeps_step
    ltac:(first [ keeps_store
                | apply keeps_analyze_message_intent
                | apply keeps_update_conversation_context
                | apply keeps_generate_ai_response ]).
Qed.

Lemma keeps_start_conversation (user : User) (conversation_type : string)
  (initial_message : option string) :
  keeps F (start_conversation user conversation_type initial_message).
Proof.
  unfold start_conversation, start_conversation_try,
    _save_user_message, _save_ai_message, now_datetime.
  repeat keeps_step
    ltac:(first [ keeps_store
                | apply keeps_process_user_message
                | apply keeps_initialize_conversation_context
                | apply keeps_generate_welcome_message ]).
Qed.

Lemma keeps_end_conversation (conversation_id : Z) (user_rating : option Q) :
  keeps F (end_conversation conversation_id user_rating).
Proof.
  unfold end_conversation, end_conversation_try, now_datetime.
  repeat keeps_step ltac:(keeps_store).
Qed.

End Keeps.

(** ** The context data *)

Lemma get_key_set_key (k k' : string) (v : context_value)
  (inner : list (string * context_value)) :
  get_key k (set_key k' v inner)
  = if String.eqb k k' then Some v else get_key k inner.
Proof.
  induction inner as [|[k0 v0] inner IH]; simpl.
  - reflexivity.
  - destruct (String.eqb k' k0) eqn:E; simpl.
    + apply String.eqb_eq in E. subst k0.
      now destruct (String.eqb k k').
    + rewrite IH. destruct (String.eqb k k0) eqn:E0; [|reflexivity].
      apply String.eqb_eq in E0. subst k0.
      rewrite String.eqb_sym in E. now rewrite E.
Qed.

Lemma get_section_set_nested (ty ty' k' : string) (v : context_value)
  (data : context_data) :
  get_section ty (set_nested ty' k' v data)
  = if String.eqb ty ty' then set_key k' v (get_section ty data)
    else get_section ty data.
Proof.
  induction data as [|[ty0 inner] data IH]; simpl.
  - now destruct (String.eqb ty ty').
  - destruct (String.eqb ty' ty0) eqn:E; simpl.
    + apply String.eqb_eq in E. subst ty0.
      now destruct (String.eqb ty ty').
    + rewrite IH. destruct (String.eqb ty ty0) eqn:E0; [|reflexivity].
      apply String.eqb_eq in E0. subst ty0.
      rewrite String.eqb_sym in E. now rewrite E.
Qed.

(** Writing a value under a type and key, then reading under a type and
    key, gives the value written for the same type and key and what was
    there before for any other. *)
Lemma get_set_nested (ty k ty' k' : string) (v : context_value)
  (data : context_data) :
  get_key k (get_section ty (set_nested ty' k' v data))
  = if String.eqb ty ty' && String.eqb k k' then Some v
    else get_key k (get_section ty data).
Proof.
  rewrite get_section_set_nested.
  destruct (String.eqb ty ty'); simpl; [|reflexivity].
  apply get_key_set_key.
Qed.

Lemma find_over_app {A : Type} (f : A -> bool) (l1 l2 : list A) :
  find f (l1 ++ l2)
  = match find f l1 with
    | Some x => Some x
    | None => find f l2
    end.
Proof.
  induction l1 as [|x l1 IH]; simpl; [reflexivity|].
  now destruct (f x).
Qed.

Lemma get_fold_set_nested (ty k : string) (records : list ChatContext.t) :
  forall data,
    get_key k
      (get_section ty
         (fold_left
            (fun data x =>
               set_nested (ChatContext.context_type x)
                 (ChatContext.context_key x) (ChatContext.context_value_ x)
                 data)
            records data))
    = match last_under ty k records with
      | Some x => Some (ChatContext.context_value_ x)
      | None => get_key k (get_section ty data)
      end.
Proof.
  unfold last_under.
  induction records as [|x records IH]; intro data; simpl.
  - reflexivity.
  - rewrite IH, find_over_app.
    destruct (find _ (rev records)); [reflexivity|].
    simpl. rewrite get_set_nested.
    now destruct (String.eqb ty (ChatContext.context_type x)
                  && String.eqb k (ChatContext.context_key x)).
Qed.

(** In the data [_build_conversation_context] builds, what is found under
    a type and a key is the value of the last record of the conversation
    under that type and key, and nothing when the conversation has no such
    record; the world is only read. *)
Theorem build_conversation_context_lookup (c : Conversation.t)
  (w : Ref.World) (ty key : string) :
  exists data,
    _build_conversation_context c w = (inr data, w)
    /\ get_key key (get_section ty data)
       = option_map ChatContext.context_value_
           (last_under ty key (Ref.get_all c w)).
Proof.
  exists (context_data_of c w). split; [reflexivity|].
  unfold context_data_of. rewrite get_fold_set_nested.
  now destruct (last_under ty key (Ref.get_all c w)).
Qed.

(** ** The keys of the context records *)

Lemma context_keys_kept_refl (w : Ref.World) : context_keys_kept w w.
Proof. split; [tauto | reflexivity]. Qed.

Lemma context_keys_kept_trans (a b c : Ref.World) :
  context_keys_kept a b -> context_keys_kept b c -> context_keys_kept a c.
Proof.
  intros [H1 H2] [H3 H4]. split; [tauto|].
  intros c0 ty key Hk. now rewrite H4, H2.
Qed.

Lemma Forall_upsert (P : ChatContext.t -> Prop) (x : ChatContext.t)
  (rows : list ChatContext.t) :
  P x -> Forall P rows -> Forall P (Ref.upsert x rows).
Proof.
  intros Hx Hrows. induction Hrows as [|y rows Hy Hrows IH]; simpl.
  - now constructor.
  - destruct (Ref.same_key _ _ _ y); constructor; assumption.
Qed.

Lemma set_context_keeps_keys (c : Conversation.t) (ty key : string)
  (v : context_value) (q : Q) (w : Ref.World) :
  service_key ty key = true ->
  context_keys_kept w (Ref.set_context c ty key v q w).
Proof.
  intro Hk. split.
  - unfold service_keys_only, Ref.set_context.
    cbn [Ref.contexts Ref.set_contexts].
    apply Forall_upsert. exact Hk.
  - intros c0 ty0 key0 Hk0. apply get_context_set_other.
    destruct (String.eqb ty ty0) eqn:E1; [|now rewrite andb_false_r].
    destruct (String.eqb key key0) eqn:E2; [|now rewrite andb_false_r].
    apply String.eqb_eq in E1, E2. subst. congruence.
Qed.

Lemma ref_aux_calls_keep_keys :
  aux_calls_keep context_keys_kept Ref.collaborators.
Proof.
  constructor; intros; intro w;
    cbn [Conversation_get_last_messages ChatContext_set_context
         ChatContext_get_all ChatContext_get_context UserProfile_get
         WorkoutSession_recent cache_get cache_set ai_is_available
         _make_openai_request Ref.collaborators snd];
    try apply context_keys_kept_refl.
  - now apply set_context_keeps_keys.
  - destruct (Ref.profile_get u w); apply context_keys_kept_refl.
  - split; [tauto | reflexivity].
Qed.

Lemma ref_store_calls_keep_keys :
  store_calls_keep context_keys_kept Ref.collaborators.
Proof.
  constructor; intros; intro w;
    cbn [Conversation_filter_first Conversation_create Conversation_get
         Conversation_save Conversation_is_expired Message_create
         Message_save Ref.collaborators snd];
    try apply context_keys_kept_refl;
    try (split; [tauto | reflexivity]).
  destruct (Ref.conversation_get id w); apply context_keys_kept_refl.
Qed.

(** The three operations write context records under five (type, key)
    pairs only: if every record of the store lies under one of them
    before, so does every record after; and what is stored under any
    other key, for any conversation, is what was stored before. *)
Theorem orchestrator_keeps_context_keys (R : Runtime) (w : Ref.World) :
  (forall user conversation_type initial_message,
      context_keys_kept w
        (snd (start_conversation user conversation_type initial_message w)))
  /\ (forall conversation_id message,
         context_keys_kept w
           (snd (process_user_message conversation_id message w)))
  /\ (forall conversation_id user_rating,
         context_keys_kept w
           (snd (end_conversation conversation_id user_rating w))).
Proof.
  split; [|split]; intros.
  - apply (keeps_start_conversation context_keys_kept
             context_keys_kept_refl context_keys_kept_trans
             ref_aux_calls_keep_keys ref_store_calls_keep_keys).
  - apply (keeps_process_user_message context_keys_kept
             context_keys_kept_refl context_keys_kept_trans
             ref_aux_calls_keep_keys ref_store_calls_keep_keys).
  - apply (keeps_end_conversation context_keys_kept
             context_keys_kept_refl context_keys_kept_trans
             ref_store_calls_keep_keys).
Qed.

(** ** The system prompt *)

Lemma string_app_assoc (a b c : string) :
  ((a ++ b) ++ c)%string = (a ++ b ++ c)%string.
Proof. induction a as [|x a IH]; simpl; [reflexivity | now rewrite IH]. Qed.

Lemma last_under_service_keys (ty key : string) (c : Conversation.t)
  (w : Ref.World) :
  service_keys_only w ->
  service_key ty key = false ->
  last_under ty key (Ref.get_all c w) = None.
Proof.
  intros Hall Hkey. unfold last_under.
  destruct (find _ (rev (Ref.get_all c w))) as [x|] eqn:E; [|reflexivity].
  apply find_some in E. destruct E as [Hin Hx].
  apply in_rev in Hin. unfold Ref.get_all in Hin.
  apply filter_In in Hin. destruct Hin as [Hin _].
  unfold service_keys_only in Hall. rewrite Forall_forall in Hall.
  specialize (Hall x Hin).
  apply andb_true_iff in Hx. destruct Hx as [H1 H2].
  apply String.eqb_eq in H1, H2. subst. congruence.
Qed.

(** When every context record lies under a service key, as every record
    the service writes does, the system prompt built from the context of a
    conversation, for an analysis that is a dict whose intent is hashable,
    is the persona, the focus line of the intent if it has one, and the
    closing instruction: the lines on the user's goal, on the activity
    level and on the recent history never appear, since the builder looks
    for [goal], [activity_level] and [recent_sessions] among the context
    keys, where the service stores them inside the values under
    [basic_info] and [recent_workouts].  For any other analysis the
    builder raises. *)
Theorem system_prompt_is_never_personalised (R : Runtime)
  (c : Conversation.t) (w : Ref.World) (a : Py.json) :
  service_keys_only w ->
  exists data,
    _build_conversation_context c w = (inr data, w)
    /\ if answerable a
       then
         _build_fitness_chat_system_prompt a data
         = inr (Prompt.persona ++ Prompt.focus_line (intent_string a)
                  ++ Prompt.closing)%string
       else
         exists what,
           _build_fitness_chat_system_prompt a data = inl (Exception what).
Proof.
  intro Hall. exists (context_data_of c w). split; [reflexivity|].
  unfold _build_fitness_chat_system_prompt, context_data_of.
  rewrite !get_fold_set_nested.
  rewrite !last_under_service_keys by (assumption || reflexivity).
  cbn [get_section get_key option_map]. cbv zeta.
  destruct a as [| | | | | |items]; try (eexists; reflexivity).
  unfold answerable, intent_string, intent_entry. cbn [dict_get].
  destruct (Py.assoc "intent" items) as [v|].
  - destruct v as [| | | |i| |]; try (eexists; reflexivity);
      try reflexivity.
    cbn [Py.hashable literal_get]. unfold Prompt.focus_line.
    destruct (lookup i Prompt.intent_contexts).
    + now rewrite string_app_assoc.
    + reflexivity.
  - reflexivity.
Qed.

(** ** Failures of the auxiliary collaborators *)

Lemma same_core_refl (w : Ref.World) : same_core w w.
Proof. repeat split. Qed.

Lemma same_core_trans (a b c : Ref.World) :
  same_core a b -> same_core b c -> same_core a c.
Proof.
  unfold same_core.
  intros (H1 & H2 & H3 & H4 & H5 & H6 & H7)
         (K1 & K2 & K3 & K4 & K5 & K6 & K7).
  repeat split; congruence.
Qed.

Lemma flaky_aux_calls_keep_core (p : Flaky.plan) :
  aux_calls_keep same_core (Flaky.collaborators p).
Proof.
  constructor; intros; intro w;
    cbn [Conversation_get_last_messages ChatContext_set_context
         ChatContext_get_all ChatContext_get_context UserProfile_get
         WorkoutSession_recent cache_get cache_set ai_is_available
         _make_openai_request Flaky.collaborators Ref.collaborators];
    unfold Flaky.guard;
    try (destruct (p _ w); [apply same_core_refl|]);
    cbn [snd]; try apply same_core_refl.
  - repeat split.
  - destruct (Ref.profile_get u w); apply same_core_refl.
  - repeat split.
Qed.

Section NeverRaises.

Context {R : Runtime} {W : Type} {C : Collaborators W}.

(** Whatever the collaborators do, the intent analysis returns a payload:
    when the cache or the classification fails, it is the general question
    with confidence 0.5. *)
Lemma analyze_message_intent_never_raises (message : string)
  (c : Conversation.t) (w : W) :
  exists ia w', _analyze_message_intent message c w = (inr ia, w').
Proof. unfold _analyze_message_intent. apply try_except_total. Qed.

Lemma update_conversation_context_never_raises (c : Conversation.t)
  (message : string) (ia : Py.json) (w : W) :
  exists w', _update_conversation_context c message ia w = (inr tt, w').
Proof.
  unfold _update_conversation_context.
  match goal with
  | |- context [try_except ?m _ w] =>
      destruct (try_except_total m (fun _ => tt) w) as ([] & w' & H)
  end.
  now exists w'.
Qed.

End NeverRaises.

Lemma cache_lookup_In (key : string) (now : Z)
  (entries : list (string * (Py.json * Z))) (v : Py.json) :
  Ref.cache_lookup key now entries = Some v ->
  exists k expires, In (k, (v, expires)) entries.
Proof.
  induction entries as [|[k [v0 e]] rest IH]; simpl; [discriminate|].
  destruct (String.eqb key k).
  - destruct (now <? e)%Z; [|discriminate].
    intros [= ->]. exists k, e. now left.
  - intro H. destruct (IH H) as (k' & e' & Hin). exists k', e'. now right.
Qed.

(** With payloads that can be answered, what the intent analysis returns
    can be answered, whichever calls fail. *)
Lemma flaky_analysis_answerable (R : Runtime) (p : Flaky.plan)
  (message : string) (c : Conversation.t) (w w' : Ref.World) (a : Py.json) :
  well_formed_payloads w ->
  _analyze_message_intent (C := Flaky.collaborators p) message c w
  = (inr a, w') ->
  answerable a = true.
Proof.
  intros [Hcache Hreply].
  assert (Hai : forall w0 w1 r,
             Ref.backend w0 = Ref.backend w ->
             _ai_intent_analysis (C := Flaky.collaborators p) message c w0
             = (inr r, w1) ->
             Py.truthy_json r = true -> answerable r = true).
  { intros w0 w1 r Hb. unfold _ai_intent_analysis, try_except, bind.
    cbn [_make_openai_request Flaky.collaborators Ref.collaborators].
    unfold Flaky.guard.
    destruct (p Flaky.Request w0); [intros [= <- _]; discriminate|].
    rewrite Hb.
    destruct (Ref.reply (Ref.backend w) (intent_prompt message) 200 0.3%Q)
      as [text|] eqn:Ht; [|intros [= <- _]; discriminate].
    destruct (Py.truthy text); [|intros [= <- _]; discriminate].
    destruct (json_loads text) as [parsed|] eqn:Hp;
      [|intros [= <- _]; discriminate].
    intros [= <- _] Htruthy. exact (Hreply _ _ _ Ht Hp Htruthy). }
  unfold _analyze_message_intent, try_except, bind.
  cbn [cache_get cache_set ai_is_available Flaky.collaborators
       Ref.collaborators].
  unfold Flaky.guard at 1.
  destruct (p Flaky.CacheGet w); [now intros [= <- _]|].
  assert (Hrest :
            forall cached,
              (Py.truthy_json cached = true -> answerable cached = true) ->
              (let (r, w1) :=
                 (if Py.truthy_json cached then ret cached
                  else
                    bind (Flaky.guard p Flaky.IsAvailable
                            (@ai_is_available _ Ref.collaborators))
                      (fun available =>
                         bind (if available
                               then _ai_intent_analysis
                                      (C := Flaky.collaborators p) message c
                               else ret Py.JNull)
                           (fun ai_intent =>
                              if Py.truthy_json ai_intent
                              then
                                bind (Flaky.guard p Flaky.CacheSet
                                        (@cache_set _ Ref.collaborators
                                           (cache_key message) ai_intent
                                           3600))
                                  (fun _ => ret ai_intent)
                              else
                                bind (Flaky.guard p Flaky.CacheSet
                                        (@cache_set _ Ref.collaborators
                                           (cache_key message)
                                           (dict_of
                                              (_rule_based_intent_analysis
                                                 message))
                                           1800))
                                  (fun _ =>
                                     ret (dict_of
                                            (_rule_based_intent_analysis
                                               message)))))) w in
               match r with
               | inl _ =>
                   ret (Py.JObj [ ("intent", Py.JStr "general_question");
                                  ("confidence", Py.JFloat 0.5%Q) ]) w1
               | inr a0 => (inr a0, w1)
               end) = (inr a, w') ->
              answerable a = true).
  { intros cached Hc.
    destruct (Py.truthy_json cached) eqn:Htc.
    - unfold ret. intros [= <- _]. now apply Hc.
    - unfold bind, Flaky.guard at 1.
      destruct (p Flaky.IsAvailable w); [now intros [= <- _]|].
      cbn [ai_is_available Ref.collaborators].
      destruct (Ref.is_available (Ref.backend w)).
      + destruct (_ai_intent_analysis (C := Flaky.collaborators p)
                    message c w) as [[e|r] w1] eqn:Hrun;
          [now intros [= <- _]|].
        destruct (Py.truthy_json r) eqn:Hr.
        * unfold Flaky.guard.
          destruct (p Flaky.CacheSet w1); [now intros [= <- _]|].
          cbn [cache_set Ref.collaborators]. unfold ret.
          intros [= <- _]. exact (Hai w w1 r eq_refl Hrun Hr).
        * unfold Flaky.guard.
          destruct (p Flaky.CacheSet w1); [now intros [= <- _]|].
          cbn [cache_set Ref.collaborators]. unfold ret.
          intros [= <- _]. apply answerable_dict_of.
      + unfold ret at 1. cbn [Py.truthy_json].
        unfold Flaky.guard.
        destruct (p Flaky.CacheSet w); [now intros [= <- _]|].
        cbn [cache_set Ref.collaborators]. unfold ret.
        intros [= <- _]. apply answerable_dict_of. }
  cbn [cache_get Ref.collaborators].
  destruct (Ref.cache_lookup (cache_key message) (Ref.clock w) (Ref.cache w))
    as [cached|] eqn:Hlook.
  - apply (Hrest cached).
    destruct (cache_lookup_In _ _ _ _ Hlook) as (k & e & Hin).
    exact (Hcache k cached e Hin).
  - apply (Hrest Py.JNull). discriminate.
Qed.

(** [_generate_ai_response] reads the availability flag outside its
    [try]: it raises when reading the flag raises, and only then. *)
Lemma flaky_generate_ai_response (R : Runtime) (p : Flaky.plan)
  (c : Conversation.t) (message : string) (ia : Py.json)
  (w : Ref.World) :
  match p Flaky.IsAvailable w with
  | Some e =>
      _generate_ai_response (C := Flaky.collaborators p) c message ia w
      = (inl e, w)
  | None =>
      exists r w',
        _generate_ai_response (C := Flaky.collaborators p) c message ia w
        = (inr r, w')
  end.
Proof.
  destruct (p Flaky.IsAvailable w) as [e|] eqn:Hflag;
    unfold _generate_ai_response; unfold bind at 1;
    cbn [ai_is_available Flaky.collaborators Ref.collaborators];
    unfold Flaky.guard at 1; rewrite Hflag; [reflexivity|].
  cbn [ai_is_available Ref.collaborators]. cbv beta iota.
  destruct (negb (Ref.is_available (Ref.backend w))).
  - now exists None, w.
  - apply try_except_total.
Qed.

(** The failures of the context store, the cache, the requests to the
    backend and the message history do not reach the caller of
    [process_user_message]; a failure of the availability flag does.  On
    an existing conversation that has not expired, whichever of them fail
    and whenever, the call returns a result, the conversations are as
    before and the user message is persisted.  With payloads that can be
    answered and a flag that can be read, exactly one assistant message is
    persisted as well and the result is the AI-powered or the rule-based
    one, never an error.  When reading the flag fails, nothing else is
    persisted and the result is the error result. *)
Theorem process_user_message_isolates_failures (R : Runtime)
  (p : Flaky.plan) (w : Ref.World) (conversation_id : Z) (message : string)
  (c : Conversation.t) :
  Ref.conversation_get conversation_id w = Some c ->
  Ref.is_expired c (Ref.clock w) = false ->
  exists d w' um,
    process_user_message (C := Flaky.collaborators p)
      conversation_id message w = (inr d, w')
    /\ Ref.conversations w' = Ref.conversations w
    /\ (Message.conversation um = Conversation.id c
        /\ Message.message_type um = "user"
        /\ Message.content um = message)
    /\ (exists rest, Ref.messages w' = Ref.messages w ++ um :: rest)
    /\ (well_formed_payloads w ->
        (forall w0, p Flaky.IsAvailable w0 = None) ->
        exists aim,
          Ref.messages w' = Ref.messages w ++ [um; aim]
          /\ (Message.conversation aim = Conversation.id c
              /\ Message.message_type aim = "ai")
          /\ Py.get "message_id" d = Some (Py.VInt (Message.id aim))
          /\ Py.get "response" d = Some (Py.VStr (Message.content aim))
          /\ Py.has_key "error" d = false
          /\ (Py.get "method" d = Some (Py.VStr "ai_powered")
              \/ Py.get "method" d = Some (Py.VStr "rule_based_fallback")))
    /\ (forall what,
           (forall w0, p Flaky.IsAvailable w0 = Some (Exception what)) ->
           Ref.messages w' = Ref.messages w ++ [um]
           /\ d = processing_error).
Proof.
  intros Hget Hexp.
  pose proof (flaky_aux_calls_keep_core p) as Haux.
  unfold process_user_message. unfold bind at 1. unfold now_time, gets.
  cbn [time_time Flaky.collaborators Ref.collaborators].
  unfold process_user_message_try, _save_user_message, _save_ai_message.
  unfold try_except, bind, lift.
  cbn [Conversation_get Conversation_is_expired Message_create Message_save
       Flaky.collaborators Ref.collaborators].
  rewrite Hget, Hexp.
  cbv beta iota zeta delta [Ref.message_create ret].
  set (um0 := Message.with_id
                (Ref.fresh_id (map Message.id (Ref.messages w)))
                {| Message.id := 0;
                   Message.conversation := Conversation.id c;
                   Message.message_type := "user";
                   Message.content := message;
                   Message.status := "delivered";
                   Message.confidence_score := None;
                   Message.ai_model_version := None;
                   Message.response_time_ms := None;
                   Message.tokens_used := None;
                   Message.intent_detected := None |}).
  match goal with
  | |- context [_analyze_message_intent message c ?w1] =>
      destruct (analyze_message_intent_never_raises
                  (C := Flaky.collaborators p) message c w1)
        as (a & w2 & Hrun);
      pose proof (keeps_analyze_message_intent same_core same_core_refl
                    same_core_trans Haux message c w1) as Hcore;
      assert (Hans : well_formed_payloads w -> answerable a = true)
        by (intro Hwf;
            apply (flaky_analysis_answerable R p message c w1 w2 a);
            [exact Hwf | exact Hrun])
  end.
  rewrite Hrun in Hcore |- *. cbv beta iota.
  destruct Hcore as (Hc2 & Hm2 & _ & _ & _ & _ & Ht2).
  cbn [snd Ref.messages Ref.set_messages Ref.conversations Ref.timer]
    in Hc2, Hm2, Ht2.
  clear Hrun.
  destruct a as [| | | | | |items].
  1-6: cbn [dict_get]; cbv beta iota;
    eexists; eexists; exists um0;
    (split; [reflexivity|]);
    (split; [exact Hc2|]);
    (split; [repeat split|]);
    (split; [exists []; exact Hm2|]);
    (split; [intros Hwf _; specialize (Hans Hwf); discriminate|]);
    intros what _; (split; [exact Hm2 | reflexivity]).
  cbn [dict_get].
  set (v := match Py.assoc "intent" items with
            | Some v => v
            | None => Py.JStr "general_question"
            end).
  assert (Hfresh :
            Ref.save_row Message.id
              (Message.with_intent_detected (char_column v) um0)
              (Ref.messages w2)
            = Ref.messages w
                ++ [Message.with_intent_detected (char_column v) um0]).
  { rewrite Hm2. apply save_row_last; [|reflexivity].
    intros y Hy. cbn [Message.id Message.with_intent_detected
                      Message.with_id um0].
    pose proof (fresh_id_gt (map Message.id (Ref.messages w))
                  (Message.id y) (in_map _ _ _ Hy)).
    lia. }
  rewrite Hfresh.
  match goal with
  | |- context [_update_conversation_context c message ?a ?w3] =>
      destruct (update_conversation_context_never_raises
                  (C := Flaky.collaborators p) c message a w3)
        as (w4 & Hup);
      pose proof (keeps_update_conversation_context same_core
                    same_core_refl same_core_trans Haux c message a w3)
        as Hcore
  end.
  rewrite Hup in Hcore |- *. cbv beta iota.
  destruct Hcore as (Hc4 & Hm4 & _ & _ & _ & _ & Ht4).
  cbn [snd Ref.messages Ref.set_messages Ref.conversations Ref.timer]
    in Hc4, Hm4, Ht4.
  clear Hup.
  pose proof (flaky_generate_ai_response R p c message (Py.JObj items) w4)
    as Hgen.
  pose proof (keeps_generate_ai_response same_core same_core_refl
                same_core_trans Haux c message (Py.JObj items) w4) as Hcore.
  destruct (p Flaky.IsAvailable w4) as [e|] eqn:Hflag.
  - rewrite Hgen. cbv beta iota.
    eexists. eexists.
    exists (Message.with_intent_detected (char_column v) um0).
    split; [reflexivity|].
    split; [now rewrite Hc4, Hc2|].
    split; [repeat split|].
    split; [exists []; exact Hm4|].
    split.
    + intros _ Hnone. rewrite Hnone in Hflag. discriminate.
    + intros what Hsome. rewrite Hsome in Hflag. injection Hflag as <-.
      split; [exact Hm4 | reflexivity].
  - destruct Hgen as (r & w5 & Hgen).
    rewrite Hgen in Hcore |- *. cbv beta iota.
    destruct Hcore as (Hc5 & Hm5 & _ & _ & _ & _ & Ht5).
    cbn [snd] in Hc5, Hm5, Ht5.
    destruct (usable r) as [reply|].
    + unfold now_time, gets. cbv beta iota zeta.
      cbn [time_time Flaky.collaborators Ref.collaborators Ref.timer
           Ref.messages Ref.set_messages].
      rewrite Hm5, Hm4.
      eexists. eexists.
      exists (Message.with_intent_detected (char_column v) um0).
      split; [reflexivity|].
      cbn [Ref.messages Ref.set_messages Ref.conversations].
      split; [now rewrite Hc5, Hc4, Hc2|].
      split; [repeat split|].
      split; [eexists; rewrite <- app_assoc; reflexivity|].
      split.
      * intros _ _. eexists.
        split; [rewrite <- app_assoc; reflexivity|].
        split; [repeat split|].
        split; [reflexivity|]. split; [reflexivity|].
        split; [reflexivity|]. now left.
      * intros what Hsome. rewrite Hsome in Hflag. discriminate.
    + destruct (answerable (Py.JObj items)) eqn:Hanswerable.
      * rewrite (generate_fallback_response_canned c message _ Hanswerable).
        unfold now_time, gets. cbv beta iota zeta.
        cbn [time_time Flaky.collaborators Ref.collaborators Ref.timer
             Ref.messages Ref.set_messages].
        rewrite Hm5, Hm4.
        eexists. eexists.
        exists (Message.with_intent_detected (char_column v) um0).
        split; [reflexivity|].
        cbn [Ref.messages Ref.set_messages Ref.conversations].
        split; [now rewrite Hc5, Hc4, Hc2|].
        split; [repeat split|].
        split; [eexists; rewrite <- app_assoc; reflexivity|].
        split.
        -- intros _ _. eexists.
           split; [rewrite <- app_assoc; reflexivity|].
           split; [repeat split|].
           split; [reflexivity|]. split; [reflexivity|].
           split; [reflexivity|]. now right.
        -- intros what Hsome. rewrite Hsome in Hflag. discriminate.
      * destruct (generate_fallback_response_raises c message _ Hanswerable)
          as (what0 & Hraises).
        rewrite Hraises. cbv beta iota.
        eexists. eexists.
        exists (Message.with_intent_detected (char_column v) um0).
        split; [reflexivity|].
        split; [now rewrite Hc5, Hc4, Hc2|].
        split; [repeat split|].
        split; [exists []; now rewrite Hm5, Hm4|].
        split.
        -- intros Hwf _. specialize (Hans Hwf). discriminate.
        -- intros what Hsome. rewrite Hsome in Hflag. discriminate.
Qed.

Lemma process_user_message_isolates_failures_witness :
  let w := Demo.world_at 2800 Demo.backend_up in
  exists d w' um aim,
    process_user_message (R := Demo.runtime)
      (C := Flaky.collaborators Flaky.all_fail) 1 "Quero um treino" w
    = (inr d, w')
    /\ Ref.messages w' = Ref.messages w ++ [um; aim]
    /\ Py.has_key "error" d = false.
Proof.
  assert (Hwf : well_formed_payloads (R := Demo.runtime)
                  (Demo.world_at 2800 Demo.backend_up)).
  { split.
    - intros key a expires [].
    - intros messages text a Hreply Hparse _.
      cbn in Hreply. injection Hreply as <-.
      vm_compute in Hparse. injection Hparse as <-. reflexivity. }
  destruct (process_user_message_isolates_failures Demo.runtime
              Flaky.all_fail (Demo.world_at 2800 Demo.backend_up) 1
              "Quero um treino" Demo.conversation_1 eq_refl eq_refl)
    as (d & w' & um & H1 & _ & _ & _ & Hok & _).
  destruct (Hok Hwf (fun _ => eq_refl)) as (aim & H2 & _ & _ & _ & H3 & _).
  exists d, w', um, aim. repeat split; assumption.
Defined.

(** With everything auxiliary failing and the backend marked available,
    the message is classified as a general question and answered by the
    rule-based text. *)
Lemma demo_all_fail :
  let w := Demo.world_at 2800 Demo.backend_up in
  let '(r, w') :=
    process_user_message (R := Demo.runtime)
      (C := Flaky.collaborators Flaky.all_fail) 1 "Quero um treino" w in
  exists d,
    r = inr d
    /\ Py.get "method" d = Some (Py.VStr "rule_based_fallback")
    /\ Py.get "intent_detected" d = Some (Py.VStr "general_question")
    /\ length (Ref.messages w') = 2%nat
    /\ Ref.contexts w' = []
    /\ Ref.cache w' = [].
Proof. vm_compute. eexists. repeat split. Qed.

(** When only the reading of the availability flag fails, the message is
    classified by the rules, the user message is stored and the caller
    gets the error result. *)
Lemma demo_flag_fails :
  let w := Demo.world_at 2800 Demo.backend_up in
  let '(r, w') :=
    process_user_message (R := Demo.runtime)
      (C := Flaky.collaborators Flaky.flag_fails) 1 "Quero um treino" w in
  r = inr processing_error
  /\ map Message.message_type (Ref.messages w') = ["user"].
Proof. vm_compute. split; reflexivity. Qed.

(** ** The history *)

(** Whatever the collaborators do, [get_conversation_history] returns a
    list and raises nothing: the empty list when the lookup of the
    conversation fails, with [DoesNotExist] or anything else, and when the
    query for its messages fails; otherwise one entry for each message of
    the query, in its order. *)
Theorem get_conversation_history_never_raises {W : Type}
  (C : Collaborators W) (H : HistoryCollaborators W)
  (conversation_id limit : Z) (w : W) :
  exists l w',
    get_conversation_history conversation_id limit w = (inr l, w')
    /\ (forall e w1,
           Conversation_get conversation_id w = (inl e, w1) -> l = [])
    /\ (forall c w1 e w2,
           Conversation_get conversation_id w = (inr c, w1) ->
           Conversation_messages_by_created_at c limit w1 = (inl e, w2) ->
           l = [])
    /\ (forall c w1 messages w2,
           Conversation_get conversation_id w = (inr c, w1) ->
           Conversation_messages_by_created_at c limit w1
           = (inr messages, w2) ->
           length l = length messages
           /\ l = map history_entry messages).
Proof.
  unfold get_conversation_history, try_except, bind.
  destruct (Conversation_get conversation_id w) as [[e|c] w1].
  - destruct e; do 2 eexists; (split; [reflexivity|]);
      (split; [reflexivity|]); split; discriminate.
  - destruct (Conversation_messages_by_created_at c limit w1)
      as [[e|l] w2] eqn:Hq.
    + destruct e; do 2 eexists; (split; [reflexivity|]);
        (split; [discriminate|]); (split; [reflexivity|]);
        intros c0 w0 messages w3 Hc; injection Hc as <- <-;
        rewrite Hq; discriminate.
    + do 2 eexists. split; [reflexivity|]. split; [discriminate|].
      split.
      * intros c0 w0 e w3 Hc. injection Hc as <- <-.
        rewrite Hq. discriminate.
      * intros c0 w0 messages w3 Hc. injection Hc as <- <-.
        rewrite Hq. intro Hm. injection Hm as <- <-.
        split; [apply length_map | reflexivity].
Qed.

(** In the reference world, [get_conversation_history] only reads.  For an
    unknown conversation and for a negative limit it returns the empty
    list, not an error.  Otherwise it returns the entries of the first
    [limit] messages of the conversation, in the order of their creation:
    at most [limit] entries, all of them when the limit is not below their
    number, none for the limit 0, and never a message of another
    conversation. *)
Theorem get_conversation_history_ref (timestamp : Message.t -> string)
  (reaction : Message.t -> option string) (w : Ref.World)
  (conversation_id limit : Z) :
  let H := RefHistory.collaborators timestamp reaction in
  exists l,
    get_conversation_history (H := H) conversation_id limit w = (inr l, w)
    /\ (Ref.conversation_get conversation_id w = None -> l = [])
    /\ ((limit < 0)%Z -> l = [])
    /\ (forall c,
           Ref.conversation_get conversation_id w = Some c ->
           (0 <= limit)%Z ->
           l = map (history_entry (H := H))
                 (firstn (Z.to_nat limit) (RefHistory.messages_of c w))
           /\ length l
              = Nat.min (Z.to_nat limit)
                  (length (RefHistory.messages_of c w))
           /\ forall m,
                In m (firstn (Z.to_nat limit) (RefHistory.messages_of c w)) ->
                In m (Ref.messages w)
                /\ Message.conversation m = conversation_id).
Proof.
  intro H.
  unfold get_conversation_history, try_except, bind.
  cbn [Conversation_get Ref.collaborators].
  destruct (Ref.conversation_get conversation_id w) as [c|] eqn:Hget.
  - cbn [Conversation_messages_by_created_at H RefHistory.collaborators].
    destruct (limit <? 0)%Z eqn:Hneg.
    + apply Z.ltb_lt in Hneg. exists []. split; [reflexivity|].
      split; [discriminate|]. split; [reflexivity|].
      intros c0 _ Hpos. lia.
    + apply Z.ltb_ge in Hneg. eexists. split; [reflexivity|].
      split; [discriminate|]. split; [lia|].
      intros c0 Hc0 _. injection Hc0 as <-.
      split; [reflexivity|]. split.
      * now rewrite length_map, length_firstn.
      * intros m Hm.
        assert (Hin : In m (RefHistory.messages_of c w)).
        { rewrite <- (firstn_skipn (Z.to_nat limit)
                        (RefHistory.messages_of c w)).
          apply in_or_app. now left. }
        unfold RefHistory.messages_of in Hin. apply filter_In in Hin.
        destruct Hin as [Hin Hc]. apply Z.eqb_eq in Hc.
        split; [exact Hin|]. rewrite Hc.
        now apply (conversation_get_id w).
  - exists []. split; [reflexivity|]. split; [reflexivity|].
    split; [reflexivity|]. discriminate.
Qed.


(** ** Worked examples on the second world *)

Lemma system_prompt_is_never_personalised_witness :
  service_keys_only Demo2.started
  /\ Ref.contexts Demo2.started <> []
  /\ exists data,
       _build_conversation_context Demo2.conversation_2 Demo2.started
       = (inr data, Demo2.started)
       /\ _build_fitness_chat_system_prompt (R := Demo.runtime)
            (detected (R := Demo.runtime) "Quero um treino" Demo2.world)
            data
          = inr (Prompt.persona
                   ++ Prompt.focus_line (Some "nutrition_advice")
                   ++ Prompt.closing)%string.
Proof.
  assert (Hkeys : service_keys_only Demo2.started).
  { unfold service_keys_only. vm_compute. repeat constructor. }
  split; [exact Hkeys|]. split; [vm_compute; discriminate|].
  destruct (system_prompt_is_never_personalised Demo.runtime
              Demo2.conversation_2 Demo2.started
              (detected (R := Demo.runtime) "Quero um treino" Demo2.world)
              Hkeys)
    as (data & Hdata & Hprompt).
  exists data. split; [exact Hdata|].
  assert (Ha : answerable
                 (detected (R := Demo.runtime) "Quero um treino" Demo2.world)
               = true) by (vm_compute; reflexivity).
  assert (Hi : intent_string
                 (detected (R := Demo.runtime) "Quero um treino" Demo2.world)
               = Some "nutrition_advice") by (vm_compute; reflexivity).
  rewrite Ha, Hi in Hprompt. exact Hprompt.
Defined.


(** With a backend that classifies without an intent, the entry of the
    user message in the history has no intent. *)
Lemma demo_history_null_intent :
  let w := Demo.world_at 2800 Demo.backend_null in
  let w' := snd (process_user_message (R := Demo.runtime) 1
                   "Quero um treino" w) in
  exists l,
    fst (get_conversation_history (H := Demo2.history) 1 20 w') = inr l
    /\ map (Py.get "type") l
       = [Some (Py.VStr "user"); Some (Py.VStr "ai")]
    /\ map (Py.get "intent") l = [Some Py.VNone; Some Py.VNone].
Proof. vm_compute. eexists. repeat split. Qed.

(** ** The chat request *)

Lemma filter_snoc_true {A : Type} (f : A -> bool) (l : list A) (x : A) :
  f x = true -> filter f (l ++ [x]) = filter f l ++ [x].
Proof. intro H. rewrite filter_app. simpl. now rewrite H. Qed.

(** The prompt can be built for every analysis that can be answered. *)
Lemma build_prompt_returns (R : Runtime) (a : Py.json)
  (data : context_data) :
  answerable a = true ->
  exists prompt, _build_fitness_chat_system_prompt a data = inr prompt.
Proof.
  intro Ha. unfold _build_fitness_chat_system_prompt. cbv zeta.
  destruct a as [| | | | | |items]; try discriminate.
  unfold answerable in Ha. cbn [dict_get].
  destruct (Py.assoc "intent" items) as [v|]; [|eexists; reflexivity].
  destruct v; try discriminate; eexists; reflexivity.
Qed.

(** The request behind an answer.  In the reference world, with the
    backend available, [process_user_message] on an existing conversation
    that has not expired stores the user message.  When the analysis can
    be answered it then sends one chat request: a system message with the
    prompt built for the analysis, then at most six turns, then the
    message as a user turn; eight entries at most.  The turns are the last
    six messages of the conversation, the user message just saved among
    them: the message is in the request twice, as the last turn of the
    history and as the closing user turn.  When the backend answers with a
    text that is not empty, that text is the response and the method is
    [ai_powered]; otherwise the method is [rule_based_fallback].  When the
    analysis cannot be answered the result is the error result. *)
Theorem process_user_message_request (R : Runtime) (w : Ref.World)
  (conversation_id : Z) (message : string) (c : Conversation.t) :
  Ref.conversation_get conversation_id w = Some c ->
  Ref.is_expired c (Ref.clock w) = false ->
  Ref.is_available (Ref.backend w) = true ->
  let a := detected message w in
  exists d w' um,
    process_user_message conversation_id message w = (inr d, w')
    /\ In um (Ref.messages w')
    /\ Message.message_type um = "user"
    /\ Message.content um = message
    /\ if answerable a
       then
         exists prompt data,
           let turns :=
             map turn_of
               (Py.last_n 6 (RefHistory.messages_of c w ++ [um])) in
           let request :=
             {| role := "system"; chat_content := prompt |}
               :: turns
               ++ [{| role := "user"; chat_content := message |}] in
           _build_fitness_chat_system_prompt a data = inr prompt
           /\ (length request <= 8)%nat
           /\ (exists earlier,
                  request
                  = {| role := "system"; chat_content := prompt |}
                      :: earlier
                      ++ [{| role := "user"; chat_content := message |};
                          {| role := "user"; chat_content := message |}])
           /\ match Ref.reply (Ref.backend w) request 500 0.7%Q with
              | Some text =>
                  if Py.truthy text
                  then Py.get "response" d = Some (Py.VStr text)
                       /\ Py.get "method" d = Some (Py.VStr "ai_powered")
                  else Py.get "method" d
                       = Some (Py.VStr "rule_based_fallback")
              | None =>
                  Py.get "method" d = Some (Py.VStr "rule_based_fallback")
              end
       else d = processing_error.
Proof.
  intros Hget Hexp Havail a.
  destruct (process_user_message_ref R w conversation_id message c
              Hget Hexp)
    as (d & w' & um & Hrun & _ & _ & Hum & Hcase).
  fold a in Hcase.
  destruct Hum as (_ & Hcu & Htu & Hcontent).
  exists d, w', um.
  split; [exact Hrun|].
  destruct (answerable a) eqn:Ha.
  - destruct Hcase as (_ & aim & w4 & Hmsgs & Hm4 & Hb4 & _ & Hreply).
    split; [rewrite Hmsgs; apply in_or_app; right; now left|].
    split; [exact Htu|]. split; [exact Hcontent|].
    destruct (build_prompt_returns R a (context_data_of c w4) Ha)
      as (prompt & Hprompt).
    exists prompt, (context_data_of c w4). cbv zeta.
    split; [exact Hprompt|].
    split.
    { simpl length. rewrite length_app, length_map. simpl length.
      pose proof (last_n_length 6 (RefHistory.messages_of c w ++ [um])).
      lia. }
    split.
    { exists (map turn_of (Py.last_n 5 (RefHistory.messages_of c w))).
      assert (Hturn : turn_of um
                      = {| role := "user"; chat_content := message |})
        by (unfold turn_of; now rewrite Htu, Hcontent).
      rewrite last_n_snoc, map_app, <- app_assoc. cbn [map app].
      now rewrite Hturn. }
    unfold ai_reply in Hreply. rewrite Hb4, Havail, Hprompt in Hreply.
    unfold chat_request, RefHistory.messages_of in Hreply.
    rewrite Hm4, filter_snoc_true in Hreply
      by (rewrite Hcu; apply Z.eqb_refl).
    fold (RefHistory.messages_of c w) in Hreply.
    destruct (Ref.reply (Ref.backend w) _ 500 0.7%Q) as [text|].
    + destruct (Py.truthy text).
      * destruct Hreply as (_ & _ & ->). split; reflexivity.
      * destruct Hreply as (_ & _ & ->). reflexivity.
    + destruct Hreply as (_ & _ & ->). reflexivity.
  - destruct Hcase as (Hmsgs & Hd).
    split; [rewrite Hmsgs; apply in_or_app; right; now left|].
    split; [exact Htu|]. split; [exact Hcontent|]. exact Hd.
Qed.

Lemma process_user_message_request_witness :
  let w := Demo.world_at 2800 Demo.backend_up in
  exists d w' um,
    process_user_message (R := Demo.runtime) 1 "Quero um treino" w
    = (inr d, w')
    /\ In um (Ref.messages w')
    /\ Message.message_type um = "user"
    /\ Message.content um = "Quero um treino".
Proof.
  destruct (process_user_message_request Demo.runtime
              (Demo.world_at 2800 Demo.backend_up) 1 "Quero um treino"
              Demo.conversation_1 eq_refl eq_refl eq_refl)
    as (d & w' & um & H1 & H2 & H3 & H4 & _).
  exists d, w', um. repeat split; assumption.
Defined.

